(** * Orchestration layer of the czisch_n8n_api control panel

  A shallow embedding of the browser-side hooks of
  [frontend/src]: the API client ([lib/api]), the notification bus
  ([context/ToastContext.tsx]), the resource stores
  ([hooks/useOrders.ts], [hooks/useCalls.ts]), the schedule coordinator
  ([hooks/useSchedules.ts]) and the workflow orchestrator with its
  debounced configuration synchroniser ([hooks/useScraping.ts]).

  Asynchronous functions are embedded as programs of a small free monad:
  a program is a tree of synchronous commands and of awaited requests,
  and what follows an [await] is the continuation stored under the
  request.  Timers are kept in explicit timer tables. *)

From Stdlib Require Import ZArith List String Ascii Bool Lia Arith.
From Stdlib Require Import DecimalString.
Import ListNotations.

Open Scope string_scope.
Open Scope Z_scope.

(** ** JavaScript values used by the hooks *)

Module JS.

(** Strings are sequences of code units below 256; every literal of the
    source is plain ASCII. *)

(** [!!s] for a string: only the empty string is falsy. *)
Definition truthy (s : string) : bool :=
  match s with
  | EmptyString => false
  | String _ _ => true
  end.

(** [e || d] where [e] is of type [string | undefined]. *)
Definition or_else (e : option string) (d : string) : string :=
  match e with
  | Some s => if truthy s then s else d
  | None => d
  end.

(** [!!e] where [e] is of type [string | undefined]. *)
Definition truthy_opt (e : option string) : bool :=
  match e with
  | Some s => truthy s
  | None => false
  end.

(** [n || 0] for a number. *)
Definition or_zero (n : Z) : Z := if n =? 0 then 0 else n.

(** White space and line terminators stripped by [String.prototype.trim]
    (TAB, LF, VT, FF, CR, SP, NBSP) among the code units below 256. *)
Definition is_space (c : ascii) : bool :=
  let n := nat_of_ascii c in
  (((9 <=? n) && (n <=? 13)) || (n =? 32) || (n =? 160))%nat.

Fixpoint trim_start (s : list ascii) : list ascii :=
  match s with
  | [] => []
  | c :: r => if is_space c then trim_start r else s
  end.

Definition trim_end (s : list ascii) : list ascii :=
  rev (trim_start (rev s)).

(** [s.trim()] *)
Definition trim (s : string) : string :=
  string_of_list_ascii (trim_end (trim_start (list_ascii_of_string s))).

Definition lower_char (c : ascii) : ascii :=
  let n := nat_of_ascii c in
  if ((65 <=? n) && (n <=? 90))%nat then ascii_of_nat (n + 32) else c.

(** [s.toLowerCase()] *)
Fixpoint toLowerCase (s : string) : string :=
  match s with
  | EmptyString => EmptyString
  | String c r => String (lower_char c) (toLowerCase r)
  end.

(** [`${n}`] for an integral number. *)
Definition number_to_string (n : Z) : string :=
  NilZero.string_of_int (Z.to_int n).

End JS.

(** ** The API client ([lib/api]) *)

Module Api.

(** [{ data?: T; error?: string; status: number }] *)
Record ApiResult (T : Type) : Type := mkResult {
  data : option T;
  error : option string;
  status : Z
}.
Arguments mkResult {T} _ _ _.
Arguments data {T} _.
Arguments error {T} _.
Arguments status {T} _.

(** What [fetch] and [response.json()] can do inside [request].  The
    body of an answer that is [ok] is whatever JSON the server sent:
    [HttpOk] when it is a value of [T], [HttpOkFalsy] when it is [null],
    [false], [0] or the empty string.  [Thrown] is whatever is thrown
    inside the [try] block. *)
Inductive Transport (T : Type) : Type :=
| HttpOk (code : Z) (body : T)
| HttpOkFalsy (code : Z)
| HttpNotOk (code : Z) (detail : option string)
| Thrown (message : option string).
Arguments HttpOk {T} _ _.
Arguments HttpOkFalsy {T} _.
Arguments HttpNotOk {T} _ _.
Arguments Thrown {T} _.

(** The result object built by [ApiClient.request]; [Thrown None] is a
    thrown value that is not an [Error].  After [HttpOkFalsy] the object
    is [{ data, status }] with a falsy [data]: every caller tests [data]
    for truth only, so it is [None] here, and no [error] comes with it. *)
Definition request_result {T} (t : Transport T) : ApiResult T :=
  match t with
  | HttpOk code body => mkResult (Some body) None code
  | HttpOkFalsy code => mkResult None None code
  | HttpNotOk code detail =>
      mkResult None (Some (JS.or_else detail "An error occurred")) code
  | Thrown (Some message) => mkResult None (Some message) 0
  | Thrown None => mkResult None (Some "Network error") 0
  end.

(** The headers [ApiClient.request] sends: the credential header is
    attached only for a non-empty key and never for [/health]. *)
Definition request_headers (apiKey endpoint : string)
  : list (string * string) :=
  ("Content-Type", "application/json")
    :: (if JS.truthy apiKey && negb (endpoint =? "/health")%string
        then [("X-API-Key", apiKey)] else []).

Record Order := mkOrder {
  order_pk : Z;             (* id *)
  order_id : string;
  order_status : string     (* status *)
}.

Record OrderListResponse := mkOrderList {
  orders : list Order;
  total : Z
}.

(** The counters of [WorkflowStatusResponse["result"]]; the per-item
    detail arrays are not read by the hooks. *)
Record WorkflowResult := mkWorkflowResult {
  skipped_orders : Z;
  processed_count : Z;
  failed_count : Z
}.

Inductive WorkflowStatus :=
| RUNNING | COMPLETED | FAILED | CANCELED | TERMINATED | TIMED_OUT
| NOT_FOUND.

Definition status_name (s : WorkflowStatus) : string :=
  match s with
  | RUNNING => "RUNNING"
  | COMPLETED => "COMPLETED"
  | FAILED => "FAILED"
  | CANCELED => "CANCELED"
  | TERMINATED => "TERMINATED"
  | TIMED_OUT => "TIMED_OUT"
  | NOT_FOUND => "NOT_FOUND"
  end.

Record WorkflowStatusResponse := mkWorkflowStatus {
  wf_status : WorkflowStatus;               (* status *)
  wf_result : option WorkflowResult;        (* result? *)
  wf_error : option string                  (* error? *)
}.

Record ScrapeTriggeredResponse := mkTriggered {
  workflow_id : string
}.

Record ScrapeConfig := mkScrapeConfig {
  custom_order_list_url : option string
}.

Record Message := mkMessage { message : string }.

Record ScrapeSchedule := mkSchedule {
  schedule_id : Z;
  enabled : bool;
  time_display : string
}.

Record ScheduleListResponse := mkScheduleList {
  schedules : list ScrapeSchedule;
  schedule_active : bool
}.

Record TriggeredAll := mkTriggeredAll {
  triggered_count : Z
}.

Record PendingConversions := mkPending {
  pending_count : Z
}.

End Api.

(** ** Asynchronous programs

  An [async] function is a tree: [Do c k] performs the synchronous
  command [c] and goes on with [k]; [Await r k] issues the request [r],
  suspends, and resumes with [k] applied to the answer. *)

Module Async.

Section Programs.

Variables (Cmd Req : Type) (Resp : Req -> Type).

Inductive Prog (A : Type) : Type :=
| Ret (a : A)
| Do (c : Cmd) (k : Prog A)
| Await (r : Req) (k : Resp r -> Prog A).

Arguments Ret {A} _.
Arguments Do {A} _ _.
Arguments Await {A} _ _.

Fixpoint bind {A B} (p : Prog A) (f : A -> Prog B) : Prog B :=
  match p with
  | Ret a => f a
  | Do c k => Do c (bind k f)
  | Await r k => Await r (fun x => bind (k x) f)
  end.

(** What an observer of the event loop sees: a command executed, a
    request issued, the answer to a request delivered. *)
Inductive Event : Type :=
| EvCmd (c : Cmd)
| EvReq (r : Req)
| EvDone (r : Req).

(** A run of one program on its own: the [n]-th request of the run is
    answered by [srv n]. *)
Fixpoint run {A} (srv : nat -> forall r, Resp r) (n : nat) (p : Prog A)
  : list Event * A :=
  match p with
  | Ret a => ([], a)
  | Do c k =>
      let '(t, a) := run srv n k in (EvCmd c :: t, a)
  | Await r k =>
      let '(t, a) := run srv (S n) (k (srv n r)) in
      (EvReq r :: EvDone r :: t, a)
  end.

Definition trace {A} (srv : nat -> forall r, Resp r) (p : Prog A)
  : list Event := fst (run srv 0 p).

Definition requests (t : list Event) : list Req :=
  flat_map (fun e => match e with EvReq r => [r] | _ => [] end) t.

Definition commands (t : list Event) : list Cmd :=
  flat_map (fun e => match e with EvCmd c => [c] | _ => [] end) t.

(** *** Interleaved runs

    A suspended call: the request in flight and what resumes on its
    answer. *)
Record Task : Type := mkTask {
  task_req : Req;
  task_k : Resp task_req -> Prog unit
}.

Variable St : Type.
Variable exec : Cmd -> St -> St.

(** Run a program up to its first [await]. *)
Fixpoint advance (p : Prog unit) (st : St) : St * option Task :=
  match p with
  | Ret _ => (st, None)
  | Do c k => advance k (exec c st)
  | Await r k => (st, Some (mkTask r k))
  end.

Definition park (o : option Task) (inflight : list Task) : list Task :=
  match o with
  | Some t => inflight ++ [t]
  | None => inflight
  end.

(** A call made from the event loop. *)
Definition call (p : Prog unit) (s : St * list Task) : St * list Task :=
  let '(st, o) := advance p (fst s) in (st, park o (snd s)).

Fixpoint remove_nth {X} (i : nat) (l : list X) : list X :=
  match l, i with
  | [], _ => []
  | _ :: r, O => r
  | x :: r, S j => x :: remove_nth j r
  end.

(** The answer to the [i]-th request in flight arrives. *)
Definition resolve (server : forall r, Resp r) (i : nat)
  (s : St * list Task) : St * list Task :=
  match nth_error (snd s) i with
  | Some t =>
      let '(st, o) := advance (task_k t (server (task_req t))) (fst s) in
      (st, park o (remove_nth i (snd s)))
  | None => s
  end.

(** The final state of a run on its own. *)
Definition final (t : list Event) (st : St) : St :=
  fold_left (fun s c => exec c s) (commands t) st.

End Programs.

Arguments Ret {Cmd Req Resp A} _.
Arguments Do {Cmd Req Resp A} _ _.
Arguments Await {Cmd Req Resp A} _ _.
Arguments bind {Cmd Req Resp A B} _ _.
Arguments EvCmd {Cmd Req} _.
Arguments EvReq {Cmd Req} _.
Arguments EvDone {Cmd Req} _.
Arguments run {Cmd Req Resp A} _ _ _.
Arguments trace {Cmd Req Resp A} _ _.
Arguments requests {Cmd Req} _.
Arguments commands {Cmd Req} _.
Arguments mkTask {Cmd Req Resp} _ _.
Arguments task_req {Cmd Req Resp} _.
Arguments task_k {Cmd Req Resp} _ _.
Arguments advance {Cmd Req Resp St} _ _ _.
Arguments call {Cmd Req Resp St} _ _ _.
Arguments resolve {Cmd Req Resp St} _ _ _ _.
Arguments final {Cmd Req St} _ _ _.

Section Unawaited.

Variables (Cmd Req : Type) (Resp : Req -> Type).

(** A call [p()] made without [await] by a caller that ends with the
    synchronous commands [cs]: [p] runs up to its first [await], the
    caller runs to its end, and the rest of [p] runs once the answer is
    there.  The run records the request where [p] suspends on it. *)
Fixpoint unawaited (p : Prog Cmd Req Resp unit) (cs : list Cmd)
  : Prog Cmd Req Resp unit :=
  match p with
  | Ret _ => fold_right (fun c k => Do c k) (Ret tt) cs
  | Do c k => Do c (unawaited k cs)
  | Await r k => fold_right (fun c k' => Do c k') (Await r k) cs
  end.

End Unawaited.

Arguments unawaited {Cmd Req Resp} _ _.

End Async.

Notation "x <- c ;; k" := (Async.bind c (fun x => k))
(at level 61, c at next level, right associativity).
Notation "c ;;; k" := (Async.Do c k)
(at level 61, right associativity).

(** ** Shared enumerations of the hooks *)

(** ["success" | "error"], the kind of a toast. *)
Inductive ToastType := toast_success | toast_error.

(** [type StatusType = "idle" | "loading" | "success" | "error"] *)
Inductive StatusType := st_idle | st_loading | st_success | st_error.

(** How a call ends: [return v] or [throw new Error(message)]. *)
Inductive Completion (A : Type) : Type :=
| Return (v : A)
| Throw (message : string).
Arguments Return {A} _.
Arguments Throw {A} _.

(** ** [hooks/useScraping.ts] *)

Module Scraping.

Import Api Async.

Definition DEFAULT_SCRAPE_URL : string :=
  "https://hapodu.duisburg.de/risource/do/order/list/editable?initSearch=true&reset=false".

(** Synchronous effects of the hook: state setters, the toast and
    completion callbacks it is given, and [apiClient.setApiKey]. *)
Inductive Cmd :=
| SetApiKey (key : string)
| ShowToast (message : string) (type : ToastType)
| SetScrapeStatus (s : StatusType)
| SetScrapeResult (r : option WorkflowResult)
| SetScrapeUrl (url : string)
| SetCurrentWorkflowId (id : option string)
| SetPendingCount (n : Z)
| OnScrapeComplete.

(** What the hook awaits: calls of the API client, and
    [new Promise(resolve => setTimeout(resolve, ms))]. *)
Inductive Req :=
| GetScrapeConfig
| UpdateScrapeConfig (customUrl : option string)
| SyncSchedules
| ScrapeOrders (orderListUrl : string)
| GetWorkflowStatus (workflowId : string)
| GetPendingConversions
| Timeout (ms : Z).

Definition Resp (r : Req) : Type :=
  match r with
  | GetScrapeConfig => ApiResult ScrapeConfig
  | GetPendingConversions => ApiResult PendingConversions
  | UpdateScrapeConfig _ => ApiResult ScrapeConfig
  | SyncSchedules => ApiResult Message
  | ScrapeOrders _ => ApiResult ScrapeTriggeredResponse
  | GetWorkflowStatus _ => ApiResult WorkflowStatusResponse
  | Timeout _ => unit
  end.

Abbreviation Prog := (Async.Prog Cmd Req Resp).
Abbreviation Event := (Async.Event Cmd Req).
Definition Server := nat -> forall r, Resp r.

Definition done : Prog unit := Ret tt.

Definition await {A} (r : Req) (k : Resp r -> Prog A) : Prog A :=
  Await r k.

(** *** [loadSavedUrl], [fetchPendingCount] *)

Definition loadSavedUrl (apiKey : string) : Prog unit :=
  if negb (JS.truthy apiKey) then done
  else
    SetApiKey apiKey ;;;
    await GetScrapeConfig (fun res =>
      match data res with
      | Some d =>
          if JS.truthy_opt (custom_order_list_url d) then
            SetScrapeUrl (JS.or_else (custom_order_list_url d) "") ;;; done
          else done
      | None => done
      end).

Definition fetchPendingCount (apiKey : string) : Prog unit :=
  if negb (JS.truthy apiKey) then done
  else
    SetApiKey apiKey ;;;
    await GetPendingConversions (fun res =>
      match data res with
      | Some d => SetPendingCount (pending_count d) ;;; done
      | None => done
      end).

(** *** [saveUrlToBackend] *)

(** [url.trim() === DEFAULT_SCRAPE_URL ? null : url.trim() || null] *)
Definition urlToSave (url : string) : option string :=
  if (JS.trim url =? DEFAULT_SCRAPE_URL)%string then None
  else if JS.truthy (JS.trim url) then Some (JS.trim url) else None.

Definition saveUrlToBackend (apiKey url : string) : Prog unit :=
  if negb (JS.truthy apiKey) then done
  else
    SetApiKey apiKey ;;;
    await (UpdateScrapeConfig (urlToSave url)) (fun res =>
      if JS.truthy_opt (error res) then
        ShowToast "Failed to save URL" toast_error ;;; done
      else
        await SyncSchedules (fun _ =>
          ShowToast "URL saved" toast_success ;;; done)).

(** *** [pollWorkflowStatus] *)

Definition maxAttempts : nat := 120.

Definition PollOutcome := Completion (option WorkflowResult).

(** The [while (attempts < maxAttempts)] loop, by recursion on
    [remaining = maxAttempts - attempts]. *)
Fixpoint poll_loop (remaining : nat) (workflowId : string)
  : Prog PollOutcome :=
  match remaining with
  | O => Ret (Throw "Workflow timed out")
  | S remaining' =>
      await (GetWorkflowStatus workflowId) (fun res =>
        match (if JS.truthy_opt (error res) then None else data res) with
        | None =>
            Ret (Throw (JS.or_else (error res)
                          "Failed to get workflow status"))
        | Some d =>
            match wf_status d with
            | COMPLETED => Ret (Return (wf_result d))
            | FAILED | CANCELED | TERMINATED =>
                Ret (Throw (JS.or_else (wf_error d)
                              ("Workflow "
                               ++ JS.toLowerCase (status_name (wf_status d)))))
            | _ =>
                await (Timeout 5000) (fun _ =>
                  poll_loop remaining' workflowId)
            end
        end)
  end.

Definition pollWorkflowStatus (workflowId : string) : Prog PollOutcome :=
  poll_loop maxAttempts workflowId.

(** *** [runScrape] *)

Definition done_message (result : WorkflowResult) : string * ToastType :=
  let newCount := JS.or_zero (processed_count result) in
  let skippedCount := JS.or_zero (skipped_orders result) in
  let failedCount := JS.or_zero (failed_count result) in
  if failedCount >? 0 then
    ("Done: " ++ JS.number_to_string newCount ++ " processed, "
      ++ JS.number_to_string skippedCount ++ " skipped, "
      ++ JS.number_to_string failedCount ++ " failed", toast_error)
  else
    ("Done: " ++ JS.number_to_string newCount ++ " processed, "
      ++ JS.number_to_string skippedCount ++ " skipped", toast_success).

(** The [try { ... } catch (err) { ... }] block, after
    [pollWorkflowStatus] has settled. *)
Definition on_settled (c : PollOutcome) : Prog unit :=
  match c with
  | Return (Some result) =>
      SetScrapeResult (Some result) ;;;
      SetScrapeStatus st_success ;;;
      ShowToast (fst (done_message result)) (snd (done_message result)) ;;;
      OnScrapeComplete ;;; done
  | Return None =>
      SetScrapeStatus st_success ;;;
      ShowToast "Workflow completed" toast_success ;;;
      OnScrapeComplete ;;; done
  | Throw message =>
      SetScrapeStatus st_error ;;;
      ShowToast message toast_error ;;; done
  end.

Definition runScrape (apiKey scrapeUrl : string) : Prog unit :=
  if negb (JS.truthy apiKey) then
    ShowToast "API key required" toast_error ;;; done
  else if negb (JS.truthy (JS.trim scrapeUrl)) then
    ShowToast "Order list URL required" toast_error ;;; done
  else
    SetScrapeStatus st_loading ;;;
    SetScrapeResult None ;;;
    SetCurrentWorkflowId None ;;;
    SetApiKey apiKey ;;;
    await (ScrapeOrders scrapeUrl) (fun res =>
      match data res with
      | None =>
          SetScrapeStatus st_error ;;;
          ShowToast (JS.or_else (error res) "Failed to start scraping") toast_error ;;;
          done
      | Some d =>
          SetCurrentWorkflowId (Some (workflow_id d)) ;;;
          ShowToast "Workflow started - please wait..." toast_success ;;;
          (c <- pollWorkflowStatus (workflow_id d) ;;
           _ <- on_settled c ;;
           SetCurrentWorkflowId None ;;; done)
      end).

(** *** The state the commands act on *)

Record Hook := mkHook {
  scrapeStatus : StatusType;
  scrapeResult : option WorkflowResult;
  scrapeUrl : string;
  currentWorkflowId : option string;
  pendingCount : Z;
  clientKey : string;                       (* apiClient.apiKey *)
  shown : list (string * ToastType);        (* calls of showToast *)
  completions : nat                         (* calls of onScrapeComplete *)
}.

Definition exec (c : Cmd) (h : Hook) : Hook :=
  match c with
  | SetApiKey k =>
      mkHook (scrapeStatus h) (scrapeResult h) (scrapeUrl h)
        (currentWorkflowId h) (pendingCount h) k (shown h) (completions h)
  | ShowToast m ty =>
      mkHook (scrapeStatus h) (scrapeResult h) (scrapeUrl h)
        (currentWorkflowId h) (pendingCount h) (clientKey h)
        (shown h ++ [(m, ty)]) (completions h)
  | SetScrapeStatus s =>
      mkHook s (scrapeResult h) (scrapeUrl h)
        (currentWorkflowId h) (pendingCount h) (clientKey h) (shown h)
        (completions h)
  | SetScrapeResult r =>
      mkHook (scrapeStatus h) r (scrapeUrl h)
        (currentWorkflowId h) (pendingCount h) (clientKey h) (shown h)
        (completions h)
  | SetScrapeUrl u =>
      mkHook (scrapeStatus h) (scrapeResult h) u
        (currentWorkflowId h) (pendingCount h) (clientKey h) (shown h)
        (completions h)
  | SetCurrentWorkflowId i =>
      mkHook (scrapeStatus h) (scrapeResult h) (scrapeUrl h)
        i (pendingCount h) (clientKey h) (shown h) (completions h)
  | SetPendingCount n =>
      mkHook (scrapeStatus h) (scrapeResult h) (scrapeUrl h)
        (currentWorkflowId h) n (clientKey h) (shown h) (completions h)
  | OnScrapeComplete =>
      mkHook (scrapeStatus h) (scrapeResult h) (scrapeUrl h)
        (currentWorkflowId h) (pendingCount h) (clientKey h) (shown h)
        (S (completions h))
  end.

(** [useState] initial values of the hook. *)
Definition initial : Hook :=
  mkHook st_idle None DEFAULT_SCRAPE_URL None 0 "" [] 0.

(** The toasts and completion callbacks of a trace. *)
Definition toasts_of (t : list Event) : list (string * ToastType) :=
  flat_map (fun c => match c with ShowToast m ty => [(m, ty)] | _ => [] end)
    (commands t).

Definition callbacks_of (t : list Event) : nat :=
  List.length (filter (fun c => match c with OnScrapeComplete => true | _ => false end)
            (commands t)).

Definition polls_of (t : list Event) : nat :=
  List.length (filter (fun r => match r with GetWorkflowStatus _ => true | _ => false end)
            (requests t)).

Definition waits_of (t : list Event) : list Z :=
  flat_map (fun r => match r with Timeout ms => [ms] | _ => [] end)
    (requests t).

End Scraping.

(** ** The debounced save of [useScraping]: [handleScrapeUrlChange] *)

Module UrlEditor.

(** A pending [setTimeout(() => saveUrlToBackend(url), 1000)]: its
    handle, the time it is due and the [url] its closure holds. *)
Record Timer := mkTimer {
  timer_id : Z;
  timer_due : Z;
  timer_url : string
}.

Record Editor := mkEditor {
  scrapeUrl : string;
  saveTimeoutRef : option Z;      (* saveTimeoutRef.current *)
  timers : list Timer;            (* the timer table of the event loop *)
  next_timer : Z;                 (* the next handle [setTimeout] returns *)
  saved : list (Z * string)       (* calls of [saveUrlToBackend]: when, url *)
}.

(** [useState(DEFAULT_SCRAPE_URL)], [useRef(null)]; handles are
    positive. *)
Definition initial : Editor :=
  mkEditor Scraping.DEFAULT_SCRAPE_URL None [] 1 [].

(** [clearTimeout(id)]: nothing happens for a timer that has fired. *)
Definition clearTimeout (id : Z) (ts : list Timer) : list Timer :=
  filter (fun t => negb (timer_id t =? id)) ts.

Definition handleScrapeUrlChange (now : Z) (url : string) (e : Editor)
  : Editor :=
  let ts :=
    match saveTimeoutRef e with
    | Some id => clearTimeout id (timers e)
    | None => timers e
    end in
  mkEditor url (Some (next_timer e))
    (ts ++ [mkTimer (next_timer e) (now + 1000) url])
    (next_timer e + 1) (saved e).

(** The event loop runs the callbacks of the timers due at [now]; each
    calls [saveUrlToBackend] with the url of its closure. *)
Definition fire_due (now : Z) (e : Editor) : Editor :=
  mkEditor (scrapeUrl e) (saveTimeoutRef e)
    (filter (fun t => negb (timer_due t <=? now)) (timers e))
    (next_timer e)
    (saved e ++ map (fun t => (timer_due t, timer_url t))
                  (filter (fun t => timer_due t <=? now) (timers e))).

(** An edit typed at a given time, after the timers due by then. *)
Definition edit_at (e : Editor) (ev : Z * string) : Editor :=
  handleScrapeUrlChange (fst ev) (snd ev) (fire_due (fst ev) e).

Definition type_all (edits : list (Z * string)) (e : Editor) : Editor :=
  fold_left edit_at edits e.

(** The persist requests sent by the recorded calls. *)
Definition persists (apiKey : string) (srv : Scraping.Server)
  (calls : list (Z * string)) : list (option string) :=
  flat_map (fun c =>
    flat_map (fun r => match r with
                       | Scraping.UpdateScrapeConfig v => [v]
                       | _ => []
                       end)
      (Async.requests
         (Async.trace srv (Scraping.saveUrlToBackend apiKey (snd c)))))
    calls.

(** Edits each less than the settle window after the one before. *)
Fixpoint burst (t : Z) (edits : list (Z * string)) : Prop :=
  match edits with
  | [] => True
  | (t', _) :: rest => t <= t' < t + 1000 /\ burst t' rest
  end.

(** Exactly one save is scheduled: for the url [v] typed at [t]. *)
Definition armed (t : Z) (v : string) (calls : list (Z * string))
  (e : Editor) : Prop :=
  exists id,
    scrapeUrl e = v /\ saveTimeoutRef e = Some id
    /\ timers e = [mkTimer id (t + 1000) v] /\ saved e = calls.

End UrlEditor.

(** ** Numbers as JavaScript has them

    [Date.now() * 1000 + (counter % 1000)] is computed on doubles.  The
    operands are integers, and an integer result is rounded to the nearest
    double, ties going to the even significand.  Time values stay below
    8.64e15 in absolute value, far from overflow. *)

Module Double.

(** 2^53: up to here every integer is a double. *)
Definition limit : Z := 9007199254740992.

(** The double nearest to a natural number. *)
Definition round_nat (p : Z) : Z :=
  if p <? limit then p
  else
    let unit := 2 ^ (Z.log2 p - 52) in
    let q := p / unit in
    let r := p mod unit in
    if 2 * r <? unit then q * unit
    else if unit <? 2 * r then (q + 1) * unit
    else if Z.even q then q * unit
    else (q + 1) * unit.

Definition round (z : Z) : Z :=
  if z <? 0 then - round_nat (- z) else round_nat z.

Definition mul (a b : Z) : Z := round (a * b).

Definition add (a b : Z) : Z := round (a + b).

End Double.

(** ** [context/ToastContext.tsx] *)

Module ToastContext.

Record Toast := mkToast {
  id : Z;
  message : string;
  type : ToastType
}.

(** The provider: the [toasts] state, [toastCounterRef.current], and
    the pending removal timers (when due on the clock of the event loop,
    which id they filter out). *)
Record Provider := mkProvider {
  toasts : list Toast;
  toastCounterRef : Z;
  timers : list (Z * Z)
}.

Definition initial : Provider := mkProvider [] 0 [].

(** [Date.now() * 1000 + (toastCounterRef.current++ % 1000)] *)
Definition make_id (now counter : Z) : Z :=
  Double.add (Double.mul now 1000) (Z.rem counter 1000).

(** [showToast(message, type)] called when the clock of the event loop
    shows [clock] and [Date.now()] returns [now].  [setTimeout] counts its
    4000 ms on the clock of the event loop, which never runs backwards;
    [Date.now()] is the time of the system, which can be set. *)
Definition showToast (clock now : Z) (message : string) (type : ToastType)
  (p : Provider) : Provider :=
  let id := make_id now (toastCounterRef p) in
  mkProvider (toasts p ++ [mkToast id message type])
    (Double.add (toastCounterRef p) 1)
    (timers p ++ [(clock + 4000, id)]).

(** [prev.filter((t) => t.id !== id)] *)
Definition dismiss (i : Z) (ts : list Toast) : list Toast :=
  filter (fun t => negb (id t =? i)) ts.

(** The event loop runs the removal callbacks due when its clock shows
    [clock]. *)
Definition fire_due (clock : Z) (p : Provider) : Provider :=
  mkProvider
    (fold_left (fun ts tm => dismiss (snd tm) ts)
       (filter (fun tm => fst tm <=? clock) (timers p)) (toasts p))
    (toastCounterRef p)
    (filter (fun tm => negb (fst tm <=? clock)) (timers p)).

(** A call of [showToast]: how long after the call before on the clock
    of the event loop, what [Date.now()] returns, and the arguments. *)
Record Push := mkPush {
  after : N;
  now : Z;
  text : string;
  kind : ToastType
}.

(** A push, after the timers due by then (a timer and a push that fall
    on the same millisecond are taken in this order); the state carries
    the clock of the event loop. *)
Definition push_at (s : Z * Provider) (ev : Push) : Z * Provider :=
  let clock := fst s + Z.of_N (after ev) in
  (clock,
   showToast clock (now ev) (text ev) (kind ev) (fire_due clock (snd s))).

Definition push_all (evs : list Push) : Z * Provider :=
  fold_left push_at evs (0, initial).

(** The provider [later] ms after the last push. *)
Definition observe (later : N) (s : Z * Provider) : Provider :=
  fire_due (fst s + Z.of_N later) (snd s).

(** *** What the provider should hold

    The pushes in the order they are made, each with its number and
    the time of the event loop at which it is made. *)
Record Stamped := mkStamped {
  index : nat;
  time : Z;
  push : Push
}.

Fixpoint stamped (n : nat) (clock : Z) (evs : list Push) : list Stamped :=
  match evs with
  | [] => []
  | ev :: rest =>
      mkStamped n (clock + Z.of_N (after ev)) ev
        :: stamped (S n) (clock + Z.of_N (after ev)) rest
  end.

Definition clock_after (clock : Z) (evs : list Push) : Z :=
  fold_left (fun c ev => c + Z.of_N (after ev)) evs clock.

Definition end_time (evs : list Push) : Z := clock_after 0 evs.

(** The counter after [n] increments: a double stops counting at 2^53. *)
Definition counter_of (n : nat) : Z := Z.min (Z.of_nat n) Double.limit.

Definition slot (n : nat) : Z := Z.rem (counter_of n) 1000.

Definition id_of (x : Stamped) : Z :=
  make_id (now (push x)) (counter_of (index x)).

Definition toast_of (x : Stamped) : Toast :=
  mkToast (id_of x) (text (push x)) (kind (push x)).

Definition timer_of (x : Stamped) : Z * Z := (time x + 4000, id_of x).

(** Pushed less than 4000 ms before the clock shows [t]. *)
Definition alive (t : Z) (x : Stamped) : bool := t <? time x + 4000.

Definition state_at (evs : list Push) (t : Z) : Provider :=
  mkProvider (map toast_of (filter (alive t) (stamped 0 0 evs)))
    (counter_of (List.length evs))
    (map timer_of (filter (alive t) (stamped 0 0 evs))).

(** The readings of [Date.now()] for which the id is computed exactly:
    from -9007199254740 to 9007199254739. *)
Definition exact (now : Z) : Prop :=
  - Double.limit <= now * 1000 /\ now * 1000 + 999 <= Double.limit.

(** Two pushes at most 4000 ms apart get different ids. *)
Definition apart (x y : Stamped) : Prop :=
  time y <= time x + 4000 -> id_of x <> id_of y.

Definition no_clash (evs : list Push) : Prop :=
  ForallOrdPairs apart (stamped 0 0 evs).

(** Two pushes at most 4000 ms apart that read the same [Date.now()]
    find the counter at different values modulo 1000. *)
Definition spaced (x y : Stamped) : Prop :=
  time y <= time x + 4000 ->
  now (push x) = now (push y) ->
  slot (index x) <> slot (index y).

Definition spread (evs : list Push) : Prop :=
  ForallOrdPairs spaced (stamped 0 0 evs).

End ToastContext.

(** ** [hooks/useOrders.ts] *)

Module Orders.

Import Api Async.

Definition PAGE_SIZE : Z := 10.

(** The closures handed to [setTimeout] by the hook. *)
Inductive Callback :=
| RefetchOrders (page : Z)          (* () => fetchOrders(currentPage) *)
| ResetUploadAllStatus.             (* () => setUploadAllStatus("idle") *)

Inductive Cmd :=
| SetApiKey (key : string)
| SetOrders (items : list Order)
| SetOrdersTotal (n : Z)
| SetOrdersStatus (s : StatusType)
| SetPendingUploads (n : Z)
| SetCurrentPage (page : Z)
| SetUploadAllStatus (s : StatusType)
| ShowToast (message : string) (type : ToastType)
| SetTimeout (cb : Callback) (ms : Z).

Inductive Req :=
| GetOrders (skip limit : Z)
| DeleteOrder (id : Z)
| TriggerUpload (orderId : Z)
| TriggerAllUploads.

Definition Resp (r : Req) : Type :=
  match r with
  | GetOrders _ _ => ApiResult OrderListResponse
  | DeleteOrder _ => ApiResult Message
  | TriggerUpload _ => ApiResult ScrapeTriggeredResponse
  | TriggerAllUploads => ApiResult TriggeredAll
  end.

(** The method and endpoint [ApiClient] passes to [request]. *)
Definition method (r : Req) : string :=
  match r with
  | GetOrders _ _ => "GET"
  | DeleteOrder _ => "DELETE"
  | TriggerUpload _ => "POST"
  | TriggerAllUploads => "POST"
  end.

Definition endpoint (r : Req) : string :=
  match r with
  | GetOrders skip limit =>
      "/api/v1/orders?skip=" ++ JS.number_to_string skip
        ++ "&limit=" ++ JS.number_to_string limit
  | DeleteOrder id => "/api/v1/orders/" ++ JS.number_to_string id
  | TriggerUpload orderId =>
      "/api/v1/exports/" ++ JS.number_to_string orderId ++ "/upload"
  | TriggerAllUploads => "/api/v1/exports/upload-all"
  end.

Abbreviation Prog := (Async.Prog Cmd Req Resp).
Abbreviation Event := (Async.Event Cmd Req).
Definition Server := nat -> forall r, Resp r.

Definition done : Prog unit := Ret tt.

Definition await {A} (r : Req) (k : Resp r -> Prog A) : Prog A :=
  Await r k.

Definition fetchOrders (apiKey : string) (page : Z) : Prog unit :=
  if negb (JS.truthy apiKey) then done
  else
    SetOrdersStatus st_loading ;;;
    SetApiKey apiKey ;;;
    let skip := page * PAGE_SIZE in
    await (GetOrders skip PAGE_SIZE) (fun res =>
      match data res with
      | Some d =>
          SetOrders (orders d) ;;;
          SetOrdersTotal (total d) ;;;
          SetOrdersStatus st_success ;;;
          let converted :=
            Z.of_nat (List.length
              (filter (fun o => (order_status o =? "converted")%string)
                 (orders d))) in
          SetPendingUploads converted ;;; done
      | None =>
          SetOrders [] ;;;
          SetOrdersStatus st_error ;;;
          ShowToast (JS.or_else (error res) "Failed to fetch orders")
            toast_error ;;;
          done
      end).

Definition deleteOrder (apiKey : string) (currentPage id : Z)
  : Prog unit :=
  SetApiKey apiKey ;;;
  await (DeleteOrder id) (fun res =>
    match data res with
    | Some d =>
        ShowToast (message d) toast_success ;;;
        fetchOrders apiKey currentPage
    | None =>
        ShowToast (JS.or_else (error res) "Failed to delete order")
          toast_error ;;;
        done
    end).

Definition uploadSingleOrder (apiKey : string) (currentPage orderId : Z)
  : Prog unit :=
  SetApiKey apiKey ;;;
  await (TriggerUpload orderId) (fun res =>
    match data res with
    | Some _ =>
        ShowToast ("Upload triggered for order "
                   ++ JS.number_to_string orderId) toast_success ;;;
        SetTimeout (RefetchOrders currentPage) 3000 ;;; done
    | None =>
        ShowToast (JS.or_else (error res) "Failed to trigger upload")
          toast_error ;;;
        done
    end).

Definition uploadAllOrders (apiKey : string) (currentPage : Z)
  : Prog unit :=
  if negb (JS.truthy apiKey) then
    ShowToast "API key required" toast_error ;;; done
  else
    SetUploadAllStatus st_loading ;;;
    SetApiKey apiKey ;;;
    await TriggerAllUploads (fun res =>
      _ <- match data res with
           | Some d =>
               SetUploadAllStatus st_success ;;;
               if triggered_count d >? 0 then
                 ShowToast (JS.number_to_string (triggered_count d)
                            ++ " upload(s) triggered") toast_success ;;;
                 SetTimeout (RefetchOrders currentPage) 3000 ;;; done
               else
                 ShowToast "No pending uploads" toast_success ;;; done
           | None =>
               SetUploadAllStatus st_error ;;;
               ShowToast (JS.or_else (error res) "Failed to trigger uploads")
                 toast_error ;;;
               done
           end ;;
      SetTimeout ResetUploadAllStatus 3000 ;;; done).

Definition goToPage (apiKey : string) (page : Z) : Prog unit :=
  SetCurrentPage page ;;;
  fetchOrders apiKey page.

Record Store := mkStore {
  orders : list Order;
  ordersTotal : Z;
  ordersStatus : StatusType;
  currentPage : Z;
  pendingUploads : Z;
  uploadAllStatus : StatusType;
  clientKey : string;                       (* apiClient.apiKey *)
  shown : list (string * ToastType);        (* calls of showToast *)
  timeouts : list (Callback * Z)            (* calls of setTimeout *)
}.

Definition exec (c : Cmd) (s : Store) : Store :=
  match c with
  | SetApiKey k =>
      mkStore (orders s) (ordersTotal s) (ordersStatus s) (currentPage s)
        (pendingUploads s) (uploadAllStatus s) k (shown s) (timeouts s)
  | SetOrders l =>
      mkStore l (ordersTotal s) (ordersStatus s) (currentPage s)
        (pendingUploads s) (uploadAllStatus s) (clientKey s) (shown s)
        (timeouts s)
  | SetOrdersTotal n =>
      mkStore (orders s) n (ordersStatus s) (currentPage s)
        (pendingUploads s) (uploadAllStatus s) (clientKey s) (shown s)
        (timeouts s)
  | SetOrdersStatus x =>
      mkStore (orders s) (ordersTotal s) x (currentPage s)
        (pendingUploads s) (uploadAllStatus s) (clientKey s) (shown s)
        (timeouts s)
  | SetPendingUploads n =>
      mkStore (orders s) (ordersTotal s) (ordersStatus s) (currentPage s)
        n (uploadAllStatus s) (clientKey s) (shown s) (timeouts s)
  | SetCurrentPage n =>
      mkStore (orders s) (ordersTotal s) (ordersStatus s) n
        (pendingUploads s) (uploadAllStatus s) (clientKey s) (shown s)
        (timeouts s)
  | SetUploadAllStatus x =>
      mkStore (orders s) (ordersTotal s) (ordersStatus s) (currentPage s)
        (pendingUploads s) x (clientKey s) (shown s) (timeouts s)
  | ShowToast m ty =>
      mkStore (orders s) (ordersTotal s) (ordersStatus s) (currentPage s)
        (pendingUploads s) (uploadAllStatus s) (clientKey s)
        (shown s ++ [(m, ty)]) (timeouts s)
  | SetTimeout cb ms =>
      mkStore (orders s) (ordersTotal s) (ordersStatus s) (currentPage s)
        (pendingUploads s) (uploadAllStatus s) (clientKey s) (shown s)
        (timeouts s ++ [(cb, ms)])
  end.

(** [useState] initial values of the hook. *)
Definition initial : Store :=
  mkStore [] 0 st_idle 0 0 st_idle "" [] [].

(** The store together with its calls in flight. *)
Definition Loop : Type := Store * list (Async.Task Cmd Req Resp).

Definition call (p : Prog unit) (l : Loop) : Loop := Async.call exec p l.

Definition resolve (server : forall r, Resp r) (i : nat) (l : Loop)
  : Loop := Async.resolve exec server i l.

End Orders.

(** ** [hooks/useCalls.ts] *)

Module Calls.

Import Api Async.

Definition PAGE_SIZE : Z := 10.

(** A call record: its id and the rest of its fields, which the hook
    does not read. *)
Record Call := mkCall {
  call_pk : Z;
  call_id : string
}.

Record CallListResponse := mkCallList {
  calls : list Call;
  total : Z
}.

Inductive Cmd :=
| SetApiKey (key : string)
| SetCalls (items : list Call)
| SetCallsTotal (n : Z)
| SetCallsStatus (s : StatusType)
| SetCallsPage (page : Z)
| ShowToast (message : string) (type : ToastType).

Inductive Req :=
| GetCalls (skip limit : Z)
| DeleteCall (id : Z).

Definition Resp (r : Req) : Type :=
  match r with
  | GetCalls _ _ => ApiResult CallListResponse
  | DeleteCall _ => ApiResult Message
  end.

Abbreviation Prog := (Async.Prog Cmd Req Resp).

Definition done : Prog unit := Ret tt.

Definition await {A} (r : Req) (k : Resp r -> Prog A) : Prog A :=
  Await r k.

Definition fetchCalls (apiKey : string) (page : Z) : Prog unit :=
  if negb (JS.truthy apiKey) then done
  else
    SetCallsStatus st_loading ;;;
    SetApiKey apiKey ;;;
    let skip := page * PAGE_SIZE in
    await (GetCalls skip PAGE_SIZE) (fun res =>
      match data res with
      | Some d =>
          SetCalls (calls d) ;;;
          SetCallsTotal (total d) ;;;
          SetCallsStatus st_success ;;; done
      | None =>
          SetCalls [] ;;;
          SetCallsStatus st_error ;;;
          ShowToast (JS.or_else (error res) "Failed to fetch calls")
            toast_error ;;;
          done
      end).


Definition goToPage (apiKey : string) (page : Z) : Prog unit :=
  SetCallsPage page ;;;
  fetchCalls apiKey page.

Record Store := mkStore {
  callsItems : list Call;                   (* calls *)
  callsTotal : Z;
  callsStatus : StatusType;
  callsPage : Z;
  clientKey : string;
  shown : list (string * ToastType)
}.

Definition exec (c : Cmd) (s : Store) : Store :=
  match c with
  | SetApiKey k =>
      mkStore (callsItems s) (callsTotal s) (callsStatus s) (callsPage s)
        k (shown s)
  | SetCalls l =>
      mkStore l (callsTotal s) (callsStatus s) (callsPage s)
        (clientKey s) (shown s)
  | SetCallsTotal n =>
      mkStore (callsItems s) n (callsStatus s) (callsPage s)
        (clientKey s) (shown s)
  | SetCallsStatus x =>
      mkStore (callsItems s) (callsTotal s) x (callsPage s)
        (clientKey s) (shown s)
  | SetCallsPage n =>
      mkStore (callsItems s) (callsTotal s) (callsStatus s) n
        (clientKey s) (shown s)
  | ShowToast m ty =>
      mkStore (callsItems s) (callsTotal s) (callsStatus s) (callsPage s)
        (clientKey s) (shown s ++ [(m, ty)])
  end.

Definition initial : Store := mkStore [] 0 st_idle 0 "" [].

Definition Loop : Type := Store * list (Async.Task Cmd Req Resp).

Definition call (p : Prog unit) (l : Loop) : Loop := Async.call exec p l.

Definition resolve (server : forall r, Resp r) (i : nat) (l : Loop)
  : Loop := Async.resolve exec server i l.

End Calls.

(** ** [hooks/useSchedules.ts] *)

Module Schedules.

Import Api Async.

Inductive Cmd :=
| SetApiKey (key : string)
| SetSchedules (items : list ScrapeSchedule)
| SetScheduleActive (b : bool)
| SetScheduleStatus (s : StatusType)
| ShowToast (message : string) (type : ToastType)
| ConsoleError (message : string)
| ResetScheduleStatusIn (ms : Z).   (* setTimeout(() => setScheduleStatus("idle"), ms) *)

Inductive Req :=
| GetSchedules
| CreateSchedule (hour minute : Z)
| DeleteSchedule (scheduleId : Z)
| ToggleSchedule (scheduleId : Z)
| SyncSchedules.

Definition Resp (r : Req) : Type :=
  match r with
  | GetSchedules => ApiResult ScheduleListResponse
  | CreateSchedule _ _ => ApiResult ScrapeSchedule
  | DeleteSchedule _ => ApiResult Message
  | ToggleSchedule _ => ApiResult ScrapeSchedule
  | SyncSchedules => ApiResult Message
  end.

Definition method (r : Req) : string :=
  match r with
  | GetSchedules => "GET"
  | CreateSchedule _ _ => "POST"
  | DeleteSchedule _ => "DELETE"
  | ToggleSchedule _ => "PUT"
  | SyncSchedules => "POST"
  end.

Definition endpoint (r : Req) : string :=
  match r with
  | GetSchedules => "/api/v1/schedules"
  | CreateSchedule _ _ => "/api/v1/schedules"
  | DeleteSchedule scheduleId =>
      "/api/v1/schedules/" ++ JS.number_to_string scheduleId
  | ToggleSchedule scheduleId =>
      "/api/v1/schedules/" ++ JS.number_to_string scheduleId ++ "/toggle"
  | SyncSchedules => "/api/v1/schedules/sync"
  end.

Abbreviation Prog := (Async.Prog Cmd Req Resp).
Definition Server := nat -> forall r, Resp r.

Definition done : Prog unit := Ret tt.

Definition await {A} (r : Req) (k : Resp r -> Prog A) : Prog A :=
  Await r k.

Definition fetchSchedules (apiKey : string) : Prog unit :=
  if negb (JS.truthy apiKey) then done
  else
    SetApiKey apiKey ;;;
    await GetSchedules (fun res =>
      match data res with
      | Some d =>
          SetSchedules (schedules d) ;;;
          SetScheduleActive (schedule_active d) ;;; done
      | None =>
          if JS.truthy_opt (error res) then
            ConsoleError ("Failed to fetch schedules: "
                          ++ JS.or_else (error res) "") ;;; done
          else done
      end).

Definition addSchedule (apiKey : string) (newScheduleHour newScheduleMinute : Z)
  : Prog unit :=
  if negb (JS.truthy apiKey) then
    ShowToast "API key required" toast_error ;;; done
  else
    SetScheduleStatus st_loading ;;;
    SetApiKey apiKey ;;;
    await (CreateSchedule newScheduleHour newScheduleMinute) (fun res =>
      match data res with
      | Some d =>
          SetScheduleStatus st_success ;;;
          ShowToast ("Time " ++ time_display d ++ " added")
            toast_success ;;;
          unawaited (fetchSchedules apiKey) [ResetScheduleStatusIn 2000]
      | None =>
          SetScheduleStatus st_error ;;;
          ShowToast (JS.or_else (error res) "Error adding schedule")
            toast_error ;;;
          ResetScheduleStatusIn 2000 ;;; done
      end).

Definition removeSchedule (apiKey : string) (id : Z) : Prog unit :=
  SetApiKey apiKey ;;;
  await (DeleteSchedule id) (fun res =>
    match data res with
    | Some d =>
        ShowToast (message d) toast_success ;;;
        fetchSchedules apiKey
    | None =>
        ShowToast (JS.or_else (error res) "Error deleting schedule")
          toast_error ;;;
        done
    end).

Definition toggleScheduleEnabled (apiKey : string) (id : Z) : Prog unit :=
  SetApiKey apiKey ;;;
  await (ToggleSchedule id) (fun res =>
    match data res with
    | Some d =>
        ShowToast ("Time " ++ time_display d ++ " "
                   ++ (if enabled d then "enabled" else "disabled"))
          toast_success ;;;
        fetchSchedules apiKey
    | None =>
        ShowToast (JS.or_else (error res) "Error") toast_error ;;;
        done
    end).

Definition syncSchedules (apiKey : string) : Prog unit :=
  SetApiKey apiKey ;;;
  await SyncSchedules (fun res =>
    match data res with
    | Some d =>
        ShowToast (message d) toast_success ;;;
        fetchSchedules apiKey
    | None =>
        ShowToast (JS.or_else (error res) "Sync failed") toast_error ;;;
        done
    end).

End Schedules.

(** ** Observations on runs of the orchestrator *)

Module Observe.

Import Api Async Scraping.

(** The client delivered a status document (no error, a body). *)
Definition answered_with (res : ApiResult WorkflowStatusResponse)
  (d : WorkflowStatusResponse) : Prop :=
  JS.truthy_opt (error res) = false /\ data res = Some d.

(** The statuses on which the loop neither returns nor throws. *)
Definition is_pending (s : WorkflowStatus) : bool :=
  match s with
  | COMPLETED | FAILED | CANCELED | TERMINATED => false
  | RUNNING | TIMED_OUT | NOT_FOUND => true
  end.

Definition pending (res : ApiResult WorkflowStatusResponse) : Prop :=
  exists d, answered_with res d /\ is_pending (wf_status d) = true.

Definition running (res : ApiResult WorkflowStatusResponse) : Prop :=
  exists d, answered_with res d /\ wf_status d = RUNNING.

(** The poll failed: an error was reported or the body is missing. *)
Definition failing (res : ApiResult WorkflowStatusResponse) : Prop :=
  JS.truthy_opt (error res) = true \/ data res = None.

(** One turn of the loop that goes on: a poll, then the fixed wait. *)
Definition cycle (workflowId : string) : list Event :=
  [EvReq (GetWorkflowStatus workflowId);
   EvDone (GetWorkflowStatus workflowId);
   EvReq (Timeout 5000); EvDone (Timeout 5000)].

Fixpoint cycles (workflowId : string) (k : nat) : list Event :=
  match k with
  | O => []
  | S k' => cycle workflowId ++ cycles workflowId k'
  end.

(** Polls and waits alternate: the [j]-th poll of a loop whose first
    request has number [n] is the request number [n + 2 * j]. *)
Definition poll_answer (srv : Server) (n : nat) (workflowId : string)
  (j : nat) : ApiResult WorkflowStatusResponse :=
  srv (n + 2 * j)%nat (GetWorkflowStatus workflowId).

(** The events of [runScrape] up to the first poll. *)
Definition started (apiKey url workflowId : string) : list Event :=
  [EvCmd (SetScrapeStatus st_loading); EvCmd (SetScrapeResult None);
   EvCmd (SetCurrentWorkflowId None); EvCmd (SetApiKey apiKey);
   EvReq (ScrapeOrders url); EvDone (ScrapeOrders url);
   EvCmd (SetCurrentWorkflowId (Some workflowId));
   EvCmd (ShowToast "Workflow started - please wait..." toast_success)].

(** The events of the [try]/[catch] block once the poll has settled. *)
Definition settled (c : PollOutcome) : list Event :=
  fst (run (fun _ r => match r return Resp r with
                       | Timeout _ => tt
                       | _ => mkResult None None 0
                       end) 0 (on_settled c)).

(** The generic message for a terminal failure without error text. *)
Definition generic_failure (s : WorkflowStatus) : string :=
  "Workflow " ++ JS.toLowerCase (status_name s).

End Observe.

(** ** Concrete servers *)

Module Scenario.

Import Api Async Scraping.

Definition ok {T} (body : T) : ApiResult T :=
  request_result (HttpOk 200 body).

Definition refused {T} (code : Z) (detail : string) : ApiResult T :=
  request_result (HttpNotOk code (Some detail)).

(** A server for the hook: how it answers the start, the persist and
    the status poll that is request number [n]. *)
Definition server (start : ApiResult ScrapeTriggeredResponse)
  (persist : ApiResult ScrapeConfig)
  (status : nat -> ApiResult WorkflowStatusResponse) : Server :=
  fun n r =>
    match r return Resp r with
    | GetScrapeConfig => ok (mkScrapeConfig None)
    | UpdateScrapeConfig v => persist
    | SyncSchedules => ok (mkMessage "Schedules synchronized")
    | ScrapeOrders _ => start
    | GetWorkflowStatus _ => status n
    | GetPendingConversions => ok (mkPending 0)
    | Timeout _ => tt
    end.

Definition report (s : WorkflowStatus) (r : option WorkflowResult)
  (e : option string) : ApiResult WorkflowStatusResponse :=
  ok (mkWorkflowStatus s r e).

(** RUNNING three times, then COMPLETED with 3 processed, 2 failed. *)
Definition partial_failure : Server :=
  server (ok (mkTriggered "wf-1")) (ok (mkScrapeConfig None))
    (fun n => if (n <? 7)%nat then report RUNNING None None
              else report COMPLETED (Some (mkWorkflowResult 0 3 2)) None).

(** The workflow never leaves RUNNING. *)
Definition never_done : Server :=
  server (ok (mkTriggered "wf-1")) (ok (mkScrapeConfig None))
    (fun _ => report RUNNING None None).

(** RUNNING once, then the status endpoint answers 503. *)
Definition poll_breaks : Server :=
  server (ok (mkTriggered "wf-1")) (ok (mkScrapeConfig None))
    (fun n => if (n <? 3)%nat then report RUNNING None None
              else refused 503 "Service unavailable").

(** The workflow fails at once, with and without an error text. *)
Definition fails_with (s : WorkflowStatus) (e : option string) : Server :=
  server (ok (mkTriggered "wf-1")) (ok (mkScrapeConfig None))
    (fun _ => report s None e).

(** The config endpoint refuses the persist. *)
Definition persist_refused : Server :=
  server (ok (mkTriggered "wf-1")) (refused 500 "Database unavailable")
    (fun _ => report RUNNING None None).

(** A catalogue of eleven orders served in pages of ten, and of
    eleven calls. *)
Definition page0 : list Order :=
  [mkOrder 1 "A-1" "converted"; mkOrder 2 "A-2" "new"].

Definition page1 : list Order := [mkOrder 11 "B-11" "new"].

Definition orders_server : forall r, Orders.Resp r :=
  fun r =>
    match r return Orders.Resp r with
    | Orders.GetOrders skip _ =>
        ok (mkOrderList (if skip =? 0 then page0 else page1) 11)
    | Orders.DeleteOrder _ => ok (mkMessage "Order deleted")
    | Orders.TriggerUpload _ => ok (mkTriggered "upload-1")
    | Orders.TriggerAllUploads => ok (mkTriggeredAll 1)
    end.

Definition calls0 : list Calls.Call := [Calls.mkCall 1 "call-1"].

Definition calls1 : list Calls.Call := [Calls.mkCall 11 "call-11"].

Definition calls_server : forall r, Calls.Resp r :=
  fun r =>
    match r return Calls.Resp r with
    | Calls.GetCalls skip _ =>
        ok (Calls.mkCallList (if skip =? 0 then calls0 else calls1) 11)
    | Calls.DeleteCall _ => ok (mkMessage "Call deleted")
    end.

(** Page 0 is asked for, then page 1; the answer for page 1 arrives
    first and the answer for page 0 last. *)
Definition orders_overtaken : Orders.Loop :=
  Orders.resolve orders_server 0
    (Orders.resolve orders_server 1
       (Orders.call (Orders.goToPage "secret" 1)
          (Orders.call (Orders.goToPage "secret" 0)
             (Orders.initial, [])))).

Definition calls_overtaken : Calls.Loop :=
  Calls.resolve calls_server 0
    (Calls.resolve calls_server 1
       (Calls.call (Calls.goToPage "secret" 1)
          (Calls.call (Calls.goToPage "secret" 0)
             (Calls.initial, [])))).

(** Servers for runs on their own that refuse whatever carries no
    credential. *)
Definition orders_unauthorized : Orders.Server :=
  fun _ r =>
    match r return Orders.Resp r with
    | Orders.GetOrders _ _ => refused 401 "Invalid API key"
    | Orders.DeleteOrder _ => refused 401 "Invalid API key"
    | Orders.TriggerUpload _ => refused 401 "Invalid API key"
    | Orders.TriggerAllUploads => refused 401 "Invalid API key"
    end.

Definition schedules_unauthorized : Schedules.Server :=
  fun _ r =>
    match r return Schedules.Resp r with
    | Schedules.GetSchedules => refused 401 "Invalid API key"
    | Schedules.CreateSchedule _ _ => refused 401 "Invalid API key"
    | Schedules.DeleteSchedule _ => refused 401 "Invalid API key"
    | Schedules.ToggleSchedule _ => refused 401 "Invalid API key"
    | Schedules.SyncSchedules => refused 401 "Invalid API key"
    end.

(** 1001 toasts pushed while neither clock moves. *)
Definition flood : list ToastContext.Push :=
  repeat
    (ToastContext.mkPush 0 1700000000000 "Order updated successfully"
       toast_success) 1001.

(** Two toasts pushed in one millisecond of the year 2255. *)
Definition late_pair : list ToastContext.Push :=
  [ToastContext.mkPush 0 9007199254741 "URL saved" toast_success;
   ToastContext.mkPush 0 9007199254741 "Order updated successfully"
     toast_success].

(** Three toasts in one millisecond and a fourth two seconds later,
    by when the system time has been set back by an hour. *)
Definition quick_toasts : list ToastContext.Push :=
  [ToastContext.mkPush 0 1700000000000 "URL saved" toast_success;
   ToastContext.mkPush 0 1700000000000 "Failed to fetch orders" toast_error;
   ToastContext.mkPush 0 1700000000000 "Failed to fetch calls" toast_error;
   ToastContext.mkPush 2000 1699996402000
     "Workflow started - please wait..." toast_success].

(** The url typed in three strokes, 200 ms apart. *)
Definition typing : list (Z * string) :=
  [(200, "https://example.org/orders?page="); (400, "https://example.org/orders?page=2")].

End Scenario.

(** ** Trimmed text *)

Module Text.

(** No white space at the front, none at the end. *)
Definition starts_clean (l : list ascii) : Prop :=
  match l with
  | [] => True
  | c :: _ => JS.is_space c = false
  end.

Definition ends_clean (l : list ascii) : Prop := starts_clean (rev l).

Definition tidy (s : string) : Prop :=
  starts_clean (list_ascii_of_string s)
  /\ ends_clean (list_ascii_of_string s).

End Text.

(** ** The unmount cleanup of [useScraping] *)

Module UrlEditorCleanup.

Import UrlEditor.

(** The cleanup returned by the second [useEffect]: a pending save is
    cancelled when the component unmounts. *)
Definition unmount (e : Editor) : Editor :=
  mkEditor (scrapeUrl e) (saveTimeoutRef e)
    (match saveTimeoutRef e with
     | Some id => clearTimeout id (timers e)
     | None => timers e
     end)
    (next_timer e) (saved e).

End UrlEditorCleanup.

(** ** What the components show *)

Definition is_loading (s : StatusType) : bool :=
  match s with
  | st_loading => true
  | _ => false
  end.

(** [components/orders/OrderRow.tsx] *)
Module OrderRow.

Import Api.


(** The Upload button: for converted orders. *)
Definition shows_upload (o : Order) : bool :=
  (order_status o =? "converted")%string.

End OrderRow.

(** [components/scraping/ScrapingSection.tsx] *)
Module ScrapingSection.

(** [apiKey && pendingCount > 0], the Convert All banner. *)
Definition shows_convert_all (apiKey : string) (pendingCount : Z) : bool :=
  JS.truthy apiKey && (pendingCount >? 0).

(** [apiKey && pendingUploads > 0], the Upload All banner. *)
Definition shows_upload_all (apiKey : string) (pendingUploads : Z) : bool :=
  JS.truthy apiKey && (pendingUploads >? 0).

(** [scrapeStatus === "loading" && currentWorkflowId], the panel of the
    running workflow. *)
Definition shows_running (scrapeStatus : StatusType)
  (currentWorkflowId : option string) : bool :=
  is_loading scrapeStatus && JS.truthy_opt currentWorkflowId.

(** [disabled={!apiKey || scrapeStatus === "loading"}] on the scrape
    button. *)
Definition scrape_disabled (apiKey : string) (scrapeStatus : StatusType)
  : bool :=
  negb (JS.truthy apiKey) || is_loading scrapeStatus.

End ScrapingSection.

(** [components/orders/OrdersTable.tsx] *)
Module OrdersTable.

Import Api.

Inductive Body :=
| EnterKey                         (* "Enter your API key to view orders" *)
| EmptyState                       (* "No orders found. ..." *)
| Table (rows : list Order).

Definition body (apiKey : string) (orders : list Order)
  (ordersStatus : StatusType) : Body :=
  if negb (JS.truthy apiKey) then EnterKey
  else if (List.length orders =? 0)%nat && negb (is_loading ordersStatus)
  then EmptyState
  else Table orders.

(** [Math.ceil(ordersTotal / pageSize)]; on integers below 2^53 the
    quotient of the doubles rounds up to the integer quotient rounded
    up. *)
Definition totalPages (ordersTotal pageSize : Z) : Z :=
  - ((- ordersTotal) / pageSize).

(** [apiKey && ordersTotal > 0], the footer with the pager. *)
Definition shows_pager (apiKey : string) (ordersTotal : Z) : bool :=
  JS.truthy apiKey && (ordersTotal >? 0).

(** "Showing [from]-[to] of [ordersTotal]" *)
Definition showing_from (currentPage pageSize : Z) : Z :=
  currentPage * pageSize + 1.

Definition showing_to (currentPage pageSize ordersTotal : Z) : Z :=
  Z.min ((currentPage + 1) * pageSize) ordersTotal.

Definition previous_disabled (currentPage : Z) (ordersStatus : StatusType)
  : bool :=
  (currentPage =? 0) || is_loading ordersStatus.

Definition next_disabled (currentPage pageSize ordersTotal : Z)
  (ordersStatus : StatusType) : bool :=
  ((currentPage + 1) * pageSize >=? ordersTotal) || is_loading ordersStatus.

Definition refresh_disabled (apiKey : string) (ordersStatus : StatusType)
  : bool :=
  negb (JS.truthy apiKey) || is_loading ordersStatus.

End OrdersTable.

(** ** The timers of [useOrders] *)

Module OrdersTimers.

Import Async Orders.

(** What a closure handed to [setTimeout] does when it runs; [apiKey] is
    the key of the render that made the closure. *)
Definition run_callback (apiKey : string) (cb : Callback) : Prog unit :=
  match cb with
  | RefetchOrders page => fetchOrders apiKey page
  | ResetUploadAllStatus => SetUploadAllStatus st_idle ;;; done
  end.

End OrdersTimers.

(** ** The composition root ([app/page.tsx]) *)

Module Home.

Import Async.

(** [handleScrapeComplete = () => orders.goToPage(0)] *)
Definition handleScrapeComplete (apiKey : string) : Orders.Prog unit :=
  Orders.goToPage apiKey 0.

(** The completion callbacks of an orchestrator run, delivered to the
    orders store in the order they were made. *)
Definition deliver (apiKey : string) (t : list Scraping.Event)
  (l : Orders.Loop) : Orders.Loop :=
  fold_left
    (fun l c =>
       match c with
       | Scraping.OnScrapeComplete =>
           Orders.call (handleScrapeComplete apiKey) l
       | _ => l
       end)
    (commands t) l.

(** The requests in flight of the orders store. *)
Definition in_flight (l : Orders.Loop) : list Orders.Req :=
  map task_req (snd l).


End Home.

(** ** Observations on runs of the orders store *)

Module OrdersObserve.

Import Async Orders.

Definition toasts_of (t : list Event) : list (string * ToastType) :=
  flat_map (fun c => match c with ShowToast m ty => [(m, ty)] | _ => [] end)
    (commands t).

End OrdersObserve.

(** ** The export viewer of [useOrders] *)

Module ExportViewer.

Import Api Async.

Inductive ExportType := hapodu | taifun.

Definition same_type (a b : ExportType) : bool :=
  match a, b with
  | hapodu, hapodu => true
  | taifun, taifun => true
  | _, _ => false
  end.

Record OrderExport := mkExport {
  export_pk : Z;                  (* id *)
  export_order : Z;               (* order_id *)
  belnr : string;
  external_order_id : string;
  xml_content : string;
  export_type : ExportType
}.

Inductive Cmd :=
| SetApiKey (key : string)
| SetXmlLoading (b : bool)
| SetViewingOrderId (id : option Z)
| SetViewingExports (exports : list OrderExport)
| SetSelectedExportType (t : ExportType)
| ShowToast (message : string) (type : ToastType).

Inductive Req :=
| GetOrderExports (orderId : Z).

Definition Resp (r : Req) : Type :=
  match r with
  | GetOrderExports _ => ApiResult (list OrderExport)
  end.

Abbreviation Prog := (Async.Prog Cmd Req Resp).
Abbreviation Event := (Async.Event Cmd Req).
Definition Server := nat -> forall r, Resp r.

Definition done : Prog unit := Ret tt.

Definition await {A} (r : Req) (k : Resp r -> Prog A) : Prog A :=
  Await r k.

Definition viewOrderXml (apiKey : string) (orderId : Z) : Prog unit :=
  SetXmlLoading true ;;;
  SetViewingOrderId (Some orderId) ;;;
  SetApiKey apiKey ;;;
  await (GetOrderExports orderId) (fun res =>
    match (match data res with
           | Some d => if (0 <? List.length d)%nat then Some d else None
           | None => None
           end) with
    | Some d =>
        SetViewingExports d ;;;
        let hasHapodu :=
          existsb (fun e => same_type (export_type e) hapodu) d in
        SetSelectedExportType (if hasHapodu then hapodu else taifun) ;;;
        SetXmlLoading false ;;; done
    | None =>
        ShowToast (JS.or_else (error res) "No XML export found")
          toast_error ;;;
        SetXmlLoading false ;;; done
    end).

Definition closeXmlViewer : Prog unit :=
  SetViewingExports [] ;;;
  SetViewingOrderId None ;;; done.

(** [viewingExports.find(e => e.export_type === selectedExportType)] *)
Definition getCurrentExport (viewingExports : list OrderExport)
  (selectedExportType : ExportType) : option OrderExport :=
  find (fun e => same_type (export_type e) selectedExportType)
    viewingExports.

Record Viewer := mkViewer {
  viewingExports : list OrderExport;
  selectedExportType : ExportType;
  xmlLoading : bool;
  viewingOrderId : option Z;
  clientKey : string;
  shown : list (string * ToastType)
}.

Definition exec (c : Cmd) (v : Viewer) : Viewer :=
  match c with
  | SetApiKey k =>
      mkViewer (viewingExports v) (selectedExportType v) (xmlLoading v)
        (viewingOrderId v) k (shown v)
  | SetXmlLoading b =>
      mkViewer (viewingExports v) (selectedExportType v) b
        (viewingOrderId v) (clientKey v) (shown v)
  | SetViewingOrderId i =>
      mkViewer (viewingExports v) (selectedExportType v) (xmlLoading v)
        i (clientKey v) (shown v)
  | SetViewingExports l =>
      mkViewer l (selectedExportType v) (xmlLoading v)
        (viewingOrderId v) (clientKey v) (shown v)
  | SetSelectedExportType t =>
      mkViewer (viewingExports v) t (xmlLoading v)
        (viewingOrderId v) (clientKey v) (shown v)
  | ShowToast m ty =>
      mkViewer (viewingExports v) (selectedExportType v) (xmlLoading v)
        (viewingOrderId v) (clientKey v) (shown v ++ [(m, ty)])
  end.

(** [useState] initial values. *)
Definition initial : Viewer := mkViewer [] hapodu false None "" [].

(** [viewingExports.length > 0], the condition under which the
    composition root renders the modal. *)
Definition modal_open (v : Viewer) : bool :=
  (0 <? List.length (viewingExports v))%nat.

End ExportViewer.

(** ** The export viewer of [useCalls] *)

Module CallExports.

Import Api Async.

Inductive ExportType := agfeo | taifun.

Definition same_type (a b : ExportType) : bool :=
  match a, b with
  | agfeo, agfeo => true
  | taifun, taifun => true
  | _, _ => false
  end.

Record CallExport := mkExport {
  export_pk : Z;                  (* id *)
  export_call : Z;                (* call_id *)
  content : string;
  export_type : ExportType
}.

Inductive Cmd :=
| SetApiKey (key : string)
| SetViewingCallId (id : option Z)
| SetViewingCallExports (exports : list CallExport)
| SetSelectedCallExportType (t : ExportType)
| ShowToast (message : string) (type : ToastType).

Inductive Req :=
| GetCallExports (callId : Z).

Definition Resp (r : Req) : Type :=
  match r with
  | GetCallExports _ => ApiResult (list CallExport)
  end.

Abbreviation Prog := (Async.Prog Cmd Req Resp).
Definition Server := nat -> forall r, Resp r.

Definition done : Prog unit := Ret tt.

Definition await {A} (r : Req) (k : Resp r -> Prog A) : Prog A :=
  Await r k.

Definition viewCallExports (apiKey : string) (callId : Z) : Prog unit :=
  SetViewingCallId (Some callId) ;;;
  SetApiKey apiKey ;;;
  await (GetCallExports callId) (fun res =>
    match (match data res with
           | Some d => if (0 <? List.length d)%nat then Some d else None
           | None => None
           end) with
    | Some d =>
        SetViewingCallExports d ;;;
        let hasAgfeo :=
          existsb (fun e => same_type (export_type e) agfeo) d in
        SetSelectedCallExportType (if hasAgfeo then agfeo else taifun) ;;;
        done
    | None =>
        ShowToast (JS.or_else (error res) "No exports found") toast_error ;;;
        done
    end).

Definition closeCallExportViewer : Prog unit :=
  SetViewingCallExports [] ;;;
  SetViewingCallId None ;;; done.

Definition getCurrentCallExport (viewingCallExports : list CallExport)
  (selectedCallExportType : ExportType) : option CallExport :=
  find (fun e => same_type (export_type e) selectedCallExportType)
    viewingCallExports.

Record Viewer := mkViewer {
  viewingCallExports : list CallExport;
  viewingCallId : option Z;
  selectedCallExportType : ExportType;
  clientKey : string;
  shown : list (string * ToastType)
}.

Definition exec (c : Cmd) (v : Viewer) : Viewer :=
  match c with
  | SetApiKey k =>
      mkViewer (viewingCallExports v) (viewingCallId v)
        (selectedCallExportType v) k (shown v)
  | SetViewingCallId i =>
      mkViewer (viewingCallExports v) i (selectedCallExportType v)
        (clientKey v) (shown v)
  | SetViewingCallExports l =>
      mkViewer l (viewingCallId v) (selectedCallExportType v)
        (clientKey v) (shown v)
  | SetSelectedCallExportType t =>
      mkViewer (viewingCallExports v) (viewingCallId v) t
        (clientKey v) (shown v)
  | ShowToast m ty =>
      mkViewer (viewingCallExports v) (viewingCallId v)
        (selectedCallExportType v) (clientKey v) (shown v ++ [(m, ty)])
  end.

Definition initial : Viewer := mkViewer [] None agfeo "" [].

End CallExports.

(** ** [convertAllPending] of [useScraping] *)

Module Conversions.

Import Api Async.

Record ConversionsTriggered := mkConversions {
  conv_message : string;          (* message *)
  conv_triggered : Z              (* triggered_count *)
}.

Inductive Cmd :=
| SetApiKey (key : string)
| SetConvertAllStatus (s : StatusType)
| SetPendingCount (n : Z)
| ShowToast (message : string) (type : ToastType)
| RefreshOrders                      (* refreshOrders() *)
| ResetConvertAllStatusIn (ms : Z).  (* setTimeout(() => setConvertAllStatus("idle"), ms) *)

Inductive Req :=
| TriggerAllConversions.

Definition Resp (r : Req) : Type :=
  match r with
  | TriggerAllConversions => ApiResult ConversionsTriggered
  end.

Abbreviation Prog := (Async.Prog Cmd Req Resp).
Definition Server := nat -> forall r, Resp r.

Definition done : Prog unit := Ret tt.

Definition await {A} (r : Req) (k : Resp r -> Prog A) : Prog A :=
  Await r k.

Definition convertAllPending (apiKey : string) : Prog unit :=
  if negb (JS.truthy apiKey) then
    ShowToast "API key required" toast_error ;;; done
  else
    SetConvertAllStatus st_loading ;;;
    SetApiKey apiKey ;;;
    await TriggerAllConversions (fun res =>
      match data res with
      | Some d =>
          SetConvertAllStatus st_success ;;;
          ShowToast (conv_message d) toast_success ;;;
          SetPendingCount 0 ;;;
          RefreshOrders ;;;
          ResetConvertAllStatusIn 3000 ;;; done
      | None =>
          SetConvertAllStatus st_error ;;;
          ShowToast (JS.or_else (error res) "Conversion failed")
            toast_error ;;;
          ResetConvertAllStatusIn 3000 ;;; done
      end).

Record Panel := mkPanel {
  pendingCount : Z;
  convertAllStatus : StatusType;
  clientKey : string;
  shown : list (string * ToastType);
  refreshes : nat;                   (* calls of refreshOrders *)
  resets : list Z                    (* delays of the status resets *)
}.

Definition exec (c : Cmd) (p : Panel) : Panel :=
  match c with
  | SetApiKey k =>
      mkPanel (pendingCount p) (convertAllStatus p) k (shown p)
        (refreshes p) (resets p)
  | SetConvertAllStatus s =>
      mkPanel (pendingCount p) s (clientKey p) (shown p)
        (refreshes p) (resets p)
  | SetPendingCount n =>
      mkPanel n (convertAllStatus p) (clientKey p) (shown p)
        (refreshes p) (resets p)
  | ShowToast m ty =>
      mkPanel (pendingCount p) (convertAllStatus p) (clientKey p)
        (shown p ++ [(m, ty)]) (refreshes p) (resets p)
  | RefreshOrders =>
      mkPanel (pendingCount p) (convertAllStatus p) (clientKey p) (shown p)
        (S (refreshes p)) (resets p)
  | ResetConvertAllStatusIn ms =>
      mkPanel (pendingCount p) (convertAllStatus p) (clientKey p) (shown p)
        (refreshes p) (resets p ++ [ms])
  end.

End Conversions.

(** ** [hooks/useHealth.ts] and [components/HealthCard.tsx] *)

Module Health.

Import Api Async.

Record HealthResponse := mkHealth {
  health_status : string;         (* status *)
  version : string;
  database : string
}.

Inductive Cmd :=
| SetHealth (h : option HealthResponse)
| SetHealthStatus (s : StatusType)
| ShowToast (message : string) (type : ToastType).

Inductive Req :=
| HealthCheck.

Definition Resp (r : Req) : Type :=
  match r with
  | HealthCheck => ApiResult HealthResponse
  end.

Definition endpoint (r : Req) : string :=
  match r with
  | HealthCheck => "/health"
  end.

Abbreviation Prog := (Async.Prog Cmd Req Resp).
Definition Server := nat -> forall r, Resp r.

Definition done : Prog unit := Ret tt.

Definition await {A} (r : Req) (k : Resp r -> Prog A) : Prog A :=
  Await r k.

Definition checkHealth : Prog unit :=
  SetHealthStatus st_loading ;;;
  await HealthCheck (fun res =>
    match data res with
    | Some d =>
        SetHealth (Some d) ;;;
        SetHealthStatus st_success ;;; done
    | None =>
        SetHealth None ;;;
        SetHealthStatus st_error ;;;
        ShowToast (JS.or_else (error res) "Health check failed")
          toast_error ;;;
        done
    end).

Record Card := mkCard {
  health : option HealthResponse;
  healthStatus : StatusType;
  shown : list (string * ToastType)
}.

Definition exec (c : Cmd) (k : Card) : Card :=
  match c with
  | SetHealth h => mkCard h (healthStatus k) (shown k)
  | SetHealthStatus s => mkCard (health k) s (shown k)
  | ShowToast m ty => mkCard (health k) (healthStatus k) (shown k ++ [(m, ty)])
  end.

(** The status light of the card. *)
Inductive Light := Green | Yellow | Red.

Definition light (k : Card) : Light :=
  if (match healthStatus k with st_success => true | _ => false end)
     && (match health k with
         | Some h => (database h =? "connected")%string
         | None => false
         end)
  then Green
  else if is_loading (healthStatus k) then Yellow
  else Red.

End Health.

(** ** The state the commands of [useSchedules] act on *)

Module SchedulesState.

Import Api Async Schedules.

Record Cache := mkCache {
  schedules : list ScrapeSchedule;
  scheduleActive : bool;
  scheduleStatus : StatusType;
  clientKey : string;
  shown : list (string * ToastType);
  logged : list string;              (* console.error *)
  resets : list Z                    (* delays of the status resets *)
}.

Definition exec (c : Cmd) (k : Cache) : Cache :=
  match c with
  | SetApiKey key =>
      mkCache (schedules k) (scheduleActive k) (scheduleStatus k) key
        (shown k) (logged k) (resets k)
  | SetSchedules l =>
      mkCache l (scheduleActive k) (scheduleStatus k) (clientKey k)
        (shown k) (logged k) (resets k)
  | SetScheduleActive b =>
      mkCache (schedules k) b (scheduleStatus k) (clientKey k)
        (shown k) (logged k) (resets k)
  | SetScheduleStatus s =>
      mkCache (schedules k) (scheduleActive k) s (clientKey k)
        (shown k) (logged k) (resets k)
  | ShowToast m ty =>
      mkCache (schedules k) (scheduleActive k) (scheduleStatus k)
        (clientKey k) (shown k ++ [(m, ty)]) (logged k) (resets k)
  | ConsoleError m =>
      mkCache (schedules k) (scheduleActive k) (scheduleStatus k)
        (clientKey k) (shown k) (logged k ++ [m]) (resets k)
  | ResetScheduleStatusIn ms =>
      mkCache (schedules k) (scheduleActive k) (scheduleStatus k)
        (clientKey k) (shown k) (logged k) (resets k ++ [ms])
  end.

(** The four operations that change schedules on the server. *)
Inductive Mutation :=
| Add (hour minute : Z)
| Remove (id : Z)
| Toggle (id : Z)
| Sync.

Definition mutate (apiKey : string) (m : Mutation) : Prog unit :=
  match m with
  | Add hour minute => addSchedule apiKey hour minute
  | Remove id => removeSchedule apiKey id
  | Toggle id => toggleScheduleEnabled apiKey id
  | Sync => syncSchedules apiKey
  end.

Definition request_of (m : Mutation) : Req :=
  match m with
  | Add hour minute => CreateSchedule hour minute
  | Remove id => DeleteSchedule id
  | Toggle id => ToggleSchedule id
  | Sync => SyncSchedules
  end.

(** Whether the answer to a mutation carries data. *)
Definition accepted (m : Mutation) (srv : Server) : bool :=
  match m with
  | Add hour minute =>
      match data (srv 0%nat (CreateSchedule hour minute)) with
      | Some _ => true | None => false end
  | Remove id =>
      match data (srv 0%nat (DeleteSchedule id)) with
      | Some _ => true | None => false end
  | Toggle id =>
      match data (srv 0%nat (ToggleSchedule id)) with
      | Some _ => true | None => false end
  | Sync =>
      match data (srv 0%nat SyncSchedules) with
      | Some _ => true | None => false end
  end.

End SchedulesState.

(** ** The order editor of [useOrders] *)

Module OrderEditor.

Import Api Async.

(** The editor shares the client, the toasts and [fetchOrders] with the
    store: a command or request of the store, or one of its own. *)
Inductive Cmd :=
| Store (c : Orders.Cmd)
| SetEditingOrder (o : option Order)
| SetEditOrderId (s : string)
| SetEditStatus (s : string)
| SetUpdateStatus (s : StatusType)
| ResetUpdateStatusIn (ms : Z).   (* setTimeout(() => setUpdateStatus("idle"), ms) *)

Inductive Req :=
| StoreReq (r : Orders.Req)
| UpdateOrder (id : Z) (order_id status : string).

Definition Resp (r : Req) : Type :=
  match r with
  | StoreReq r' => Orders.Resp r'
  | UpdateOrder _ _ _ => ApiResult Order
  end.

Abbreviation Prog := (Async.Prog Cmd Req Resp).
Abbreviation Event := (Async.Event Cmd Req).
Definition Server := nat -> forall r, Resp r.

Definition done : Prog unit := Ret tt.

Definition await {A} (r : Req) (k : Resp r -> Prog A) : Prog A :=
  Await r k.

(** A function of the store, called from the editor. *)
Fixpoint lift {A} (p : Orders.Prog A) : Prog A :=
  match p with
  | Ret a => Ret a
  | Do c k => Do (Store c) (lift k)
  | Await r k => Await (StoreReq r) (fun x => lift (k x))
  end.

Definition startEdit (order : Order) : Prog unit :=
  SetEditingOrder (Some order) ;;;
  SetEditOrderId (order_id order) ;;;
  SetEditStatus (order_status order) ;;; done.

Definition cancelEdit : Prog unit :=
  SetEditingOrder None ;;;
  SetEditOrderId "" ;;;
  SetEditStatus "" ;;; done.

Definition updateOrder (apiKey : string) (editingOrder : option Order)
  (editOrderId editStatus : string) (currentPage : Z) : Prog unit :=
  match editingOrder with
  | None => done
  | Some o =>
      SetUpdateStatus st_loading ;;;
      Store (Orders.SetApiKey apiKey) ;;;
      await (UpdateOrder (order_pk o) editOrderId editStatus) (fun res =>
        match data res with
        | Some _ =>
            SetUpdateStatus st_success ;;;
            Store (Orders.ShowToast "Order updated successfully"
                     toast_success) ;;;
            (_ <- cancelEdit ;;
             unawaited (lift (Orders.fetchOrders apiKey currentPage))
               [ResetUpdateStatusIn 2000])
        | None =>
            SetUpdateStatus st_error ;;;
            Store (Orders.ShowToast
                     (JS.or_else (error res) "Failed to update order")
                     toast_error) ;;;
            ResetUpdateStatusIn 2000 ;;; done
        end)
  end.

Record Editor := mkEditor {
  store : Orders.Store;
  editingOrder : option Order;
  editOrderId : string;
  editStatus : string;
  updateStatus : StatusType;
  resets : list Z                    (* delays of the status resets *)
}.

Definition exec (c : Cmd) (e : Editor) : Editor :=
  match c with
  | Store c' =>
      mkEditor (Orders.exec c' (store e)) (editingOrder e) (editOrderId e)
        (editStatus e) (updateStatus e) (resets e)
  | SetEditingOrder o =>
      mkEditor (store e) o (editOrderId e) (editStatus e) (updateStatus e)
        (resets e)
  | SetEditOrderId x =>
      mkEditor (store e) (editingOrder e) x (editStatus e) (updateStatus e)
        (resets e)
  | SetEditStatus x =>
      mkEditor (store e) (editingOrder e) (editOrderId e) x (updateStatus e)
        (resets e)
  | SetUpdateStatus x =>
      mkEditor (store e) (editingOrder e) (editOrderId e) (editStatus e) x
        (resets e)
  | ResetUpdateStatusIn ms =>
      mkEditor (store e) (editingOrder e) (editOrderId e) (editStatus e)
        (updateStatus e) (resets e ++ [ms])
  end.

(** [useState] initial values. *)
Definition initial : Editor :=
  mkEditor Orders.initial None "" "" st_idle [].

(** [updateOrder] as the hook calls it: on the fields of the state. *)
Definition submit (apiKey : string) (e : Editor) : Prog unit :=
  updateOrder apiKey (editingOrder e) (editOrderId e) (editStatus e)
    (Orders.currentPage (store e)).

End OrderEditor.

(** ** What the page lets happen

    The effects [Home] and the hooks run and the controls the components
    render, each with the hook function it calls, as [app/page.tsx] wires
    them.  The handlers given to a component and the key given to it
    come from the same render, so a control calls its function with the
    key the control was rendered for. *)

Module Page.

Import Api Async.



(** The other controls call no function of the client: the key field,
    the url field (but for its timer), the two selects of the schedule
    manager, and in the two modals the close button and the type tabs. *)
















End Page.

(** ** More concrete servers *)

Module Cases.

Import Api Async Scraping.

(** The start request is refused. *)
Definition start_refused : Server :=
  Scenario.server (Scenario.refused 422 "Invalid order list URL")
    (Scenario.ok (mkScrapeConfig None))
    (fun _ => Scenario.report RUNNING None None).

(** RUNNING twice, then COMPLETED with 2 processed, 1 skipped, none
    failed. *)
Definition clean_success : Server :=
  Scenario.server (Scenario.ok (mkTriggered "wf-2"))
    (Scenario.ok (mkScrapeConfig None))
    (fun n => if (n <? 5)%nat then Scenario.report RUNNING None None
              else Scenario.report COMPLETED
                     (Some (mkWorkflowResult 1 2 0)) None).

(** RUNNING once, then TERMINATED with an error text. *)
Definition terminated_late : Server :=
  Scenario.server (Scenario.ok (mkTriggered "wf-3"))
    (Scenario.ok (mkScrapeConfig None))
    (fun n => if (n <? 3)%nat then Scenario.report RUNNING None None
              else Scenario.report TERMINATED None
                     (Some "Terminated by operator")).

(** The config endpoint holds a given override. *)
Definition config_holds (v : option string) : Server :=
  fun n r =>
    match r return Resp r with
    | GetScrapeConfig => Scenario.ok (mkScrapeConfig v)
    | UpdateScrapeConfig _ => Scenario.ok (mkScrapeConfig v)
    | SyncSchedules => Scenario.ok (mkMessage "Schedules synchronized")
    | ScrapeOrders _ => Scenario.refused 500 "unused"
    | GetWorkflowStatus _ => Scenario.refused 500 "unused"
    | GetPendingConversions => Scenario.ok (mkPending 4)
    | Timeout _ => tt
    end.

(** The orders server of the scenario, answering every request alike. *)
Definition orders_always : Orders.Server := fun _ => Scenario.orders_server.

(** Order 7 has an export of each type, the taifun one first; no other
    order has any. *)
Definition exports_of_7 : list ExportViewer.OrderExport :=
  [ExportViewer.mkExport 1 7 "B-7" "EXT-7" "<taifun/>" ExportViewer.taifun;
   ExportViewer.mkExport 2 7 "B-7" "EXT-7" "<hapodu/>" ExportViewer.hapodu].

Definition exports_server : ExportViewer.Server :=
  fun _ r =>
    match r return ExportViewer.Resp r with
    | ExportViewer.GetOrderExports orderId =>
        Scenario.ok (if orderId =? 7 then exports_of_7 else [])
    end.

(** A schedule service that accepts every change and lists two times. *)
Definition listed : list ScrapeSchedule :=
  [mkSchedule 1 true "06:00"; mkSchedule 2 true "18:30"].

Definition schedules_server : Schedules.Server :=
  fun _ r =>
    match r return Schedules.Resp r with
    | Schedules.GetSchedules => Scenario.ok (mkScheduleList listed true)
    | Schedules.CreateSchedule _ _ =>
        Scenario.ok (mkSchedule 2 true "18:30")
    | Schedules.DeleteSchedule _ =>
        Scenario.ok (mkMessage "Schedule deleted")
    | Schedules.ToggleSchedule id =>
        Scenario.ok (mkSchedule id false "06:00")
    | Schedules.SyncSchedules =>
        Scenario.ok (mkMessage "Schedules synchronized")
    end.

(** What follows the first edit of a second burst begun at 2400. *)
Definition retyping : list (Z * string) :=
  [(2600, "https://example.org/orders?page=3")].







End Cases.

(** * Properties *)

Open Scope list_scope.

(** ** Runs of asynchronous programs *)

Section AsyncFacts.

Context {Cmd Req : Type} {Resp : Req -> Type}.

Local Abbreviation Prog := (Async.Prog Cmd Req Resp).

Lemma requests_app (t1 t2 : list (Async.Event Cmd Req)) :
  Async.requests (t1 ++ t2) = (Async.requests t1 ++ Async.requests t2)%list.
Proof. unfold Async.requests. now rewrite flat_map_app. Qed.

Lemma commands_app (t1 t2 : list (Async.Event Cmd Req)) :
  Async.commands (t1 ++ t2) = (Async.commands t1 ++ Async.commands t2)%list.
Proof. unfold Async.commands. now rewrite flat_map_app. Qed.

(** A run of [p] followed by [f] is the run of [p], then the run of [f]
    on its result with the requests counted on. *)
Lemma run_bind {A B} (srv : nat -> forall r, Resp r) (p : Prog A)
  (f : A -> Async.Prog Cmd Req Resp B) :
  forall n,
    Async.run srv n (Async.bind p f) =
    let '(t1, a) := Async.run srv n p in
    let '(t2, b) :=
      Async.run srv (n + List.length (Async.requests t1)) (f a) in
    (t1 ++ t2, b).
Proof.
  induction p as [a | c k IH | r k IH]; intros n; simpl.
  - rewrite Nat.add_0_r. now destruct (Async.run srv n (f a)).
  - rewrite IH. destruct (Async.run srv n k) as [t1 a]. simpl.
    now destruct (Async.run srv _ (f a)).
  - rewrite IH. destruct (Async.run srv (S n) (k (srv n r))) as [t1 a].
    simpl. rewrite <- plus_n_Sm.
    now destruct (Async.run srv _ (f a)).
Qed.

End AsyncFacts.

(** ** The workflow orchestrator *)

Section Orchestrator.

Import Api Async Scraping Observe.

Variable srv : Server.

Lemma polls_of_cycles id k (t : list Event) :
  polls_of (cycles id k ++ t) = (k + polls_of t)%nat.
Proof.
  induction k as [| k IH]; [reflexivity |].
  unfold polls_of in *. simpl. now rewrite IH.
Qed.

Lemma waits_of_cycles id k (t : list Event) :
  waits_of (cycles id k ++ t) = repeat 5000 k ++ waits_of t.
Proof.
  induction k as [| k IH]; [reflexivity |].
  unfold waits_of in *. simpl. now rewrite IH.
Qed.

Lemma commands_cycles id k (t : list Event) :
  commands (cycles id k ++ t) = commands t.
Proof.
  induction k as [| k IH]; [reflexivity | simpl; exact IH].
Qed.

(** One turn of the loop on a pending answer. *)
Lemma poll_loop_pending_step id remaining n :
  pending (srv n (GetWorkflowStatus id)) ->
  run srv n (poll_loop (S remaining) id) =
  let '(t, a) := run srv (S (S n)) (poll_loop remaining id) in
  (cycle id ++ t, a).
Proof.
  intros (d & (He & Hd) & Hp).
  cbn [poll_loop await run]. rewrite He, Hd.
  destruct (wf_status d); try discriminate Hp; unfold await; cbn [run];
    now destruct (run srv (S (S n)) (poll_loop remaining id)).
Qed.

(** [k] pending answers in a row cost [k] turns of the loop. *)
Lemma poll_loop_pending id k :
  forall remaining n,
    (k <= remaining)%nat ->
    (forall j, (j < k)%nat -> pending (poll_answer srv n id j)) ->
    run srv n (poll_loop remaining id) =
    let '(t, a) := run srv (n + 2 * k) (poll_loop (remaining - k) id) in
    (cycles id k ++ t, a).
Proof.
  induction k as [| k IH]; intros remaining n Hk Hp.
  - rewrite Nat.sub_0_r, Nat.mul_0_r, Nat.add_0_r. simpl.
    now destruct (run srv n (poll_loop remaining id)).
  - destruct remaining as [| remaining]; [lia |].
    rewrite poll_loop_pending_step.
    2:{ specialize (Hp 0%nat ltac:(lia)). unfold poll_answer in Hp.
        now rewrite Nat.mul_0_r, Nat.add_0_r in Hp. }
    rewrite (IH remaining (S (S n))); [| lia |].
    2:{ intros j Hj. specialize (Hp (S j) ltac:(lia)).
        unfold poll_answer in *.
        now replace (S (S n) + 2 * j)%nat with (n + 2 * S j)%nat by lia. }
    replace (S (S n) + 2 * k)%nat with (n + 2 * S k)%nat by lia.
    change (S remaining - S k)%nat with (remaining - k)%nat.
    destruct (run srv (n + 2 * S k) (poll_loop (remaining - k) id)).
    change (cycles id (S k)) with (cycle id ++ cycles id k).
    now rewrite <- app_assoc.
Qed.

Lemma poll_loop_completed id remaining n d :
  answered_with (srv n (GetWorkflowStatus id)) d ->
  wf_status d = COMPLETED ->
  run srv n (poll_loop (S remaining) id) =
  ([EvReq (GetWorkflowStatus id); EvDone (GetWorkflowStatus id)],
   Return (wf_result d)).
Proof.
  intros (He & Hd) Hs. cbn [poll_loop await run]. unfold await.
  now rewrite He, Hd, Hs.
Qed.

Lemma poll_loop_terminal id remaining n d :
  answered_with (srv n (GetWorkflowStatus id)) d ->
  In (wf_status d) [FAILED; CANCELED; TERMINATED] ->
  run srv n (poll_loop (S remaining) id) =
  ([EvReq (GetWorkflowStatus id); EvDone (GetWorkflowStatus id)],
   Throw (JS.or_else (wf_error d) (generic_failure (wf_status d)))).
Proof.
  intros (He & Hd) Hs. cbn [poll_loop await run]. unfold await.
  rewrite He, Hd. unfold generic_failure.
  destruct Hs as [Hs | [Hs | [Hs | []]]]; now rewrite <- Hs.
Qed.

Lemma poll_loop_failing id remaining n :
  failing (srv n (GetWorkflowStatus id)) ->
  run srv n (poll_loop (S remaining) id) =
  ([EvReq (GetWorkflowStatus id); EvDone (GetWorkflowStatus id)],
   Throw (JS.or_else (error (srv n (GetWorkflowStatus id)))
            "Failed to get workflow status")).
Proof.
  intros Hf. cbn [poll_loop await run]. unfold await.
  destruct Hf as [He | Hd]; [now rewrite He | rewrite Hd].
  now destruct (JS.truthy_opt _).
Qed.

Lemma run_on_settled n (c : PollOutcome) :
  run srv n (on_settled c) = (settled c, tt).
Proof. now destruct c as [[r |] | m]. Qed.

(** [runScrape] once the workflow has been started: the poll loop, then
    the [try]/[catch] block, then the handle is cleared. *)
Lemma runScrape_started apiKey url st :
  JS.truthy apiKey = true ->
  JS.truthy (JS.trim url) = true ->
  data (srv 0%nat (ScrapeOrders url)) = Some st ->
  trace srv (runScrape apiKey url) =
  started apiKey url (workflow_id st)
    ++ fst (run srv 1 (pollWorkflowStatus (workflow_id st)))
    ++ settled (snd (run srv 1 (pollWorkflowStatus (workflow_id st))))
    ++ [EvCmd (SetCurrentWorkflowId None)].
Proof.
  intros Hk Hu Hd. unfold trace, runScrape.
  generalize pollWorkflowStatus. intros poll. rewrite Hk, Hu.
  cbn [negb run]. unfold await at 1. cbn [run]. rewrite Hd. cbn [run].
  rewrite run_bind.
  destruct (run srv 1 (poll (workflow_id st))) as [tp c].
  rewrite run_bind, run_on_settled. unfold done. cbn [run fst snd].
  unfold started. cbn [app]. reflexivity.
Qed.

Lemma toasts_of_app (t1 t2 : list Event) :
  toasts_of (t1 ++ t2) = toasts_of t1 ++ toasts_of t2.
Proof.
  unfold toasts_of. now rewrite (commands_app t1 t2), flat_map_app.
Qed.

Lemma callbacks_of_app (t1 t2 : list Event) :
  callbacks_of (t1 ++ t2) = (callbacks_of t1 + callbacks_of t2)%nat.
Proof.
  unfold callbacks_of.
  now rewrite (commands_app t1 t2), filter_app, length_app.
Qed.

Lemma polls_of_app (t1 t2 : list Event) :
  polls_of (t1 ++ t2) = (polls_of t1 + polls_of t2)%nat.
Proof.
  unfold polls_of.
  now rewrite (requests_app t1 t2), filter_app, length_app.
Qed.

Lemma final_app (t1 t2 : list Event) (h : Hook) :
  final exec (t1 ++ t2) h = final exec t2 (final exec t1 h).
Proof.
  unfold final. now rewrite (commands_app t1 t2), fold_left_app.
Qed.

Lemma final_cycles id k (t : list Event) (h : Hook) :
  final exec (cycles id k ++ t) h = final exec t h.
Proof. unfold final. now rewrite commands_cycles. Qed.

Lemma toasts_of_cycles id k (t : list Event) :
  toasts_of (cycles id k ++ t) = toasts_of t.
Proof. unfold toasts_of. now rewrite commands_cycles. Qed.

Lemma callbacks_of_cycles id k (t : list Event) :
  callbacks_of (cycles id k ++ t) = callbacks_of t.
Proof. unfold callbacks_of. now rewrite commands_cycles. Qed.

(** The whole trace of [runScrape] when the first [k] polls are pending
    and the next one settles the loop in one step. *)
Lemma runScrape_settles_at apiKey url st k (c : PollOutcome) :
  JS.truthy apiKey = true ->
  JS.truthy (JS.trim url) = true ->
  data (srv 0%nat (ScrapeOrders url)) = Some st ->
  (k < maxAttempts)%nat ->
  (forall j, (j < k)%nat ->
     pending (poll_answer srv 1 (workflow_id st) j)) ->
  (forall remaining,
     run srv (1 + 2 * k) (poll_loop (S remaining) (workflow_id st)) =
     ([EvReq (GetWorkflowStatus (workflow_id st));
       EvDone (GetWorkflowStatus (workflow_id st))], c)) ->
  trace srv (runScrape apiKey url) =
  started apiKey url (workflow_id st)
    ++ cycles (workflow_id st) k
    ++ [EvReq (GetWorkflowStatus (workflow_id st));
        EvDone (GetWorkflowStatus (workflow_id st))]
    ++ settled c ++ [EvCmd (SetCurrentWorkflowId None)].
Proof.
  intros Hk Hu Hd Hlt Hp Hstep.
  rewrite (runScrape_started apiKey url st Hk Hu Hd).
  unfold pollWorkflowStatus.
  rewrite (poll_loop_pending (workflow_id st) k maxAttempts 1);
    [| lia | exact Hp].
  replace (maxAttempts - k)%nat with (S (maxAttempts - S k)) by lia.
  rewrite Hstep. cbn [fst snd]. rewrite <- !app_assoc. reflexivity.
Qed.

Lemma settles_observed apiKey url id k (c : PollOutcome) (h : Hook) :
  let t :=
    started apiKey url id ++ cycles id k
      ++ [EvReq (GetWorkflowStatus id); EvDone (GetWorkflowStatus id)]
      ++ settled c ++ [EvCmd (SetCurrentWorkflowId None)] in
  toasts_of t =
    ("Workflow started - please wait...", toast_success)
      :: toasts_of (settled c)
  /\ callbacks_of t = callbacks_of (settled c)
  /\ polls_of t = S k
  /\ final exec t h =
     final exec (settled c ++ [EvCmd (SetCurrentWorkflowId None)])
       (final exec (started apiKey url id) h).
Proof.
  cbv zeta. repeat split.
  - rewrite toasts_of_app, toasts_of_cycles, !toasts_of_app.
    cbn. now rewrite app_nil_r.
  - rewrite callbacks_of_app, callbacks_of_cycles, !callbacks_of_app.
    cbn. now rewrite Nat.add_0_r.
  - rewrite polls_of_app, polls_of_cycles, !polls_of_app.
    destruct c as [[r |] | m]; cbn; lia.
  - rewrite final_app, final_cycles. reflexivity.
Qed.

(** C3: when every status answer says RUNNING, the poll loop issues
    exactly 120 status polls, each followed by a wait of 5000 ms, and then
    throws the time-out error, whose message is none of the messages
    made up for a failure reported by the server. *)
Theorem poll_times_out_after_120_polls id n :
  (forall j, running (poll_answer srv n id j)) ->
  let r := run srv n (pollWorkflowStatus id) in
  fst r = cycles id 120
  /\ polls_of (fst r) = 120%nat
  /\ waits_of (fst r) = repeat 5000 120
  /\ snd r = Throw "Workflow timed out"
  /\ (forall s, generic_failure s <> "Workflow timed out").
Proof.
  intros Hrun. cbv zeta. unfold pollWorkflowStatus.
  rewrite (poll_loop_pending id maxAttempts maxAttempts n); [| lia |].
  2:{ intros j _. destruct (Hrun j) as (d & Ha & Hs).
      exists d. split; [exact Ha | now rewrite Hs]. }
  rewrite Nat.sub_diag. cbn [poll_loop run fst snd].
  rewrite polls_of_cycles, waits_of_cycles, !app_nil_r.
  repeat split; try reflexivity.
  intros s; destruct s; discriminate.
Qed.

(** The orchestrator on a workflow that never leaves RUNNING: after the
    120 polls the status is error, the time-out is toasted as an error
    and the completion callback is not called. *)
Lemma runScrape_times_out apiKey url st (h : Hook) :
  JS.truthy apiKey = true ->
  JS.truthy (JS.trim url) = true ->
  data (srv 0%nat (ScrapeOrders url)) = Some st ->
  (forall j, running (poll_answer srv 1 (workflow_id st) j)) ->
  let t := trace srv (runScrape apiKey url) in
  polls_of t = 120%nat
  /\ toasts_of t =
       [("Workflow started - please wait...", toast_success);
        ("Workflow timed out", toast_error)]
  /\ callbacks_of t = 0%nat
  /\ scrapeStatus (final exec t h) = st_error.
Proof.
  intros Hk Hu Hd Hrun. cbv zeta.
  rewrite (runScrape_started apiKey url st Hk Hu Hd).
  unfold pollWorkflowStatus.
  rewrite (poll_loop_pending (workflow_id st) maxAttempts maxAttempts 1);
    [| lia |].
  2:{ intros j _. destruct (Hrun j) as (d & Ha & Hs).
      exists d. split; [exact Ha | now rewrite Hs]. }
  rewrite Nat.sub_diag. cbn [poll_loop run fst snd]. rewrite app_nil_r.
  split; [| split; [| split]].
  - rewrite polls_of_app, polls_of_cycles. reflexivity.
  - rewrite toasts_of_app, toasts_of_cycles. reflexivity.
  - rewrite callbacks_of_app, callbacks_of_cycles. reflexivity.
  - rewrite final_app, final_cycles. reflexivity.
Qed.

(** C5: what one poll answer carrying a status does to the loop.
    COMPLETED returns the attached result; FAILED, CANCELED and
    TERMINATED throw the error text of the server or, without one, the
    message named after the status; every other status makes the loop
    wait 5000 ms and go on with the attempts left. *)
Theorem poll_answer_settles_or_continues id remaining n d :
  answered_with (srv n (GetWorkflowStatus id)) d ->
  let r := run srv n (poll_loop (S remaining) id) in
  let polled :=
    [EvReq (GetWorkflowStatus id); EvDone (GetWorkflowStatus id)] in
  (wf_status d = COMPLETED -> r = (polled, Return (wf_result d)))
  /\ (forall e,
        In (wf_status d) [FAILED; CANCELED; TERMINATED] ->
        wf_error d = Some e -> JS.truthy e = true ->
        r = (polled, Throw e))
  /\ (JS.truthy_opt (wf_error d) = false ->
      (wf_status d = FAILED -> r = (polled, Throw "Workflow failed"))
      /\ (wf_status d = CANCELED -> r = (polled, Throw "Workflow canceled"))
      /\ (wf_status d = TERMINATED ->
          r = (polled, Throw "Workflow terminated")))
  /\ (In (wf_status d) [RUNNING; NOT_FOUND; TIMED_OUT] ->
      r = (cycle id ++ fst (run srv (S (S n)) (poll_loop remaining id)),
           snd (run srv (S (S n)) (poll_loop remaining id)))).
Proof.
  intros Ha. cbv zeta.
  assert (Hgeneric : forall s,
            In s [FAILED; CANCELED; TERMINATED] ->
            wf_status d = s -> JS.truthy_opt (wf_error d) = false ->
            run srv n (poll_loop (S remaining) id) =
            ([EvReq (GetWorkflowStatus id); EvDone (GetWorkflowStatus id)],
             Throw (generic_failure s))).
  { intros s Hin Hs Hn. rewrite <- Hs in Hin.
    rewrite (poll_loop_terminal id remaining n d Ha Hin), Hs.
    destruct (wf_error d) as [e |]; cbn in *; [| reflexivity].
    now rewrite Hn. }
  split; [| split; [| split]].
  - intros Hs. now apply poll_loop_completed.
  - intros e Hs He Ht. rewrite (poll_loop_terminal id remaining n d Ha Hs).
    rewrite He. cbn. now rewrite Ht.
  - intros Hn. repeat split; intros Hs.
    + apply (Hgeneric FAILED); cbn; tauto.
    + apply (Hgeneric CANCELED); cbn; tauto.
    + apply (Hgeneric TERMINATED); cbn; tauto.
  - intros Hs. rewrite poll_loop_pending_step.
    + now destruct (run srv (S (S n)) (poll_loop remaining id)).
    + exists d. split; [exact Ha |].
      destruct Hs as [Hs | [Hs | [Hs | []]]]; now rewrite <- Hs.
Qed.

(** C10: when a status poll comes back with an error or without a
    body, [runScrape] issues no further request: it sets the status to
    error, shows one error toast with that error, does not call the
    completion callback and clears the handle. *)
Theorem failed_poll_fails_the_workflow apiKey url st k (h : Hook) :
  JS.truthy apiKey = true ->
  JS.truthy (JS.trim url) = true ->
  data (srv 0%nat (ScrapeOrders url)) = Some st ->
  (k < maxAttempts)%nat ->
  (forall j, (j < k)%nat ->
     pending (poll_answer srv 1 (workflow_id st) j)) ->
  failing (poll_answer srv 1 (workflow_id st) k) ->
  let id := workflow_id st in
  let message :=
    JS.or_else (error (poll_answer srv 1 id k))
      "Failed to get workflow status" in
  let t := trace srv (runScrape apiKey url) in
  t = started apiKey url id ++ cycles id k
        ++ [EvReq (GetWorkflowStatus id); EvDone (GetWorkflowStatus id);
            EvCmd (SetScrapeStatus st_error);
            EvCmd (ShowToast message toast_error);
            EvCmd (SetCurrentWorkflowId None)]
  /\ polls_of t = S k
  /\ toasts_of t =
       [("Workflow started - please wait...", toast_success);
        (message, toast_error)]
  /\ callbacks_of t = 0%nat
  /\ scrapeStatus (final exec t h) = st_error
  /\ currentWorkflowId (final exec t h) = None.
Proof.
  intros Hk Hu Hd Hlt Hp Hf. cbv zeta.
  pose proof (runScrape_settles_at apiKey url st k
                (Throw (JS.or_else
                          (error (poll_answer srv 1 (workflow_id st) k))
                          "Failed to get workflow status"))
                Hk Hu Hd Hlt Hp) as Ht.
  rewrite Ht.
  2:{ intros remaining. now apply poll_loop_failing. }
  destruct (settles_observed apiKey url (workflow_id st) k
              (Throw (JS.or_else
                        (error (poll_answer srv 1 (workflow_id st) k))
                        "Failed to get workflow status")) h)
    as (Hto & Hcb & Hpo & Hfin).
  cbv zeta in Hto, Hcb, Hpo, Hfin.
  repeat split.
  - exact Hpo.
  - exact Hto.
  - exact Hcb.
  - now rewrite Hfin.
  - now rewrite Hfin.
Qed.

(** C1, as the code has it: a workflow that reaches COMPLETED with a
    result reporting failed items is shown by an error-kind toast that
    lists the counts; the status is still set to success, the result is
    stored and the completion callback is called once. *)
Theorem partial_failure_is_toasted_as_error apiKey url st k d r (h : Hook) :
  JS.truthy apiKey = true ->
  JS.truthy (JS.trim url) = true ->
  data (srv 0%nat (ScrapeOrders url)) = Some st ->
  (k < maxAttempts)%nat ->
  (forall j, (j < k)%nat ->
     pending (poll_answer srv 1 (workflow_id st) j)) ->
  answered_with (poll_answer srv 1 (workflow_id st) k) d ->
  wf_status d = COMPLETED ->
  wf_result d = Some r ->
  processed_count r > 0 ->
  failed_count r > 0 ->
  let t := trace srv (runScrape apiKey url) in
  toasts_of t =
    [("Workflow started - please wait...", toast_success);
     (("Done: " ++ JS.number_to_string (processed_count r) ++ " processed, "
        ++ JS.number_to_string (JS.or_zero (skipped_orders r)) ++ " skipped, "
        ++ JS.number_to_string (failed_count r) ++ " failed")%string,
      toast_error)]
  /\ callbacks_of t = 1%nat
  /\ polls_of t = S k
  /\ scrapeStatus (final exec t h) = st_success
  /\ scrapeResult (final exec t h) = Some r
  /\ currentWorkflowId (final exec t h) = None.
Proof.
  intros Hk Hu Hd Hlt Hp Ha Hs Hr Hpc Hfc. cbv zeta.
  rewrite (runScrape_settles_at apiKey url st k (Return (Some r))
             Hk Hu Hd Hlt Hp).
  2:{ intros remaining. rewrite <- Hr. now apply poll_loop_completed. }
  destruct (settles_observed apiKey url (workflow_id st) k
              (Return (Some r)) h) as (Hto & Hcb & Hpo & Hfin).
  cbv zeta in Hto, Hcb, Hpo, Hfin.
  assert (Hmsg : done_message r =
            (("Done: " ++ JS.number_to_string (processed_count r)
                ++ " processed, "
                ++ JS.number_to_string (JS.or_zero (skipped_orders r))
                ++ " skipped, "
                ++ JS.number_to_string (failed_count r) ++ " failed")%string,
             toast_error)).
  { unfold done_message, JS.or_zero.
    destruct (Z.eqb_spec (failed_count r) 0) as [E | _]; [lia |].
    destruct (Z.eqb_spec (processed_count r) 0) as [E | _]; [lia |].
    destruct (Z.gtb_spec (failed_count r) 0) as [_ | E]; [| lia].
    reflexivity. }
  repeat split.
  - rewrite Hto. unfold settled. cbn. now rewrite Hmsg.
  - now rewrite Hcb.
  - exact Hpo.
  - now rewrite Hfin.
  - now rewrite Hfin.
  - now rewrite Hfin.
Qed.

End Orchestrator.

(** ** The API client *)

Section ApiClient.

Import Api.

Lemma or_else_truthy e d : JS.truthy d = true -> JS.truthy (JS.or_else e d) = true.
Proof.
  intros Hd. destruct e as [s |]; cbn; [| exact Hd].
  destruct (JS.truthy s) eqn:E; [exact E | exact Hd].
Qed.

(** A response that is not [ok] always yields a non-empty [error], a
    response that is [ok] yields none. *)
Lemma request_result_not_ok {T} code detail :
  JS.truthy_opt (error (@request_result T (HttpNotOk code detail))) = true
  /\ data (@request_result T (HttpNotOk code detail)) = None.
Proof. split; [| reflexivity]. cbn. now apply or_else_truthy. Qed.

Lemma request_result_ok {T} code (body : T) :
  JS.truthy_opt (error (request_result (HttpOk code body))) = false
  /\ data (request_result (HttpOk code body)) = Some body.
Proof. now split. Qed.

End ApiClient.

(** ** The debounced configuration synchroniser *)

Section ConfigSync.

Import Api Async Scraping.

Variable srv : Server.

Lemma saveUrlToBackend_trace apiKey url :
  JS.truthy apiKey = true ->
  trace srv (saveUrlToBackend apiKey url) =
  EvCmd (SetApiKey apiKey)
    :: EvReq (UpdateScrapeConfig (urlToSave url))
    :: EvDone (UpdateScrapeConfig (urlToSave url))
    :: (if JS.truthy_opt
             (error (srv 0%nat (UpdateScrapeConfig (urlToSave url))))
        then [EvCmd (ShowToast "Failed to save URL" toast_error)]
        else [EvReq SyncSchedules; EvDone SyncSchedules;
              EvCmd (ShowToast "URL saved" toast_success)]).
Proof.
  intros Hk. unfold trace, saveUrlToBackend. rewrite Hk.
  cbn [negb run]. unfold await at 1. cbn [run].
  now destruct (JS.truthy_opt _).
Qed.

Lemma urlToSave_default url :
  JS.trim url = DEFAULT_SCRAPE_URL -> urlToSave url = None.
Proof. intros H. unfold urlToSave. now rewrite H. Qed.

Lemma urlToSave_never_default url :
  urlToSave url <> Some DEFAULT_SCRAPE_URL.
Proof.
  unfold urlToSave.
  destruct (String.eqb_spec (JS.trim url) DEFAULT_SCRAPE_URL) as [E | N];
    [discriminate |].
  destruct (JS.truthy (JS.trim url)); [| discriminate].
  intros H. now injection H.
Qed.

(** C7: when the value to save, once trimmed, is the default locator,
    the persist request carries null as the override; and no value
    whatever makes the hook send the default locator itself. *)
Theorem default_url_is_saved_as_no_override apiKey url :
  JS.truthy apiKey = true ->
  JS.trim url = DEFAULT_SCRAPE_URL ->
  let t := trace srv (saveUrlToBackend apiKey url) in
  urlToSave url = None
  /\ hd_error (requests t) = Some (UpdateScrapeConfig None)
  /\ (forall v, In (UpdateScrapeConfig v) (requests t) -> v = None)
  /\ (forall other,
        ~ In (UpdateScrapeConfig (Some DEFAULT_SCRAPE_URL))
            (requests (trace srv (saveUrlToBackend apiKey other)))).
Proof.
  intros Hk Hd. cbv zeta.
  split; [now apply urlToSave_default |].
  rewrite (saveUrlToBackend_trace apiKey url Hk).
  rewrite (urlToSave_default url Hd).
  split; [reflexivity |]. split.
  - intros v Hin.
    destruct (JS.truthy_opt _); cbn in Hin;
      repeat (destruct Hin as [Hin | Hin]; try discriminate Hin;
              try (now injection Hin)); contradiction.
  - intros other Hin.
    rewrite (saveUrlToBackend_trace apiKey other Hk) in Hin.
    destruct (JS.truthy_opt _); cbn in Hin;
      repeat (destruct Hin as [Hin | Hin]; try discriminate Hin;
              try (injection Hin as Hin;
                   now apply (urlToSave_never_default other)));
      contradiction.
Qed.

(** C8: the schedule sync is requested only once the persist has been
    answered without error, and then always; when the persist is
    answered with an error no sync is requested and the only effect is
    the failure toast.  The draft is never touched. *)
Theorem sync_follows_successful_persist apiKey url (h : Hook) :
  JS.truthy apiKey = true ->
  let u := UpdateScrapeConfig (urlToSave url) in
  let t := trace srv (saveUrlToBackend apiKey url) in
  (JS.truthy_opt (error (srv 0%nat u)) = false ->
     t = [EvCmd (SetApiKey apiKey); EvReq u; EvDone u;
          EvReq SyncSchedules; EvDone SyncSchedules;
          EvCmd (ShowToast "URL saved" toast_success)])
  /\ (JS.truthy_opt (error (srv 0%nat u)) = true ->
       t = [EvCmd (SetApiKey apiKey); EvReq u; EvDone u;
            EvCmd (ShowToast "Failed to save URL" toast_error)]
       /\ ~ In SyncSchedules (requests t)
       /\ toasts_of t = [("Failed to save URL", toast_error)])
  /\ scrapeUrl (final exec t h) = scrapeUrl h.
Proof.
  intros Hk. cbv zeta. rewrite (saveUrlToBackend_trace apiKey url Hk).
  split; [| split].
  - intros He. now rewrite He.
  - intros He. rewrite He. split; [reflexivity |]. split; [| reflexivity].
    cbn. intros [Hin | []]. discriminate Hin.
  - now destruct (JS.truthy_opt _).
Qed.

End ConfigSync.

(** ** The settle timer of the configuration value *)

Section Debounce.

Import UrlEditor.

Lemma handleScrapeUrlChange_draft now url e :
  scrapeUrl (handleScrapeUrlChange now url e) = url.
Proof. reflexivity. Qed.

(** The first edit on an empty timer table schedules one save. *)
Lemma first_edit_arms t v e :
  timers e = [] -> armed t v (saved e) (edit_at e (t, v)).
Proof.
  intros Ht. exists (next_timer e).
  unfold edit_at, handleScrapeUrlChange, fire_due. cbn. rewrite Ht. cbn.
  rewrite app_nil_r.
  repeat split. now destruct (saveTimeoutRef e).
Qed.

(** An edit inside the settle window replaces the scheduled save. *)
Lemma edit_rearms t v calls e t' v' :
  armed t v calls e -> t <= t' < t + 1000 ->
  armed t' v' calls (edit_at e (t', v')).
Proof.
  intros (id & Hu & Hr & Ht & Hs) Hw. exists (next_timer e).
  unfold edit_at, handleScrapeUrlChange, fire_due. cbn.
  rewrite Hr, Ht, Hs. cbn.
  destruct (Z.leb_spec (t + 1000) t') as [Hle | _]; [lia |].
  cbn. rewrite Z.eqb_refl. cbn. rewrite app_nil_r. now repeat split.
Qed.

Lemma last_nonempty {X} (l : list X) :
  forall x d d', last (x :: l) d = last (x :: l) d'.
Proof.
  induction l as [| y l IH]; intros x d d'; [reflexivity |].
  change (last (x :: y :: l) d) with (last (y :: l) d).
  change (last (x :: y :: l) d') with (last (y :: l) d').
  apply IH.
Qed.

Lemma burst_rearms edits :
  forall t v calls e,
    armed t v calls e -> burst t edits ->
    armed (fst (last edits (t, v))) (snd (last edits (t, v))) calls
      (type_all edits e).
Proof.
  induction edits as [| [t' v'] rest IH]; intros t v calls e Ha Hb.
  - exact Ha.
  - destruct Hb as [Hw Hb].
    pose proof (edit_rearms t v calls e t' v' Ha Hw) as Ha'.
    specialize (IH t' v' calls _ Ha' Hb).
    change (type_all ((t', v') :: rest) e)
      with (type_all rest (edit_at e (t', v'))).
    destruct rest as [| p rest']; [exact IH |].
    change (last ((t', v') :: p :: rest') (t, v))
      with (last (p :: rest') (t, v)).
    rewrite (last_nonempty rest' p (t, v) (t', v')).
    exact IH.
Qed.

(** The scheduled save runs once the settle window has passed. *)
Lemma armed_fires t v calls e now :
  armed t v calls e -> t + 1000 <= now ->
  saved (fire_due now e) = calls ++ [(t + 1000, v)]
  /\ timers (fire_due now e) = []
  /\ scrapeUrl (fire_due now e) = v.
Proof.
  intros (id & Hu & Hr & Htm & Hs) Hnow. unfold fire_due. cbn.
  rewrite Htm, Hs, Hu. cbn.
  destruct (Z.leb_spec (t + 1000) now) as [_ | Hgt]; [| lia].
  now repeat split.
Qed.

Lemma persists_app apiKey srv c1 c2 :
  persists apiKey srv (c1 ++ c2) =
  persists apiKey srv c1 ++ persists apiKey srv c2.
Proof. unfold persists. now rewrite flat_map_app. Qed.

Lemma persists_one apiKey srv t v :
  JS.truthy apiKey = true ->
  persists apiKey srv [(t, v)] = [Scraping.urlToSave v].
Proof.
  intros Hk. unfold persists. cbn [flat_map snd].
  rewrite (saveUrlToBackend_trace srv apiKey v Hk).
  now destruct (JS.truthy_opt _).
Qed.

(** C6: a burst of edits, each less than 1000 ms after the one
    before, on an editor with no save pending: every edit shows at once
    in the draft and replaces the scheduled save, and once the last edit
    is 1000 ms old exactly one call of [saveUrlToBackend] has been made,
    with the value of the last edit, sending one persist request. *)
Theorem burst_of_edits_saves_once apiKey srv e t0 v0 rest now :
  timers e = [] ->
  burst t0 rest ->
  let edits := (t0, v0) :: rest in
  let tl := fst (last edits (t0, v0)) in
  let vl := snd (last edits (t0, v0)) in
  tl + 1000 <= now ->
  let typed := type_all edits e in
  let settled := fire_due now typed in
  (forall at_ url e', scrapeUrl (handleScrapeUrlChange at_ url e') = url)
  /\ scrapeUrl typed = vl
  /\ saved typed = saved e
  /\ (exists id, timers typed = [mkTimer id (tl + 1000) vl])
  /\ saved settled = saved e ++ [(tl + 1000, vl)]
  /\ timers settled = []
  /\ scrapeUrl settled = vl
  /\ (JS.truthy apiKey = true ->
      persists apiKey srv (saved settled) =
      persists apiKey srv (saved e) ++ [Scraping.urlToSave vl]).
Proof.
  intros Ht Hb. cbv zeta. intros Hnow.
  pose proof (first_edit_arms t0 v0 e Ht) as Ha.
  pose proof (burst_rearms rest t0 v0 (saved e) _ Ha Hb) as Hl.
  change (type_all rest (edit_at e (t0, v0)))
    with (type_all ((t0, v0) :: rest) e) in Hl.
  assert (Hlast : last ((t0, v0) :: rest) (t0, v0) = last rest (t0, v0)).
  { destruct rest as [| p r]; [reflexivity |].
    change (last ((t0, v0) :: p :: r) (t0, v0))
      with (last (p :: r) (t0, v0)). reflexivity. }
  rewrite Hlast in Hnow |- *.
  set (tl := fst (last rest (t0, v0))) in *.
  set (vl := snd (last rest (t0, v0))) in *.
  destruct (armed_fires tl vl (saved e) _ now Hl Hnow)
    as (Hsaved & Htimers & Hdraft).
  destruct Hl as (id & Hu & Hr & Htm & Hs).
  split; [intros; reflexivity |].
  split; [exact Hu |]. split; [exact Hs |].
  split; [now exists id |]. split; [exact Hsaved |].
  split; [exact Htimers |]. split; [exact Hdraft |].
  intros Hk. rewrite Hsaved, persists_app.
  now rewrite (persists_one apiKey srv _ vl Hk).
Qed.

End Debounce.

(** ** The resource stores *)

Section ResourceStores.

Import Api Async.

(** Orders: two page fetches in flight; whichever answer is delivered
    last is the one displayed, whatever the cursor says. *)
Lemma orders_last_answer_wins apiKey p q
  (server : forall r, Orders.Resp r) st (dp dq : OrderListResponse) :
  JS.truthy apiKey = true ->
  data (server (Orders.GetOrders (p * Orders.PAGE_SIZE) Orders.PAGE_SIZE))
    = Some dp ->
  data (server (Orders.GetOrders (q * Orders.PAGE_SIZE) Orders.PAGE_SIZE))
    = Some dq ->
  let issued :=
    Orders.call (Orders.goToPage apiKey q)
      (Orders.call (Orders.goToPage apiKey p) (st, [])) in
  let overtaken :=
    Orders.resolve server 0 (Orders.resolve server 1 issued) in
  let in_order :=
    Orders.resolve server 0 (Orders.resolve server 0 issued) in
  (Orders.currentPage (fst issued) = q
   /\ List.length (snd issued) = 2%nat)
  /\ (Orders.orders (fst overtaken) = orders dp
      /\ Orders.ordersTotal (fst overtaken) = total dp
      /\ Orders.currentPage (fst overtaken) = q
      /\ snd overtaken = [])
  /\ (Orders.orders (fst in_order) = orders dq
      /\ Orders.ordersTotal (fst in_order) = total dq
      /\ Orders.currentPage (fst in_order) = q
      /\ snd in_order = []).
Proof.
  intros Hk Hp Hq. cbv zeta.
  unfold Orders.resolve, Orders.call, Async.resolve, Async.call,
    Orders.goToPage, Orders.fetchOrders, Orders.await.
  rewrite Hk. cbn. rewrite ?Hp, ?Hq. cbn. rewrite ?Hp, ?Hq. cbn.
  now repeat split.
Qed.

Lemma calls_last_answer_wins apiKey p q
  (server : forall r, Calls.Resp r) st (dp dq : Calls.CallListResponse) :
  JS.truthy apiKey = true ->
  data (server (Calls.GetCalls (p * Calls.PAGE_SIZE) Calls.PAGE_SIZE))
    = Some dp ->
  data (server (Calls.GetCalls (q * Calls.PAGE_SIZE) Calls.PAGE_SIZE))
    = Some dq ->
  let issued :=
    Calls.call (Calls.goToPage apiKey q)
      (Calls.call (Calls.goToPage apiKey p) (st, [])) in
  let overtaken :=
    Calls.resolve server 0 (Calls.resolve server 1 issued) in
  let in_order :=
    Calls.resolve server 0 (Calls.resolve server 0 issued) in
  (Calls.callsPage (fst issued) = q
   /\ List.length (snd issued) = 2%nat)
  /\ (Calls.callsItems (fst overtaken) = Calls.calls dp
      /\ Calls.callsTotal (fst overtaken) = Calls.total dp
      /\ Calls.callsPage (fst overtaken) = q
      /\ snd overtaken = [])
  /\ (Calls.callsItems (fst in_order) = Calls.calls dq
      /\ Calls.callsTotal (fst in_order) = Calls.total dq
      /\ Calls.callsPage (fst in_order) = q
      /\ snd in_order = []).
Proof.
  intros Hk Hp Hq. cbv zeta.
  unfold Calls.resolve, Calls.call, Async.resolve, Async.call,
    Calls.goToPage, Calls.fetchCalls, Calls.await.
  rewrite Hk. cbn. rewrite ?Hp, ?Hq. cbn. rewrite ?Hp, ?Hq. cbn.
  now repeat split.
Qed.

(** C2, as the code has it: with a fetch for page [p] in flight and
    the cursor moved on to page [q], the answer for [p], when it is
    delivered after the answer for [q], replaces the items of [q]: both
    stores display the page of the answer delivered last, under the
    cursor set last. *)
Theorem stale_answer_replaces_displayed_page apiKey p q
  (orders_srv : forall r, Orders.Resp r)
  (calls_srv : forall r, Calls.Resp r)
  (so : Orders.Store) (sc : Calls.Store)
  (op oq : OrderListResponse) (cp cq : Calls.CallListResponse) :
  JS.truthy apiKey = true ->
  data (orders_srv (Orders.GetOrders (p * Orders.PAGE_SIZE)
                      Orders.PAGE_SIZE)) = Some op ->
  data (orders_srv (Orders.GetOrders (q * Orders.PAGE_SIZE)
                      Orders.PAGE_SIZE)) = Some oq ->
  data (calls_srv (Calls.GetCalls (p * Calls.PAGE_SIZE)
                     Calls.PAGE_SIZE)) = Some cp ->
  data (calls_srv (Calls.GetCalls (q * Calls.PAGE_SIZE)
                     Calls.PAGE_SIZE)) = Some cq ->
  let o :=
    Orders.resolve orders_srv 0
      (Orders.resolve orders_srv 1
         (Orders.call (Orders.goToPage apiKey q)
            (Orders.call (Orders.goToPage apiKey p) (so, [])))) in
  let c :=
    Calls.resolve calls_srv 0
      (Calls.resolve calls_srv 1
         (Calls.call (Calls.goToPage apiKey q)
            (Calls.call (Calls.goToPage apiKey p) (sc, [])))) in
  (Orders.orders (fst o) = orders op
   /\ Orders.ordersTotal (fst o) = total op
   /\ Orders.currentPage (fst o) = q)
  /\ (Calls.callsItems (fst c) = Calls.calls cp
      /\ Calls.callsTotal (fst c) = Calls.total cp
      /\ Calls.callsPage (fst c) = q).
Proof.
  intros Hk Hop Hoq Hcp Hcq. cbv zeta.
  destruct (orders_last_answer_wins apiKey p q orders_srv so op oq
              Hk Hop Hoq) as (_ & (Ho1 & Ho2 & Ho3 & _) & _).
  destruct (calls_last_answer_wins apiKey p q calls_srv sc cp cq
              Hk Hcp Hcq) as (_ & (Hc1 & Hc2 & Hc3 & _) & _).
  cbv zeta in Ho1, Ho2, Ho3, Hc1, Hc2, Hc3.
  repeat split; assumption.
Qed.

(** C2, as stated, fails: page 0 is requested, then page 1; the answer
    for page 1 arrives first, the answer for page 0 last.  The cursor
    is 1 and the items shown are those of page 0. *)
Lemma stale_page_is_displayed :
  Orders.currentPage (fst Scenario.orders_overtaken) = 1
  /\ Orders.orders (fst Scenario.orders_overtaken) = Scenario.page0
  /\ Orders.orders (fst Scenario.orders_overtaken) <> Scenario.page1
  /\ Calls.callsPage (fst Scenario.calls_overtaken) = 1
  /\ Calls.callsItems (fst Scenario.calls_overtaken) = Scenario.calls0
  /\ Calls.callsItems (fst Scenario.calls_overtaken) <> Scenario.calls1.
Proof. repeat split; try reflexivity; discriminate. Qed.

End ResourceStores.

(** ** The credential guard *)

Section Credential.

Import Api Async.

(** The operations that test the key first send nothing without it. *)
Lemma guarded_operations_send_nothing
  (so : Orders.Server) (ss : Schedules.Server) (sc : Scraping.Server)
  page hour minute url :
  requests (trace so (Orders.fetchOrders "" page)) = []
  /\ requests (trace so (Orders.goToPage "" page)) = []
  /\ trace so (Orders.uploadAllOrders "" page) =
       [EvCmd (Orders.ShowToast "API key required" toast_error)]
  /\ requests (trace ss (Schedules.fetchSchedules "")) = []
  /\ trace ss (Schedules.addSchedule "" hour minute) =
       [EvCmd (Schedules.ShowToast "API key required" toast_error)]
  /\ trace sc (Scraping.runScrape "" url) =
       [EvCmd (Scraping.ShowToast "API key required" toast_error)]
  /\ trace sc (Scraping.saveUrlToBackend "" url) = []
  /\ trace sc (Scraping.loadSavedUrl "") = []
  /\ trace sc (Scraping.fetchPendingCount "") = [].
Proof. now repeat split. Qed.

(** Three functions do not test the key themselves: called with an
    empty key, [deleteOrder], [uploadSingleOrder] and
    [toggleScheduleEnabled] would set the empty key on the client and send
    their request, which then carries no credential header.  The page
    never calls them so: see [no_request_without_credential]. *)
Lemma unguarded_operations_send_without_key
  (so : Orders.Server) (ss : Schedules.Server) currentPage id :
  hd_error (requests (trace so (Orders.deleteOrder "" currentPage id)))
    = Some (Orders.DeleteOrder id)
  /\ hd_error (requests (trace so
                  (Orders.uploadSingleOrder "" currentPage id)))
       = Some (Orders.TriggerUpload id)
  /\ hd_error (requests (trace ss (Schedules.toggleScheduleEnabled "" id)))
       = Some (Schedules.ToggleSchedule id)
  /\ request_headers "" (Orders.endpoint (Orders.DeleteOrder id))
       = [("Content-Type", "application/json")]
  /\ request_headers "" (Orders.endpoint (Orders.TriggerUpload id))
       = [("Content-Type", "application/json")]
  /\ request_headers "" (Schedules.endpoint (Schedules.ToggleSchedule id))
       = [("Content-Type", "application/json")].
Proof.
  unfold trace, Orders.deleteOrder, Orders.uploadSingleOrder,
    Schedules.toggleScheduleEnabled, Orders.await, Schedules.await.
  cbn [run].
  repeat split;
    match goal with
    | |- context [run ?s ?n ?p] => now destruct (run s n p)
    end.
Qed.



End Credential.

(** ** The notification bus *)

Section NotificationBus.

Import ToastContext.

Lemma filter_all {X} (l : list X) : filter (fun _ => true) l = l.
Proof. induction l as [| x l IH]; [reflexivity | cbn; now rewrite IH]. Qed.

Lemma filter_twice {X} (f g h : X -> bool) (l : list X) :
  (forall x, In x l -> g x && f x = h x) ->
  filter f (filter g l) = filter h l.
Proof.
  induction l as [| x l IH]; intros H; [reflexivity |].
  cbn. pose proof (H x (or_introl eq_refl)) as Hx.
  rewrite <- IH by (intros y Hy; apply H; now right).
  destruct (g x); cbn in *; rewrite <- Hx; [| reflexivity].
  reflexivity.
Qed.

Lemma filter_map_swap {X Y} (f : X -> Y) (P : Y -> bool) (l : list X) :
  filter P (map f l) = map f (filter (fun x => P (f x)) l).
Proof.
  induction l as [| x l IH]; [reflexivity |].
  cbn. rewrite IH. now destruct (P (f x)).
Qed.

(** Running the removal callbacks one after the other filters out the
    toasts whose id is the target of one of them. *)
Lemma dismiss_all (due : list (Z * Z)) :
  forall ts,
    fold_left (fun ts tm => dismiss (snd tm) ts) due ts =
    filter (fun t => negb (existsb (fun tm => snd tm =? id t) due)) ts.
Proof.
  induction due as [| tm due IH]; intros ts; cbn.
  - now rewrite filter_all.
  - rewrite IH. unfold dismiss. apply filter_twice.
    intros t _. rewrite negb_orb. now rewrite (Z.eqb_sym (id t)).
Qed.

(** *** Doubles *)

Lemma round_exact z :
  - Double.limit <= z <= Double.limit -> Double.round z = z.
Proof.
  unfold Double.round, Double.round_nat, Double.limit. intros Hz.
  destruct (Z.ltb_spec z 0) as [Hneg | Hpos].
  - destruct (Z.ltb_spec (- z) 9007199254740992) as [Hlt | Hge]; [lia |].
    replace z with (- 9007199254740992) by lia. reflexivity.
  - destruct (Z.ltb_spec z 9007199254740992) as [Hlt | Hge]; [reflexivity |].
    replace z with 9007199254740992 by lia. reflexivity.
Qed.

(** The counter counts the pushes, up to 2^53. *)
Lemma counter_next n : Double.add (counter_of n) 1 = counter_of (S n).
Proof.
  unfold counter_of, Double.add.
  destruct (Z.lt_ge_cases (Z.of_nat n) Double.limit) as [Hlt | Hge].
  - rewrite Z.min_l by lia. rewrite round_exact by (unfold Double.limit in *; lia).
    rewrite Z.min_l by lia. lia.
  - rewrite !Z.min_r by lia. reflexivity.
Qed.

Lemma slot_bounds n : 0 <= slot n < 1000.
Proof.
  unfold slot, counter_of. apply Z.rem_bound_pos; [| lia].
  unfold Double.limit. lia.
Qed.

(** In the exact range the id is the product plus the slot. *)
Lemma make_id_exact t n :
  exact t -> make_id t (counter_of n) = t * 1000 + slot n.
Proof.
  intros [Hlo Hhi]. unfold make_id, Double.mul, Double.add.
  fold (slot n). pose proof (slot_bounds n) as Hs.
  rewrite (round_exact (t * 1000)) by lia.
  apply round_exact. lia.
Qed.

Lemma id_of_exact x y :
  exact (now (push x)) -> exact (now (push y)) ->
  id_of x = id_of y ->
  now (push x) = now (push y) /\ slot (index x) = slot (index y).
Proof.
  unfold id_of. intros Hx Hy. rewrite !make_id_exact by assumption.
  pose proof (slot_bounds (index x)). pose proof (slot_bounds (index y)).
  lia.
Qed.

(** *** The pushes in order *)

Lemma stamped_app l1 :
  forall n c l2,
    stamped n c (l1 ++ l2) =
    stamped n c l1 ++ stamped (n + List.length l1) (clock_after c l1) l2.
Proof.
  induction l1 as [| ev l1 IH]; intros n c l2; cbn.
  - now rewrite Nat.add_0_r.
  - now rewrite IH, <- plus_n_Sm.
Qed.

Lemma clock_after_le evs : forall c, c <= clock_after c evs.
Proof.
  induction evs as [| ev evs IH]; intros c; cbn; [lia |].
  specialize (IH (c + Z.of_N (after ev))). unfold clock_after in IH. lia.
Qed.

Lemma stamped_by_the_end evs :
  forall n c, Forall (fun x => time x <= clock_after c evs) (stamped n c evs).
Proof.
  induction evs as [| ev evs IH]; intros n c; cbn; constructor.
  - cbn. apply (clock_after_le evs).
  - apply IH.
Qed.

Lemma stamped_readings evs (P : Z -> Prop) :
  Forall (fun ev => P (now ev)) evs ->
  forall n c, Forall (fun x => P (now (push x))) (stamped n c evs).
Proof.
  induction 1 as [| ev evs Hev _ IH]; intros n c; cbn; constructor;
    [exact Hev | apply IH].
Qed.

Lemma ordered_pairs_prefix {X} (R : X -> X -> Prop) (l1 l2 : list X) :
  ForallOrdPairs R (l1 ++ l2) -> ForallOrdPairs R l1.
Proof.
  induction l1 as [| x l1 IH]; cbn; intros H; [constructor |].
  inversion H as [| ? ? Hx Hl]; subst. constructor.
  - apply Forall_app in Hx. tauto.
  - now apply IH.
Qed.

Lemma ordered_pairs_impl {X} (R S : X -> X -> Prop) (P : X -> Prop) l :
  Forall P l ->
  (forall x y, P x -> P y -> R x y -> S x y) ->
  ForallOrdPairs R l -> ForallOrdPairs S l.
Proof.
  intros HP Himp. induction 1 as [| x l Hx Hl IH]; [constructor |].
  inversion HP as [| ? ? Px Pl]; subst. constructor; [| now apply IH].
  rewrite Forall_forall in *. intros y Hy. apply Himp; auto.
Qed.

(** In the exact range it is enough that pushes of one reading find
    the counter at different values modulo 1000. *)
Lemma spread_no_clash evs :
  Forall (fun ev => exact (now ev)) evs -> spread evs -> no_clash evs.
Proof.
  intros Hex. unfold spread, no_clash.
  apply ordered_pairs_impl
    with (P := fun x => exact (now (push x))).
  - now apply stamped_readings.
  - intros x y Hx Hy Hs Hnear Hid.
    destruct (id_of_exact x y Hx Hy Hid) as [Hnow Hslot].
    exact (Hs Hnear Hnow Hslot).
Qed.

(** *** The provider against what it should hold *)

(** Letting time pass on the expected state gives the expected state. *)
Lemma fire_due_state_at evs t0 t :
  no_clash evs -> end_time evs <= t0 -> t0 <= t ->
  fire_due t (state_at evs t0) = state_at evs t.
Proof.
  intros Hnc Hend Hle. unfold fire_due, state_at.
  cbn [toasts timers toastCounterRef]. f_equal.
  - rewrite dismiss_all, filter_map_swap. f_equal.
    apply filter_twice. intros x Hin.
    destruct (alive t0 x) eqn:E0, (alive t x) eqn:E1; cbn [andb].
    + destruct (existsb _ _) eqn:Ex; [| reflexivity].
      exfalso.
      apply existsb_exists in Ex. destruct Ex as (tm & Htm & Hid).
      apply filter_In in Htm. destruct Htm as [Htm Hdue].
      apply in_map_iff in Htm. destruct Htm as (y & <- & Hy).
      apply filter_In in Hy. destruct Hy as [Hy Ey].
      apply Z.eqb_eq in Hid. cbn [snd timer_of toast_of id] in Hid.
      cbn [fst timer_of] in Hdue. unfold alive in E0, E1, Ey.
      pose proof (proj1 (Forall_forall _ _)
                    (stamped_by_the_end evs 0 0) x Hin) as Hx.
      fold (end_time evs) in Hx. cbn beta in Hx.
      destruct (ForallOrdPairs_In Hnc x y Hin Hy) as [-> | [Ha | Ha]].
      * lia.
      * apply Ha; [lia | now symmetry].
      * apply Ha; [lia | exact Hid].
    + assert (Ex : existsb (fun tm => snd tm =? id (toast_of x))
                (filter (fun tm => fst tm <=? t)
                   (map timer_of (filter (alive t0) (stamped 0 0 evs))))
              = true).
      { apply existsb_exists. exists (timer_of x). split.
        - apply filter_In. split.
          + apply in_map. apply filter_In. now split.
          + unfold alive in E1. cbn [fst timer_of]. lia.
        - cbn [snd timer_of toast_of id]. apply Z.eqb_refl. }
      now rewrite Ex.
    + unfold alive in *. lia.
    + reflexivity.
  - rewrite filter_map_swap. f_equal. apply filter_twice.
    intros x _. unfold alive. cbn [fst timer_of].
    destruct (Z.ltb_spec t0 (time x + 4000)),
      (Z.ltb_spec t (time x + 4000)),
      (Z.leb_spec (time x + 4000) t); cbn; lia || reflexivity.
Qed.

(** A push on the expected state gives the expected state. *)
Lemma showToast_state_at evs ev :
  let clock := end_time evs + Z.of_N (after ev) in
  showToast clock (now ev) (text ev) (kind ev) (state_at evs clock) =
  state_at (evs ++ [ev]) clock.
Proof.
  cbv zeta. unfold showToast, state_at. cbn [toasts timers toastCounterRef].
  rewrite stamped_app, filter_app, !map_app, length_app.
  cbn [stamped filter]. fold (end_time evs).
  assert (Ha : alive (end_time evs + Z.of_N (after ev))
                 (mkStamped (0 + List.length evs)
                    (end_time evs + Z.of_N (after ev)) ev) = true).
  { unfold alive. cbn [time]. lia. }
  rewrite Ha. cbn [map List.length Nat.add].
  rewrite Nat.add_1_r, counter_next. reflexivity.
Qed.

Lemma end_time_snoc evs ev :
  end_time (evs ++ [ev]) = end_time evs + Z.of_N (after ev).
Proof. unfold end_time, clock_after. now rewrite fold_left_app. Qed.

Lemma no_clash_prefix evs ev : no_clash (evs ++ [ev]) -> no_clash evs.
Proof.
  unfold no_clash. rewrite stamped_app. apply ordered_pairs_prefix.
Qed.

(** As long as pushes at most 4000 ms apart get different ids, the
    provider holds what it should after every push. *)
Lemma push_all_state_at evs :
  no_clash evs ->
  push_all evs = (end_time evs, state_at evs (end_time evs)).
Proof.
  induction evs as [| ev evs IH] using rev_ind; intros Hnc.
  - reflexivity.
  - pose proof (no_clash_prefix _ _ Hnc) as Hnc'.
    unfold push_all. rewrite fold_left_app. cbn [fold_left].
    fold (push_all evs). rewrite (IH Hnc'). unfold push_at. cbn [fst snd].
    rewrite end_time_snoc.
    rewrite (fire_due_state_at evs (end_time evs)) by (assumption || lia).
    now rewrite showToast_state_at.
Qed.

Lemma observe_state_at evs later :
  no_clash evs ->
  observe later (push_all evs) =
  state_at evs (end_time evs + Z.of_N later).
Proof.
  intros Hnc. rewrite (push_all_state_at evs Hnc). unfold observe.
  cbn [fst snd]. apply fire_due_state_at; [assumption | lia ..].
Qed.

(** The toasts on show have different ids. *)
Lemma live_ids_distinct (l : list Stamped) t :
  ForallOrdPairs apart l ->
  Forall (fun x => time x <= t) l ->
  NoDup (map id_of (filter (alive t) l)).
Proof.
  induction 1 as [| x l Hx Hl IH]; intros Ht; [constructor |].
  inversion Ht as [| ? ? Hxt Hlt]; subst. cbn [filter].
  destruct (alive t x) eqn:Ex; [| now apply IH].
  cbn [map]. constructor; [| now apply IH].
  intros Hin. apply in_map_iff in Hin. destruct Hin as (y & Hid & Hy).
  apply filter_In in Hy. destruct Hy as [Hy Ey].
  rewrite Forall_forall in Hx, Hlt.
  unfold alive in Ex. apply (Hx y Hy); [| now symmetry].
  specialize (Hlt y Hy). cbn beta in Hlt. lia.
Qed.

(** C9, as the code has it.  [Date.now()] may read anything from
    -9007199254740 to 9007199254739, also going backwards; as long as two
    pushes at most 4000 ms apart that read the same [Date.now()] find
    the counter at different values modulo 1000, the toasts on show all
    have different ids; a toast is on show from its push until its own
    timer runs 4000 ms later, the timers pending are those of the toasts
    on show, and a push only ever adds a timer. *)
Theorem toasts_live_four_seconds evs later :
  Forall (fun ev => exact (now ev)) evs ->
  spread evs ->
  let t := end_time evs + Z.of_N later in
  let p := observe later (push_all evs) in
  NoDup (map id (toasts p))
  /\ toasts p = map toast_of (filter (alive t) (stamped 0 0 evs))
  /\ timers p = map timer_of (filter (alive t) (stamped 0 0 evs))
  /\ Forall (fun x => id_of x = now (push x) * 1000 + slot (index x))
       (stamped 0 0 evs)
  /\ (forall clock at_ m k q,
        exists i,
          timers (showToast clock at_ m k q) = timers q ++ [(clock + 4000, i)]
          /\ toasts (showToast clock at_ m k q) = toasts q ++ [mkToast i m k]).
Proof.
  intros Hex Hs. cbv zeta.
  pose proof (spread_no_clash evs Hex Hs) as Hnc.
  rewrite (observe_state_at evs later Hnc).
  unfold state_at. cbn [toasts timers].
  split; [| split; [reflexivity | split; [reflexivity | split]]].
  - rewrite map_map.
    change (fun x => id (toast_of x)) with id_of.
    apply live_ids_distinct; [exact Hnc |].
    eapply Forall_impl; [| apply (stamped_by_the_end evs 0 0)].
    intros x Hx. cbn beta in Hx. fold (end_time evs) in Hx. lia.
  - eapply Forall_impl; [| apply (stamped_readings evs exact Hex 0 0)].
    intros x Hx. now apply make_id_exact.
  - intros clock at_ m k q. eexists. split; reflexivity.
Qed.

(** C9, as stated, fails.  Of 1001 toasts pushed in one millisecond,
    the first and the last are both on show and carry the same id; and
    from the year 2255 on the sum is no longer exact, so two toasts pushed
    in one millisecond carry the same id. *)
Lemma same_millisecond_ids_collide :
  (let p := snd (push_all Scenario.flood) in
   List.length (toasts p) = 1001%nat
   /\ option_map id (nth_error (toasts p) 0) = Some 1700000000000000
   /\ option_map id (nth_error (toasts p) 1000) = Some 1700000000000000
   /\ ~ NoDup (map id (toasts p)))
  /\ (let p := snd (push_all Scenario.late_pair) in
      map id (toasts p) = [9007199254741000; 9007199254741000]
      /\ ~ NoDup (map id (toasts p))).
Proof.
  cbv zeta.
  assert (Hlen : List.length (toasts (snd (push_all Scenario.flood)))
                 = 1001%nat) by (vm_compute; reflexivity).
  assert (H0 : option_map id
                 (nth_error (toasts (snd (push_all Scenario.flood))) 0)
               = Some 1700000000000000) by (vm_compute; reflexivity).
  assert (H1000 : option_map id
                    (nth_error (toasts (snd (push_all Scenario.flood))) 1000)
                  = Some 1700000000000000) by (vm_compute; reflexivity).
  split; [split; [exact Hlen | split; [exact H0 | split; [exact H1000 |]]] |].
  - intros Hnd.
    assert (Hsame : nth_error (map id (toasts (snd (push_all Scenario.flood))))
                      0 =
                    nth_error (map id (toasts (snd (push_all Scenario.flood))))
                      1000)
      by (rewrite !nth_error_map, H0, H1000; reflexivity).
    pose proof (proj1 (NoDup_nth_error _) Hnd 0%nat 1000%nat
                  ltac:(rewrite length_map, Hlen; lia) Hsame) as Habs.
    discriminate Habs.
  - assert (Hlate : map id (toasts (snd (push_all Scenario.late_pair)))
                    = [9007199254741000; 9007199254741000])
      by (vm_compute; reflexivity).
    split; [exact Hlate |]. rewrite Hlate. intros Hnd.
    inversion Hnd as [| ? ? Hin _]; subst. apply Hin. now left.
Qed.

End NotificationBus.

(** ** The properties at work on concrete runs *)

Section Examples.

Import Api Async Scraping Observe.

(** C1 on the run of the specification: RUNNING three times, then
    COMPLETED with 3 processed and 2 failed.  The toast that reports the
    outcome is of the error kind; the callback is called. *)
Lemma partial_failure_toast_is_not_success :
  let t := trace Scenario.partial_failure
             (runScrape "secret" "https://example.org/orders") in
  toasts_of t =
    [("Workflow started - please wait...", toast_success);
     ("Done: 3 processed, 0 skipped, 2 failed", toast_error)]
  /\ callbacks_of t = 1%nat
  /\ (forall m, last (toasts_of t) ("", toast_success) <> (m, toast_success)).
Proof.
  cbv zeta. repeat split; try (vm_compute; reflexivity).
  intros m. vm_compute. discriminate.
Qed.

Lemma partial_failure_is_toasted_as_error_witness :
  let t := trace Scenario.partial_failure
             (runScrape "secret" "https://example.org/orders") in
  toasts_of t =
    [("Workflow started - please wait...", toast_success);
     ("Done: 3 processed, 0 skipped, 2 failed", toast_error)]
  /\ callbacks_of t = 1%nat
  /\ polls_of t = 4%nat
  /\ scrapeStatus (final exec t initial) = st_success
  /\ scrapeResult (final exec t initial) = Some (mkWorkflowResult 0 3 2)
  /\ currentWorkflowId (final exec t initial) = None.
Proof.
  apply (partial_failure_is_toasted_as_error Scenario.partial_failure
           "secret" "https://example.org/orders" (mkTriggered "wf-1") 3
           (mkWorkflowStatus COMPLETED (Some (mkWorkflowResult 0 3 2)) None)
           (mkWorkflowResult 0 3 2) initial).
  - reflexivity.
  - reflexivity.
  - reflexivity.
  - unfold maxAttempts. lia.
  - intros j Hj.
    exists (mkWorkflowStatus RUNNING None None).
    destruct j as [| [| [| j]]]; [repeat split .. | lia].
  - split; reflexivity.
  - reflexivity.
  - reflexivity.
  - cbn. lia.
  - cbn. lia.
Defined.

Lemma poll_times_out_after_120_polls_witness :
  let r := run Scenario.never_done 0 (pollWorkflowStatus "wf-1") in
  fst r = cycles "wf-1" 120
  /\ polls_of (fst r) = 120%nat
  /\ waits_of (fst r) = repeat 5000 120
  /\ snd r = Throw "Workflow timed out"
  /\ (forall s, generic_failure s <> "Workflow timed out").
Proof.
  apply (poll_times_out_after_120_polls Scenario.never_done "wf-1" 0).
  intros j. exists (mkWorkflowStatus RUNNING None None). repeat split.
Defined.

Lemma failed_poll_fails_the_workflow_witness :
  let t := trace Scenario.poll_breaks
             (runScrape "secret" "https://example.org/orders") in
  t = started "secret" "https://example.org/orders" "wf-1"
        ++ cycles "wf-1" 1
        ++ [EvReq (GetWorkflowStatus "wf-1");
            EvDone (GetWorkflowStatus "wf-1");
            EvCmd (SetScrapeStatus st_error);
            EvCmd (ShowToast "Service unavailable" toast_error);
            EvCmd (SetCurrentWorkflowId None)]
  /\ polls_of t = 2%nat
  /\ toasts_of t =
       [("Workflow started - please wait...", toast_success);
        ("Service unavailable", toast_error)]
  /\ callbacks_of t = 0%nat
  /\ scrapeStatus (final exec t initial) = st_error
  /\ currentWorkflowId (final exec t initial) = None.
Proof.
  apply (failed_poll_fails_the_workflow Scenario.poll_breaks
           "secret" "https://example.org/orders" (mkTriggered "wf-1") 1
           initial).
  - reflexivity.
  - reflexivity.
  - reflexivity.
  - unfold maxAttempts. lia.
  - intros j Hj.
    exists (mkWorkflowStatus RUNNING None None).
    destruct j as [| j]; [repeat split | lia].
  - left. reflexivity.
Defined.

Lemma poll_answer_settles_or_continues_witness :
  let srv := Scenario.fails_with CANCELED None in
  let r := run srv 0 (poll_loop 120 "wf-1") in
  let polled :=
    [EvReq (GetWorkflowStatus "wf-1"); EvDone (GetWorkflowStatus "wf-1")] in
  r = (polled, Throw "Workflow canceled").
Proof.
  cbv zeta.
  apply (poll_answer_settles_or_continues
           (Scenario.fails_with CANCELED None) "wf-1" 119 0
           (mkWorkflowStatus CANCELED None None)).
  - split; reflexivity.
  - reflexivity.
  - reflexivity.
Defined.

Lemma default_url_is_saved_as_no_override_witness :
  let url := ("  " ++ DEFAULT_SCRAPE_URL ++ " ")%string in
  let t := trace Scenario.never_done (saveUrlToBackend "secret" url) in
  urlToSave url = None
  /\ hd_error (requests t) = Some (UpdateScrapeConfig None)
  /\ (forall v, In (UpdateScrapeConfig v) (requests t) -> v = None)
  /\ (forall other,
        ~ In (UpdateScrapeConfig (Some DEFAULT_SCRAPE_URL))
            (requests (trace Scenario.never_done
                         (saveUrlToBackend "secret" other)))).
Proof.
  apply (default_url_is_saved_as_no_override Scenario.never_done "secret"
           ("  " ++ DEFAULT_SCRAPE_URL ++ " ")%string).
  - reflexivity.
  - vm_compute. reflexivity.
Defined.

Lemma sync_follows_successful_persist_witness :
  let u := UpdateScrapeConfig (Some "https://example.org/orders") in
  trace Scenario.never_done
    (saveUrlToBackend "secret" " https://example.org/orders") =
    [EvCmd (SetApiKey "secret"); EvReq u; EvDone u;
     EvReq SyncSchedules; EvDone SyncSchedules;
     EvCmd (ShowToast "URL saved" toast_success)]
  /\ trace Scenario.persist_refused
       (saveUrlToBackend "secret" " https://example.org/orders") =
       [EvCmd (SetApiKey "secret"); EvReq u; EvDone u;
        EvCmd (ShowToast "Failed to save URL" toast_error)]
  /\ scrapeUrl
       (final exec
          (trace Scenario.persist_refused
             (saveUrlToBackend "secret" " https://example.org/orders"))
          initial) = scrapeUrl initial.
Proof.
  cbv zeta.
  destruct (sync_follows_successful_persist Scenario.never_done
              "secret" " https://example.org/orders" initial eq_refl)
    as (Hok & _ & _).
  destruct (sync_follows_successful_persist Scenario.persist_refused
              "secret" " https://example.org/orders" initial eq_refl)
    as (_ & Hko & Hdraft).
  split; [exact (Hok eq_refl) |].
  split; [exact (proj1 (Hko eq_refl)) | exact Hdraft].
Defined.

Lemma burst_of_edits_saves_once_witness :
  let edits := (0, "https://example.org/orders") :: Scenario.typing in
  let typed := UrlEditor.type_all edits UrlEditor.initial in
  let settled := UrlEditor.fire_due 1400 typed in
  UrlEditor.scrapeUrl typed = "https://example.org/orders?page=2"
  /\ UrlEditor.saved typed = []
  /\ UrlEditor.saved settled =
       [(1400, "https://example.org/orders?page=2")]
  /\ UrlEditor.persists "secret" Scenario.never_done
       (UrlEditor.saved settled) =
       [Some "https://example.org/orders?page=2"].
Proof.
  cbv zeta.
  destruct (burst_of_edits_saves_once "secret" Scenario.never_done
              UrlEditor.initial 0 "https://example.org/orders"
              Scenario.typing 1400)
    as (_ & Hdraft & Hquiet & _ & Hsaved & _ & _ & Hpersist).
  - reflexivity.
  - cbn. lia.
  - cbn. lia.
  - split; [exact Hdraft |]. split; [exact Hquiet |].
    split; [exact Hsaved |]. exact (Hpersist eq_refl).
Defined.

Lemma stale_answer_replaces_displayed_page_witness :
  Orders.orders (fst Scenario.orders_overtaken) = Scenario.page0
  /\ Orders.ordersTotal (fst Scenario.orders_overtaken) = 11
  /\ Orders.currentPage (fst Scenario.orders_overtaken) = 1
  /\ Calls.callsItems (fst Scenario.calls_overtaken) = Scenario.calls0
  /\ Calls.callsTotal (fst Scenario.calls_overtaken) = 11
  /\ Calls.callsPage (fst Scenario.calls_overtaken) = 1.
Proof.
  destruct (stale_answer_replaces_displayed_page "secret" 0 1
              Scenario.orders_server Scenario.calls_server
              Orders.initial Calls.initial
              (mkOrderList Scenario.page0 11)
              (mkOrderList Scenario.page1 11)
              (Calls.mkCallList Scenario.calls0 11)
              (Calls.mkCallList Scenario.calls1 11)
              eq_refl eq_refl eq_refl eq_refl eq_refl)
    as ((Ho1 & Ho2 & Ho3) & (Hc1 & Hc2 & Hc3)).
  repeat split; assumption.
Defined.

Lemma toasts_live_four_seconds_witness :
  let p := ToastContext.observe 1999
             (ToastContext.push_all Scenario.quick_toasts) in
  NoDup (map ToastContext.id (ToastContext.toasts p))
  /\ map ToastContext.id (ToastContext.toasts p) =
       [1700000000000000; 1700000000000001; 1700000000000002;
        1699996402000003]
  /\ map fst (ToastContext.timers p) = [4000; 4000; 4000; 6000]
  /\ map ToastContext.id
       (ToastContext.toasts
          (ToastContext.observe 2000
             (ToastContext.push_all Scenario.quick_toasts)))
     = [1699996402000003].
Proof.
  cbv zeta.
  assert (Hex : Forall (fun ev => ToastContext.exact (ToastContext.now ev))
                  Scenario.quick_toasts)
    by (repeat constructor; cbn; unfold Double.limit; lia).
  assert (Hs : ToastContext.spread Scenario.quick_toasts)
    by (repeat constructor; intros _ _; discriminate).
  destruct (toasts_live_four_seconds Scenario.quick_toasts 1999 Hex Hs)
    as (Hnd & Hto & Hti & _).
  destruct (toasts_live_four_seconds Scenario.quick_toasts 2000 Hex Hs)
    as (_ & Hto' & _).
  split; [exact Hnd |]. rewrite Hto, Hti, Hto'. repeat split.
Defined.

(** The functions without a test of their own, called with an empty
    key as no control of the page calls them. *)
Lemma empty_key_requests :
  trace Scenario.orders_unauthorized (Orders.deleteOrder "" 0 7) =
    [EvCmd (Orders.SetApiKey ""); EvReq (Orders.DeleteOrder 7);
     EvDone (Orders.DeleteOrder 7);
     EvCmd (Orders.ShowToast "Invalid API key" toast_error)]
  /\ trace Scenario.orders_unauthorized (Orders.uploadSingleOrder "" 0 7) =
    [EvCmd (Orders.SetApiKey ""); EvReq (Orders.TriggerUpload 7);
     EvDone (Orders.TriggerUpload 7);
     EvCmd (Orders.ShowToast "Invalid API key" toast_error)]
  /\ trace Scenario.schedules_unauthorized
       (Schedules.toggleScheduleEnabled "" 7) =
    [EvCmd (Schedules.SetApiKey ""); EvReq (Schedules.ToggleSchedule 7);
     EvDone (Schedules.ToggleSchedule 7);
     EvCmd (Schedules.ShowToast "Invalid API key" toast_error)]
  /\ Orders.method (Orders.DeleteOrder 7) = "DELETE"
  /\ Orders.endpoint (Orders.DeleteOrder 7) = "/api/v1/orders/7"
  /\ request_headers "" "/api/v1/orders/7" =
       [("Content-Type", "application/json")]
  /\ request_headers "secret" "/api/v1/orders/7" =
       [("Content-Type", "application/json"); ("X-API-Key", "secret")].
Proof. repeat split. Qed.


End Examples.

(** * Further properties of the hooks *)

(** ** The orchestrator on every server *)

Section OrchestratorBounds.

Import Api Async Scraping Observe.

Variable srv : Server.

(** The poll loop only polls and waits: it runs no command, polls at
    most as often as it has attempts, and every wait is 5000 ms. *)
Lemma poll_loop_budget id :
  forall remaining n,
    let t := fst (run srv n (poll_loop remaining id)) in
    commands t = []
    /\ (polls_of t <= remaining)%nat
    /\ Forall (fun ms => ms = 5000) (waits_of t)
    /\ (List.length (waits_of t) <= polls_of t)%nat.
Proof.
  induction remaining as [| remaining IH]; intros n; cbv zeta.
  - cbn. split; [reflexivity | split; [lia | split; [constructor | lia]]].
  - cbn [poll_loop await run]. unfold await.
    destruct (if JS.truthy_opt (error (srv n (GetWorkflowStatus id)))
              then None else data (srv n (GetWorkflowStatus id))) as [d |].
    2:{ cbn. split; [reflexivity | split; [lia | split; [constructor | lia]]]. }
    specialize (IH (S (S n))). cbv zeta in IH.
    assert (Hstop : forall (o : PollOutcome) (t := fst (@run Cmd Req Resp _ srv n
                        (Await (GetWorkflowStatus id) (fun _ => Ret o)))),
               commands t = [] /\ (polls_of t <= S remaining)%nat
               /\ Forall (fun ms => ms = 5000) (waits_of t)
               /\ (List.length (waits_of t) <= polls_of t)%nat).
    { intros o. cbn.
      split; [reflexivity | split; [lia | split; [constructor | lia]]]. }
    assert (Hgo : let t := fst (@run Cmd Req Resp _ srv n
                     (Await (GetWorkflowStatus id) (fun _ =>
                        Await (Timeout 5000) (fun _ =>
                          poll_loop remaining id)))) in
               commands t = [] /\ (polls_of t <= S remaining)%nat
               /\ Forall (fun ms => ms = 5000) (waits_of t)
               /\ (List.length (waits_of t) <= polls_of t)%nat).
    { cbn [run].
      destruct (run srv (S (S n)) (poll_loop remaining id)) as [t a].
      cbn [fst] in *. destruct IH as (Hc & Hp & Hw & Hl).
      change (EvReq (GetWorkflowStatus id)
                :: EvDone (GetWorkflowStatus id)
                :: EvReq (Timeout 5000) :: EvDone (Timeout 5000) :: t)
        with (cycles id 1 ++ t).
      rewrite commands_cycles, polls_of_cycles, waits_of_cycles.
      cbn [repeat app List.length].
      split; [exact Hc | split; [lia | split; [| lia]]].
      constructor; [reflexivity | exact Hw]. }
    destruct (wf_status d); try apply Hstop; apply Hgo.
Qed.

Lemma settled_shape (c : PollOutcome) :
  requests (settled c) = []
  /\ List.length (toasts_of (settled c)) = 1%nat
  /\ callbacks_of (settled c) =
       match c with Return _ => 1%nat | Throw _ => 0%nat end.
Proof. destruct c as [[r |] | m]; repeat split. Qed.

Lemma settled_run_budget apiKey url id (tp : list Event) (c : PollOutcome) :
  commands tp = [] ->
  (polls_of tp <= 120)%nat ->
  Forall (fun ms => ms = 5000) (waits_of tp) ->
  (List.length (waits_of tp) <= polls_of tp)%nat ->
  let t := started apiKey url id ++ tp ++ settled c
             ++ [EvCmd (SetCurrentWorkflowId None)] in
  (polls_of t <= 120)%nat
  /\ Forall (fun ms => ms = 5000) (waits_of t)
  /\ (List.length (waits_of t) <= polls_of t)%nat
  /\ (List.length (toasts_of t) <= 2)%nat
  /\ (callbacks_of t <= 1)%nat.
Proof.
  intros Hc Hp Hw Hl. cbv zeta.
  destruct (settled_shape c) as (Hr & Ht & Hcb).
  assert (Hwaits : waits_of (started apiKey url id ++ tp
                             ++ settled c ++ [EvCmd (SetCurrentWorkflowId None)])
                   = waits_of tp).
  { unfold waits_of. rewrite !requests_app, Hr. cbn.
    now rewrite app_nil_r. }
  assert (Hpolls : polls_of (started apiKey url id ++ tp
                             ++ settled c ++ [EvCmd (SetCurrentWorkflowId None)])
                   = polls_of tp).
  { rewrite !polls_of_app. unfold polls_of at 3 4. rewrite Hr. cbn. lia. }
  rewrite Hwaits, Hpolls.
  split; [exact Hp | split; [exact Hw | split; [exact Hl |]]].
  rewrite !toasts_of_app, !callbacks_of_app, !length_app.
  unfold toasts_of at 2, callbacks_of at 2. rewrite Hc, Ht, Hcb. cbn.
  destruct c; lia.
Qed.

(** X1: Whatever the server answers, a call of [runScrape] polls at most 120
    times, waits 5000 ms after a poll and never otherwise, shows at most
    two toasts and calls the completion callback at most once. *)
Theorem runScrape_within_budget apiKey url :
  let t := trace srv (runScrape apiKey url) in
  (polls_of t <= 120)%nat
  /\ Forall (fun ms => ms = 5000) (waits_of t)
  /\ (List.length (waits_of t) <= polls_of t)%nat
  /\ (List.length (toasts_of t) <= 2)%nat
  /\ (callbacks_of t <= 1)%nat.
Proof.
  cbv zeta.
  destruct (JS.truthy apiKey) eqn:Hk.
  2:{ unfold trace, runScrape. generalize pollWorkflowStatus. intros poll.
      rewrite Hk. cbn.
      repeat split; try lia; constructor. }
  destruct (JS.truthy (JS.trim url)) eqn:Hu.
  2:{ unfold trace, runScrape. generalize pollWorkflowStatus. intros poll.
      rewrite Hk, Hu. cbn.
      repeat split; try lia; constructor. }
  destruct (data (srv 0%nat (ScrapeOrders url))) as [st |] eqn:Hd.
  2:{ unfold trace, runScrape. generalize pollWorkflowStatus. intros poll.
      rewrite Hk, Hu. cbn [negb run].
      unfold await. cbn [run]. rewrite Hd. cbn.
      repeat split; try lia; constructor. }
  rewrite (runScrape_started srv apiKey url st Hk Hu Hd).
  unfold pollWorkflowStatus.
  destruct (poll_loop_budget (workflow_id st) maxAttempts 1)
    as (Hc & Hp & Hw & Hl).
  apply settled_run_budget; assumption.
Qed.

Lemma settled_run_final apiKey url id (tp : list Event) (c : PollOutcome)
  (h : Hook) :
  commands tp = [] ->
  let t := started apiKey url id ++ tp ++ settled c
             ++ [EvCmd (SetCurrentWorkflowId None)] in
  currentWorkflowId (final exec t h) = None
  /\ ((scrapeStatus (final exec t h) = st_success
       /\ callbacks_of t = 1%nat)
      \/ (scrapeStatus (final exec t h) = st_error
          /\ callbacks_of t = 0%nat
          /\ scrapeResult (final exec t h) = None)).
Proof.
  intros Hc. cbv zeta.
  assert (Hfin : final exec (started apiKey url id ++ tp
                   ++ settled c ++ [EvCmd (SetCurrentWorkflowId None)]) h
                 = final exec (settled c ++ [EvCmd (SetCurrentWorkflowId None)])
                     (final exec (started apiKey url id) h)).
  { rewrite final_app, (final_app tp). f_equal.
    unfold final at 1. now rewrite Hc. }
  assert (Hcb : callbacks_of (started apiKey url id ++ tp
                   ++ settled c ++ [EvCmd (SetCurrentWorkflowId None)])
                = callbacks_of (settled c)).
  { rewrite !callbacks_of_app. unfold callbacks_of at 2. rewrite Hc.
    cbn. lia. }
  rewrite Hfin, Hcb.
  destruct c as [[r |] | m]; cbn; split; try reflexivity;
    (left; split; reflexivity) || (right; repeat split; reflexivity).
Qed.

(** X2: Once the workflow has been started, [runScrape] always comes to an
    end with the handle cleared and the status success or error, never
    loading; the completion callback is called exactly when the status is
    success. *)
Theorem runScrape_always_settles apiKey url st (h : Hook) :
  JS.truthy apiKey = true ->
  JS.truthy (JS.trim url) = true ->
  data (srv 0%nat (ScrapeOrders url)) = Some st ->
  let t := trace srv (runScrape apiKey url) in
  currentWorkflowId (final exec t h) = None
  /\ ((scrapeStatus (final exec t h) = st_success
       /\ callbacks_of t = 1%nat)
      \/ (scrapeStatus (final exec t h) = st_error
          /\ callbacks_of t = 0%nat
          /\ scrapeResult (final exec t h) = None)).
Proof.
  intros Hk Hu Hd. cbv zeta.
  rewrite (runScrape_started srv apiKey url st Hk Hu Hd).
  unfold pollWorkflowStatus.
  destruct (poll_loop_budget (workflow_id st) maxAttempts 1)
    as (Hc & _).
  apply settled_run_final. exact Hc.
Qed.

(** X3: Validation comes first: without a key, or with a key and a url
    that is blank once trimmed, [runScrape] shows one error toast and does
    nothing else; the missing key is reported even if the url is blank
    too. *)
Theorem runScrape_rejects_blank_url apiKey url :
  JS.truthy (JS.trim url) = false ->
  trace srv (runScrape apiKey url) =
    [EvCmd (ShowToast (if JS.truthy apiKey then "Order list URL required"
                       else "API key required") toast_error)].
Proof.
  intros Hu. unfold trace, runScrape. rewrite Hu.
  now destruct (JS.truthy apiKey).
Qed.

(** X4: When the start request yields no data, nothing is polled: the
    status becomes error, the server's error text (or the default text) is
    toasted, the callback is not called and no handle is tracked. *)
Theorem runScrape_start_failure apiKey url (h : Hook) :
  JS.truthy apiKey = true ->
  JS.truthy (JS.trim url) = true ->
  data (srv 0%nat (ScrapeOrders url)) = None ->
  let t := trace srv (runScrape apiKey url) in
  requests t = [ScrapeOrders url]
  /\ toasts_of t =
       [(JS.or_else (error (srv 0%nat (ScrapeOrders url)))
           "Failed to start scraping", toast_error)]
  /\ callbacks_of t = 0%nat
  /\ scrapeStatus (final exec t h) = st_error
  /\ currentWorkflowId (final exec t h) = None.
Proof.
  intros Hk Hu Hd. cbv zeta. unfold trace, runScrape. rewrite Hk, Hu.
  cbn [negb run]. unfold await. cbn [run]. rewrite Hd. cbn.
  repeat split.
Qed.

(** X5: A workflow that completes without failed items is reported by a
    success toast: with the counts when a result is attached, with a plain
    text when none is; the callback is called once. *)
Theorem runScrape_clean_success apiKey url st k d (h : Hook) :
  JS.truthy apiKey = true ->
  JS.truthy (JS.trim url) = true ->
  data (srv 0%nat (ScrapeOrders url)) = Some st ->
  (k < maxAttempts)%nat ->
  (forall j, (j < k)%nat ->
     pending (poll_answer srv 1 (workflow_id st) j)) ->
  answered_with (poll_answer srv 1 (workflow_id st) k) d ->
  wf_status d = COMPLETED ->
  (forall r, wf_result d = Some r -> failed_count r <= 0) ->
  let t := trace srv (runScrape apiKey url) in
  toasts_of t =
    [("Workflow started - please wait...", toast_success);
     (match wf_result d with
      | Some r =>
          ("Done: " ++ JS.number_to_string (JS.or_zero (processed_count r))
             ++ " processed, "
             ++ JS.number_to_string (JS.or_zero (skipped_orders r))
             ++ " skipped")%string
      | None => "Workflow completed"
      end, toast_success)]
  /\ callbacks_of t = 1%nat
  /\ polls_of t = S k
  /\ scrapeStatus (final exec t h) = st_success
  /\ scrapeResult (final exec t h) = wf_result d.
Proof.
  intros Hk Hu Hd Hlt Hp Ha Hs Hclean. cbv zeta.
  rewrite (runScrape_settles_at srv apiKey url st k (Return (wf_result d))
             Hk Hu Hd Hlt Hp).
  2:{ intros remaining. now apply poll_loop_completed. }
  destruct (settles_observed apiKey url (workflow_id st) k
              (Return (wf_result d)) h) as (Hto & Hcb & Hpo & Hfin).
  cbv zeta in Hto, Hcb, Hpo, Hfin. rewrite Hto, Hcb, Hfin.
  split; [| split; [| split; [exact Hpo |]]].
  - destruct (wf_result d) as [r |]; [| reflexivity].
    unfold settled. cbn. unfold done_message.
    assert (Hf : (JS.or_zero (failed_count r) >? 0) = false).
    { pose proof (Hclean r eq_refl). unfold JS.or_zero.
      destruct (failed_count r =? 0); lia. }
    now rewrite Hf.
  - now destruct (wf_result d).
  - now destruct (wf_result d).
Qed.

(** X6: A workflow reported FAILED, CANCELED or TERMINATED ends the run at
    that poll: status error, one error toast with the server's error
    text or the message named after the status, no callback. *)
Theorem runScrape_terminal_failure apiKey url st k d (h : Hook) :
  JS.truthy apiKey = true ->
  JS.truthy (JS.trim url) = true ->
  data (srv 0%nat (ScrapeOrders url)) = Some st ->
  (k < maxAttempts)%nat ->
  (forall j, (j < k)%nat ->
     pending (poll_answer srv 1 (workflow_id st) j)) ->
  answered_with (poll_answer srv 1 (workflow_id st) k) d ->
  In (wf_status d) [FAILED; CANCELED; TERMINATED] ->
  let t := trace srv (runScrape apiKey url) in
  toasts_of t =
    [("Workflow started - please wait...", toast_success);
     (JS.or_else (wf_error d) (generic_failure (wf_status d)), toast_error)]
  /\ callbacks_of t = 0%nat
  /\ polls_of t = S k
  /\ scrapeStatus (final exec t h) = st_error
  /\ currentWorkflowId (final exec t h) = None.
Proof.
  intros Hk Hu Hd Hlt Hp Ha Hs. cbv zeta.
  rewrite (runScrape_settles_at srv apiKey url st k
             (Throw (JS.or_else (wf_error d)
                       (generic_failure (wf_status d))))
             Hk Hu Hd Hlt Hp).
  2:{ intros remaining. now apply poll_loop_terminal. }
  destruct (settles_observed apiKey url (workflow_id st) k
              (Throw (JS.or_else (wf_error d)
                        (generic_failure (wf_status d)))) h)
    as (Hto & Hcb & Hpo & Hfin).
  cbv zeta in Hto, Hcb, Hpo, Hfin. rewrite Hto, Hcb, Hfin.
  repeat split. exact Hpo.
Qed.

End OrchestratorBounds.

(** ** What is persisted and what is loaded back *)

Section ConfigRoundTrip.

Import Api Async Scraping Text.

Lemma trim_start_clean l : starts_clean (JS.trim_start l).
Proof.
  induction l as [| c l IH]; cbn; [exact I |].
  destruct (JS.is_space c) eqn:E; [exact IH | exact E].
Qed.

Lemma trim_start_fixed l : starts_clean l -> JS.trim_start l = l.
Proof. destruct l as [| c l]; cbn; [reflexivity |]. now intros ->. Qed.

Lemma trim_start_keeps_last l c :
  JS.is_space c = false -> exists m, JS.trim_start (l ++ [c]) = m ++ [c].
Proof.
  intros Hc. induction l as [| x l IH]; cbn.
  - rewrite Hc. now exists [].
  - destruct (JS.is_space x); [exact IH |]. now exists (x :: l).
Qed.

Lemma trim_end_clean l : ends_clean (JS.trim_end l).
Proof.
  unfold ends_clean, JS.trim_end. rewrite rev_involutive.
  apply trim_start_clean.
Qed.

Lemma trim_end_keeps_start l : starts_clean l -> starts_clean (JS.trim_end l).
Proof.
  destruct l as [| c l]; [intros _; exact I |]. cbn [starts_clean]. intros Hc.
  unfold JS.trim_end. cbn [rev].
  destruct (trim_start_keeps_last (rev l) c Hc) as (m & ->).
  rewrite rev_app_distr. exact Hc.
Qed.

Lemma trim_end_fixed l : ends_clean l -> JS.trim_end l = l.
Proof.
  intros H. unfold JS.trim_end. rewrite (trim_start_fixed _ H).
  apply rev_involutive.
Qed.

Lemma trim_tidy s : tidy (JS.trim s).
Proof.
  unfold tidy, JS.trim. rewrite list_ascii_of_string_of_list_ascii. split.
  - apply trim_end_keeps_start, trim_start_clean.
  - apply trim_end_clean.
Qed.

Lemma trim_of_tidy s : tidy s -> JS.trim s = s.
Proof.
  intros [Hs He]. unfold JS.trim.
  rewrite (trim_start_fixed _ Hs), (trim_end_fixed _ He).
  apply string_of_list_ascii_of_string.
Qed.

Lemma trim_idempotent s : JS.trim (JS.trim s) = JS.trim s.
Proof. apply trim_of_tidy, trim_tidy. Qed.

Lemma truthy_false s : JS.truthy s = false -> s = "".
Proof. now destruct s. Qed.

(** X7: What [saveUrlToBackend] sends as the override: null exactly for a
    url that is blank or the default once trimmed; otherwise the trimmed
    url, which is non-empty, carries no white space at either end, is
    not the default, and is sent unchanged if saved again. *)
Theorem persisted_override_is_normalised url :
  (urlToSave url = None <->
   JS.trim url = "" \/ JS.trim url = DEFAULT_SCRAPE_URL)
  /\ (forall v,
        urlToSave url = Some v ->
        v = JS.trim url /\ v <> "" /\ v <> DEFAULT_SCRAPE_URL
        /\ tidy v /\ urlToSave v = Some v).
Proof.
  unfold urlToSave at 1 2. split.
  - destruct (String.eqb_spec (JS.trim url) DEFAULT_SCRAPE_URL) as [E | N].
    + split; [intros _; now right | reflexivity].
    + destruct (JS.truthy (JS.trim url)) eqn:T.
      * split; [discriminate |]. intros [H | H]; [| contradiction].
        rewrite H in T. discriminate T.
      * split; [intros _; left; now apply truthy_false | reflexivity].
  - intros v.
    destruct (String.eqb_spec (JS.trim url) DEFAULT_SCRAPE_URL) as [E | N];
      [discriminate |].
    destruct (JS.truthy (JS.trim url)) eqn:T; [| discriminate].
    intros H. injection H as <-.
    split; [reflexivity |]. split; [intros H; rewrite H in T; discriminate |].
    split; [exact N |]. split; [apply trim_tidy |].
    unfold urlToSave. rewrite trim_idempotent, T.
    destruct (String.eqb_spec (JS.trim url) DEFAULT_SCRAPE_URL);
      [contradiction | reflexivity].
Qed.

(** X8: Save, then load on a fresh mount: when the config endpoint answers
    the load with the override the save has sent, the draft becomes the
    trimmed url, or stays the default when the url was blank. *)
Theorem saved_url_is_loaded_back (srv srv' : Server) apiKey url v :
  JS.truthy apiKey = true ->
  In (UpdateScrapeConfig v)
    (requests (trace srv (saveUrlToBackend apiKey url))) ->
  data (srv' 0%nat GetScrapeConfig) = Some (mkScrapeConfig v) ->
  scrapeUrl (final exec (trace srv' (loadSavedUrl apiKey)) initial) =
    if JS.truthy (JS.trim url) then JS.trim url else DEFAULT_SCRAPE_URL.
Proof.
  intros Hk Hin Hload.
  assert (Hv : v = urlToSave url).
  { rewrite (saveUrlToBackend_trace srv apiKey url Hk) in Hin.
    destruct (JS.truthy_opt _); cbn in Hin;
      repeat (destruct Hin as [Hin | Hin]; try discriminate Hin;
              try (now injection Hin)); contradiction. }
  unfold trace, loadSavedUrl. rewrite Hk. cbn [negb run].
  unfold await. cbn [run]. rewrite Hload. subst v.
  unfold urlToSave. cbn [custom_order_list_url].
  destruct (String.eqb_spec (JS.trim url) DEFAULT_SCRAPE_URL) as [E | N].
  - rewrite E. reflexivity.
  - destruct (JS.truthy (JS.trim url)) eqn:T; cbn; [| reflexivity].
    now rewrite T.
Qed.

(** X9: The two background loads are silent: whatever the server answers,
    [loadSavedUrl] and [fetchPendingCount] show no toast, start no
    workflow and change nothing but the draft, respectively the pending
    count (and the key held by the client). *)
Theorem background_loads_are_silent (srv : Server) apiKey (h : Hook) :
  let l := final exec (trace srv (loadSavedUrl apiKey)) h in
  let c := final exec (trace srv (fetchPendingCount apiKey)) h in
  toasts_of (trace srv (loadSavedUrl apiKey)) = []
  /\ toasts_of (trace srv (fetchPendingCount apiKey)) = []
  /\ (scrapeStatus l, scrapeResult l, currentWorkflowId l, pendingCount l,
      shown l, completions l)
     = (scrapeStatus h, scrapeResult h, currentWorkflowId h, pendingCount h,
        shown h, completions h)
  /\ (scrapeStatus c, scrapeResult c, currentWorkflowId c, scrapeUrl c,
      shown c, completions c)
     = (scrapeStatus h, scrapeResult h, currentWorkflowId h, scrapeUrl h,
        shown h, completions h)
  /\ (data (srv 0%nat GetScrapeConfig) = None -> scrapeUrl l = scrapeUrl h)
  /\ (data (srv 0%nat GetPendingConversions) = None ->
      pendingCount c = pendingCount h).
Proof.
  cbv zeta. unfold trace, loadSavedUrl, fetchPendingCount.
  destruct (JS.truthy apiKey); cbn [negb run]; [| now repeat split].
  unfold await. cbn [run].
  destruct (data (srv 0%nat GetScrapeConfig)) as [d |];
    destruct (data (srv 0%nat GetPendingConversions)) as [d' |];
    try destruct (JS.truthy_opt (custom_order_list_url d));
    cbn; repeat split; discriminate.
Qed.

End ConfigRoundTrip.

(** ** The settle timer over several bursts and at unmount *)

Section DebounceLifecycle.

Import UrlEditor UrlEditorCleanup.

(** An edit made once the settle window has passed: the save scheduled
    before has run, exactly once, and the new value is scheduled; clearing
    the handle of the timer that has fired cancels nothing. *)
Lemma edit_after_quiet t v calls e t' v' :
  armed t v calls e -> t + 1000 <= t' ->
  armed t' v' (calls ++ [(t + 1000, v)]) (edit_at e (t', v')).
Proof.
  intros (id & Hu & Hr & Ht & Hs) Hw. exists (next_timer e).
  unfold edit_at, handleScrapeUrlChange, fire_due. cbn.
  rewrite Hr, Ht, Hs. cbn.
  destruct (Z.leb_spec (t + 1000) t') as [_ | Hgt]; [| lia].
  cbn. now repeat split.
Qed.

(** X10: Two bursts of edits separated by a pause of at least 1000 ms, on an
    editor with no save pending: exactly two saves are made, each 1000 ms
    after the last edit of its burst and with the value of that edit. *)
Theorem each_burst_saves_once e t0 v0 rest t1 v1 rest' now :
  timers e = [] ->
  burst t0 rest ->
  let a := last rest (t0, v0) in
  fst a + 1000 <= t1 ->
  burst t1 rest' ->
  let b := last rest' (t1, v1) in
  fst b + 1000 <= now ->
  let typed :=
    type_all (((t0, v0) :: rest) ++ (t1, v1) :: rest') e in
  saved (fire_due now typed) =
    saved e ++ [(fst a + 1000, snd a); (fst b + 1000, snd b)]
  /\ saved typed = saved e ++ [(fst a + 1000, snd a)]
  /\ timers (fire_due now typed) = []
  /\ scrapeUrl typed = snd b.
Proof.
  intros Ht Hb1. cbv zeta. intros Hgap Hb2 Hnow.
  pose proof (first_edit_arms t0 v0 e Ht) as H0.
  pose proof (burst_rearms rest t0 v0 (saved e) _ H0 Hb1) as H1.
  pose proof (edit_after_quiet _ _ _ _ t1 v1 H1 Hgap) as H2.
  pose proof (burst_rearms rest' t1 v1 _ _ H2 Hb2) as H3.
  assert (Htyped : type_all (((t0, v0) :: rest) ++ (t1, v1) :: rest') e
                   = type_all rest'
                       (edit_at (type_all rest (edit_at e (t0, v0)))
                          (t1, v1))).
  { unfold type_all. now rewrite fold_left_app. }
  rewrite Htyped.
  destruct (armed_fires _ _ _ _ now H3 Hnow) as (Hs & Htm & _).
  destruct H3 as (id & Hu & _ & _ & Hsv).
  rewrite Hs, Htm, Hu, Hsv, <- app_assoc. now repeat split.
Qed.

Lemma unmount_of_armed t v calls e now :
  armed t v calls e ->
  timers (unmount e) = []
  /\ saved (fire_due now (unmount e)) = calls
  /\ scrapeUrl (unmount e) = v.
Proof.
  intros (id & Hu & Hr & Ht & Hs).
  unfold unmount, fire_due. cbn. rewrite Hr, Ht, Hs, Hu. cbn.
  rewrite Z.eqb_refl. cbn. rewrite app_nil_r. now repeat split.
Qed.

(** X11: Unmounting cancels the pending save: the value typed last in a
    burst that is still inside its settle window at the unmount is never
    persisted, however long one waits afterwards. *)
Theorem unmount_drops_pending_save e t0 v0 rest now :
  timers e = [] ->
  burst t0 rest ->
  let typed := type_all ((t0, v0) :: rest) e in
  timers (unmount typed) = []
  /\ saved (fire_due now (unmount typed)) = saved e
  /\ scrapeUrl (unmount typed) = snd (last rest (t0, v0)).
Proof.
  intros Ht Hb. cbv zeta.
  pose proof (first_edit_arms t0 v0 e Ht) as H0.
  pose proof (burst_rearms rest t0 v0 (saved e) _ H0 Hb) as H1.
  exact (unmount_of_armed _ _ _ _ now H1).
Qed.

End DebounceLifecycle.

(** ** The orders store, operation by operation *)

Section OrdersOperations.

Import Api Async Orders.

Variable srv : Server.

(** X12: A failed page fetch clears the items and reports the error, and
    that is all: the total, the cursor and the pending-upload counter keep
    the values of the page shown before. *)
Theorem fetchOrders_failure_keeps_counters apiKey page (s : Store) :
  JS.truthy apiKey = true ->
  data (srv 0%nat (GetOrders (page * PAGE_SIZE) PAGE_SIZE)) = None ->
  let s' := final exec (trace srv (fetchOrders apiKey page)) s in
  orders s' = []
  /\ ordersStatus s' = st_error
  /\ shown s' =
       shown s
         ++ [(JS.or_else
                (error (srv 0%nat (GetOrders (page * PAGE_SIZE) PAGE_SIZE)))
                "Failed to fetch orders", toast_error)]
  /\ ordersTotal s' = ordersTotal s
  /\ currentPage s' = currentPage s
  /\ pendingUploads s' = pendingUploads s.
Proof.
  intros Hk Hd. cbv zeta. unfold trace, fetchOrders. rewrite Hk.
  cbn [negb run]. unfold await. cbn [run]. rewrite Hd. cbn.
  now repeat split.
Qed.

Lemma filter_length_pos {X} (f : X -> bool) (l : list X) :
  (0 <? Z.of_nat (List.length (filter f l))) = existsb f l.
Proof.
  induction l as [| x l IH]; [reflexivity |].
  cbn. destruct (f x); cbn [List.length orb]; [| exact IH].
  apply Z.ltb_lt. lia.
Qed.

(** X13: After a successful page fetch the pending-upload counter is the
    number of rows that show an Upload button, so the Upload All banner is
    shown exactly when some row on the page can be uploaded. *)
Theorem fetchOrders_counts_upload_buttons apiKey page (s : Store) d :
  JS.truthy apiKey = true ->
  data (srv 0%nat (GetOrders (page * PAGE_SIZE) PAGE_SIZE)) = Some d ->
  let s' := final exec (trace srv (fetchOrders apiKey page)) s in
  orders s' = Api.orders d
  /\ ordersTotal s' = total d
  /\ ordersStatus s' = st_success
  /\ pendingUploads s' =
       Z.of_nat (List.length (filter OrderRow.shows_upload (orders s')))
  /\ 0 <= pendingUploads s' <= Z.of_nat (List.length (orders s'))
  /\ ScrapingSection.shows_upload_all apiKey (pendingUploads s') =
       existsb OrderRow.shows_upload (orders s')
  /\ shown s' = shown s.
Proof.
  intros Hk Hd. cbv zeta. unfold trace, fetchOrders. rewrite Hk.
  cbn [negb run]. unfold await. cbn [run]. rewrite Hd. cbn.
  split; [reflexivity |]. split; [reflexivity |]. split; [reflexivity |].
  split; [reflexivity |]. split.
  - pose proof (filter_length_le
                  (fun o => (order_status o =? "converted")%string)
                  (Api.orders d)). lia.
  - split; [| reflexivity].
    unfold ScrapingSection.shows_upload_all. rewrite Hk. cbn [andb].
    rewrite Z.gtb_ltb.
    exact (filter_length_pos OrderRow.shows_upload (Api.orders d)).
Qed.

(** X14: Deleting an order: when the server confirms, its message is toasted
    and the page the user is on is fetched again (not page 0); when it
    does not, the error is toasted and nothing is fetched, so the page
    shown stays as it is. *)
Theorem deleteOrder_refetches_current_page apiKey currentPage id (s : Store) :
  JS.truthy apiKey = true ->
  let t := trace srv (deleteOrder apiKey currentPage id) in
  (forall m,
     data (srv 0%nat (DeleteOrder id)) = Some m ->
     requests t =
       [DeleteOrder id; GetOrders (currentPage * PAGE_SIZE) PAGE_SIZE]
     /\ hd_error (OrdersObserve.toasts_of t)
        = Some (message m, toast_success))
  /\ (data (srv 0%nat (DeleteOrder id)) = None ->
      requests t = [DeleteOrder id]
      /\ orders (final exec t s) = orders s
      /\ ordersTotal (final exec t s) = ordersTotal s
      /\ shown (final exec t s) =
           shown s
             ++ [(JS.or_else (error (srv 0%nat (DeleteOrder id)))
                    "Failed to delete order", toast_error)]).
Proof.
  intros Hk. cbv zeta. unfold trace, deleteOrder, fetchOrders.
  rewrite Hk. cbn [negb]. unfold await. cbn [run]. split.
  - intros m Hd. rewrite Hd. cbn [run].
    destruct (data (srv 1%nat (GetOrders (currentPage * PAGE_SIZE) PAGE_SIZE)));
      cbn; now split.
  - intros Hd. rewrite Hd. cbn. now repeat split.
Qed.

(** X15: Uploading one order fetches nothing at once: a confirmed upload is
    toasted and a refetch of the page of the click is scheduled 3000 ms
    later; a refused one is toasted as an error and schedules nothing. *)
Theorem uploadSingleOrder_defers_refetch apiKey currentPage orderId
  (s : Store) :
  let t := trace srv (uploadSingleOrder apiKey currentPage orderId) in
  requests t = [TriggerUpload orderId]
  /\ orders (final exec t s) = orders s
  /\ (forall d,
        data (srv 0%nat (TriggerUpload orderId)) = Some d ->
        timeouts (final exec t s) =
          timeouts s ++ [(RefetchOrders currentPage, 3000)]
        /\ shown (final exec t s) =
             shown s
               ++ [(("Upload triggered for order "
                      ++ JS.number_to_string orderId)%string,
                    toast_success)])
  /\ (data (srv 0%nat (TriggerUpload orderId)) = None ->
      timeouts (final exec t s) = timeouts s
      /\ shown (final exec t s) =
           shown s
             ++ [(JS.or_else (error (srv 0%nat (TriggerUpload orderId)))
                    "Failed to trigger upload", toast_error)]).
Proof.
  cbv zeta. unfold trace, uploadSingleOrder. cbn [run].
  unfold await. cbn [run].
  destruct (data (srv 0%nat (TriggerUpload orderId))) as [d |]; cbn.
  - split; [reflexivity |]. split; [reflexivity |].
    split; [intros ? _; now split | discriminate].
  - split; [reflexivity |]. split; [reflexivity |].
    split; [discriminate | intros _; now split].
Qed.

(** X16: Upload All with a key: whatever the server answers, exactly one
    reset of the button status is scheduled, 3000 ms later and as the last
    thing done; a refetch is scheduled before it only when the server
    reports at least one upload triggered. *)
Theorem uploadAllOrders_always_resets apiKey currentPage (s : Store) :
  JS.truthy apiKey = true ->
  let t := trace srv (uploadAllOrders apiKey currentPage) in
  let s' := final exec t s in
  requests t = [TriggerAllUploads]
  /\ orders s' = orders s
  /\ match data (srv 0%nat TriggerAllUploads) with
     | Some d =>
         uploadAllStatus s' = st_success
         /\ timeouts s' =
              timeouts s
                ++ (if triggered_count d >? 0
                    then [(RefetchOrders currentPage, 3000)] else [])
                ++ [(ResetUploadAllStatus, 3000)]
         /\ shown s' =
              shown s
                ++ [(if triggered_count d >? 0
                     then (JS.number_to_string (triggered_count d)
                             ++ " upload(s) triggered")%string
                     else "No pending uploads", toast_success)]
     | None =>
         uploadAllStatus s' = st_error
         /\ timeouts s' = timeouts s ++ [(ResetUploadAllStatus, 3000)]
         /\ shown s' =
              shown s
                ++ [(JS.or_else (error (srv 0%nat TriggerAllUploads))
                       "Failed to trigger uploads", toast_error)]
     end.
Proof.
  intros Hk. cbv zeta. unfold trace, uploadAllOrders. rewrite Hk.
  cbn [negb run]. unfold await. cbn [run].
  destruct (data (srv 0%nat TriggerAllUploads)) as [d |]; cbn.
  - destruct (triggered_count d >? 0); cbn; rewrite <- ?app_assoc;
      now repeat split.
  - now repeat split.
Qed.

End OrdersOperations.

(** ** The pager and the body of the orders table *)

Section OrdersView.

Import Api Async.

Lemma totalPages_bounds total pageSize :
  0 < pageSize ->
  (OrdersTable.totalPages total pageSize - 1) * pageSize < total
  /\ total <= OrdersTable.totalPages total pageSize * pageSize.
Proof.
  intros Hp. unfold OrdersTable.totalPages.
  pose proof (Z.div_mod (- total) pageSize ltac:(lia)) as Hdm.
  pose proof (Z.mod_pos_bound (- total) pageSize Hp) as Hb.
  nia.
Qed.

(** X17: The pager on a page that exists: it announces a non-empty range of
    at most [pageSize] items inside the collection and a page number no
    greater than the number of pages; Next is disabled exactly on the last
    page and Previous exactly on the first; a button that is enabled leads
    to a page that exists. *)
Theorem pager_stays_in_range currentPage pageSize total status :
  0 < pageSize -> 0 <= currentPage ->
  currentPage * pageSize < total ->
  is_loading status = false ->
  let first := OrdersTable.showing_from currentPage pageSize in
  let last := OrdersTable.showing_to currentPage pageSize total in
  let pages := OrdersTable.totalPages total pageSize in
  (1 <= first <= last /\ last <= total /\ last - first + 1 <= pageSize)
  /\ currentPage + 1 <= pages
  /\ (OrdersTable.next_disabled currentPage pageSize total status = true
      <-> currentPage + 1 = pages)
  /\ (OrdersTable.previous_disabled currentPage status = true
      <-> currentPage = 0)
  /\ (OrdersTable.next_disabled currentPage pageSize total status = false ->
      (currentPage + 1) * pageSize < total)
  /\ (OrdersTable.previous_disabled currentPage status = false ->
      0 <= currentPage - 1 /\ (currentPage - 1) * pageSize < total).
Proof.
  intros Hp Hc Hin Hl. cbv zeta.
  destruct (totalPages_bounds total pageSize Hp) as [Hlo Hhi].
  unfold OrdersTable.showing_from, OrdersTable.showing_to,
    OrdersTable.next_disabled, OrdersTable.previous_disabled.
  rewrite Hl, !orb_false_r.
  set (pages := OrdersTable.totalPages total pageSize) in *.
  assert (Hpages : currentPage + 1 <= pages) by nia.
  split; [lia |]. split; [exact Hpages |]. split; [| split; [| split]].
  - rewrite Z.geb_le. split; intros H; nia.
  - rewrite Z.eqb_eq. tauto.
  - intros H. destruct (Z.geb_spec ((currentPage + 1) * pageSize) total);
      [discriminate | lia].
  - intros H. destruct (Z.eqb_spec currentPage 0); [discriminate |]. nia.
Qed.

(** X18: What the table shows once a page fetch has settled with no item:
    the empty state, both when the server returned an empty page and when
    the fetch failed; with an empty collection the pager is hidden.
    While the first fetch is in flight the table is shown with no row. *)
Theorem empty_page_shows_empty_state (srv : Orders.Server) apiKey page
  (s : Orders.Store) :
  JS.truthy apiKey = true ->
  let s' :=
    final Orders.exec (trace srv (Orders.fetchOrders apiKey page)) s in
  let answer :=
    srv 0%nat (Orders.GetOrders (page * Orders.PAGE_SIZE) Orders.PAGE_SIZE) in
  (forall d, data answer = Some d -> orders d = [] ->
     OrdersTable.body apiKey (Orders.orders s') (Orders.ordersStatus s')
       = OrdersTable.EmptyState
     /\ Orders.ordersStatus s' = st_success
     /\ (total d = 0 ->
         OrdersTable.shows_pager apiKey (Orders.ordersTotal s') = false))
  /\ (data answer = None ->
      OrdersTable.body apiKey (Orders.orders s') (Orders.ordersStatus s')
        = OrdersTable.EmptyState)
  /\ (let loading :=
        fst (Orders.call (Orders.fetchOrders apiKey page)
               (Orders.initial, [])) in
      OrdersTable.body apiKey (Orders.orders loading)
        (Orders.ordersStatus loading) = OrdersTable.Table []).
Proof.
  intros Hk. cbv zeta. unfold trace, Orders.fetchOrders. rewrite Hk.
  cbn [negb run]. unfold Orders.await. cbn [run].
  unfold OrdersTable.body, OrdersTable.shows_pager. rewrite Hk. cbn [negb andb].
  split; [| split].
  - intros d Hd He. rewrite Hd. cbn. rewrite He. cbn.
    split; [reflexivity |]. split; [reflexivity |]. now intros ->.
  - intros Hd. rewrite Hd. reflexivity.
  - reflexivity.
Qed.

End OrdersView.

(** ** Timers and callbacks that reach the orders store *)

Section OrdersComposition.

Import Api Async.

(** X19: The refetch scheduled by an upload is for the page of the click:
    when the user has moved on to page [q] by the time it runs, the store
    ends up showing the items of the old page [p] under the cursor [q]. *)
Theorem delayed_refetch_shows_page_of_click apiKey p q orderId
  (server : forall r, Orders.Resp r) (s : Orders.Store)
  (up : ScrapeTriggeredResponse) (dp dq : OrderListResponse) :
  JS.truthy apiKey = true ->
  data (server (Orders.TriggerUpload orderId)) = Some up ->
  data (server (Orders.GetOrders (p * Orders.PAGE_SIZE) Orders.PAGE_SIZE))
    = Some dp ->
  data (server (Orders.GetOrders (q * Orders.PAGE_SIZE) Orders.PAGE_SIZE))
    = Some dq ->
  let clicked :=
    Orders.resolve server 0
      (Orders.call (Orders.uploadSingleOrder apiKey p orderId) (s, [])) in
  let moved :=
    Orders.resolve server 0 (Orders.call (Orders.goToPage apiKey q) clicked) in
  let fired :=
    Orders.resolve server 0
      (Orders.call
         (OrdersTimers.run_callback apiKey (Orders.RefetchOrders p)) moved) in
  Orders.timeouts (fst clicked) =
    Orders.timeouts s ++ [(Orders.RefetchOrders p, 3000)]
  /\ (Orders.orders (fst moved) = orders dq
      /\ Orders.currentPage (fst moved) = q)
  /\ (Orders.orders (fst fired) = orders dp
      /\ Orders.currentPage (fst fired) = q
      /\ snd fired = []).
Proof.
  intros Hk Hup Hp Hq. cbv zeta.
  unfold Orders.resolve, Orders.call, Async.resolve, Async.call,
    OrdersTimers.run_callback, Orders.uploadSingleOrder, Orders.goToPage,
    Orders.fetchOrders, Orders.await.
  rewrite Hk. cbn. rewrite ?Hup, ?Hp, ?Hq. cbn. rewrite ?Hup, ?Hp, ?Hq. cbn.
  rewrite ?Hup, ?Hp, ?Hq. cbn. now repeat split.
Qed.

Lemma deliver_app apiKey (t1 t2 : list Scraping.Event) l :
  Home.deliver apiKey (t1 ++ t2) l =
  Home.deliver apiKey t2 (Home.deliver apiKey t1 l).
Proof.
  unfold Home.deliver. now rewrite (commands_app t1 t2), fold_left_app.
Qed.

Lemma deliver_settled apiKey url id (tp : list Scraping.Event)
  (c : Scraping.PollOutcome) (h : Scraping.Hook) (s : Orders.Store) :
  JS.truthy apiKey = true ->
  commands tp = [] ->
  let t := Observe.started apiKey url id ++ tp ++ Observe.settled c
             ++ [EvCmd (Scraping.SetCurrentWorkflowId None)] in
  let l := Home.deliver apiKey t (s, []) in
  (Scraping.scrapeStatus (final Scraping.exec t h) = st_success ->
   Home.in_flight l =
     [Orders.GetOrders (0 * Orders.PAGE_SIZE) Orders.PAGE_SIZE]
   /\ Orders.currentPage (fst l) = 0
   /\ Orders.ordersStatus (fst l) = st_loading)
  /\ (Scraping.scrapeStatus (final Scraping.exec t h) = st_error ->
      l = (s, [])).
Proof.
  intros Hk Hc. cbv zeta.
  rewrite !final_app, !deliver_app.
  assert (Htp : forall x, Home.deliver apiKey tp x = x).
  { intros x. unfold Home.deliver. now rewrite Hc. }
  assert (Hfp : forall x, final Scraping.exec tp x = x).
  { intros x. unfold final. now rewrite Hc. }
  rewrite Htp, Hfp.
  destruct c as [[r |] | m]; cbn; split; intros H; try discriminate H;
    try reflexivity;
    unfold Home.handleScrapeComplete, Orders.call, Async.call,
      Orders.goToPage, Orders.fetchOrders; rewrite Hk; cbn; now repeat split.
Qed.

(** X20: Start a scrape and let the composition root deliver its callbacks
    to the orders store: whatever the server does, page 0 is fetched at
    most once, and exactly once, with the cursor reset to 0, when the
    run ends in status success; a run that ends in error leaves the
    store alone. *)
Theorem scrape_completion_refetches_page_0 (srv : Scraping.Server)
  apiKey url st (h : Scraping.Hook) (s : Orders.Store) :
  JS.truthy apiKey = true ->
  JS.truthy (JS.trim url) = true ->
  data (srv 0%nat (Scraping.ScrapeOrders url)) = Some st ->
  let t := trace srv (Scraping.runScrape apiKey url) in
  let l := Home.deliver apiKey t (s, []) in
  (Scraping.scrapeStatus (final Scraping.exec t h) = st_success ->
   Home.in_flight l =
     [Orders.GetOrders (0 * Orders.PAGE_SIZE) Orders.PAGE_SIZE]
   /\ Orders.currentPage (fst l) = 0
   /\ Orders.ordersStatus (fst l) = st_loading)
  /\ (Scraping.scrapeStatus (final Scraping.exec t h) = st_error ->
      l = (s, [])).
Proof.
  intros Hk Hu Hd. cbv zeta.
  rewrite (runScrape_started srv apiKey url st Hk Hu Hd).
  unfold Scraping.pollWorkflowStatus.
  destruct (poll_loop_budget srv (workflow_id st) Scraping.maxAttempts 1)
    as (Hc & _).
  apply deliver_settled; assumption.
Qed.

End OrdersComposition.

(** ** The export viewers *)

Section Viewers.

Import Api Async.

Lemma existsb_find {X} (f : X -> bool) (l : list X) :
  existsb f l = true -> exists x, find f l = Some x.
Proof.
  induction l as [| y l IH]; cbn; [discriminate |].
  destruct (f y); [now exists y | exact IH].
Qed.

Lemma nonempty_answer {X} (d : list X) :
  d <> [] -> (0 <? List.length d)%nat = true.
Proof. destruct d; [congruence | reflexivity]. Qed.

(** X21: Opening the XML viewer on an order that has exports: the modal
    opens on the exports received and always has a current export to show,
    one of those received and of the selected type (hapodu when there is
    one, taifun otherwise); loading is over and nothing is toasted. *)
Theorem viewOrderXml_has_current_export (srv : ExportViewer.Server)
  apiKey orderId (v : ExportViewer.Viewer) d :
  data (srv 0%nat (ExportViewer.GetOrderExports orderId)) = Some d ->
  d <> [] ->
  let v' :=
    final ExportViewer.exec
      (trace srv (ExportViewer.viewOrderXml apiKey orderId)) v in
  ExportViewer.viewingExports v' = d
  /\ ExportViewer.modal_open v' = true
  /\ ExportViewer.xmlLoading v' = false
  /\ ExportViewer.shown v' = ExportViewer.shown v
  /\ (ExportViewer.selectedExportType v' = ExportViewer.hapodu <->
      exists e, In e d
                /\ ExportViewer.export_type e = ExportViewer.hapodu)
  /\ exists e,
       ExportViewer.getCurrentExport (ExportViewer.viewingExports v')
         (ExportViewer.selectedExportType v') = Some e
       /\ In e d
       /\ ExportViewer.export_type e = ExportViewer.selectedExportType v'.
Proof.
  intros Hd Hne. cbv zeta.
  unfold trace, ExportViewer.viewOrderXml, ExportViewer.await.
  cbn [run]. rewrite Hd, (nonempty_answer d Hne). cbn.
  split; [reflexivity |]. split; [now apply nonempty_answer |].
  split; [reflexivity |]. split; [reflexivity |].
  destruct (existsb
              (fun e => ExportViewer.same_type (ExportViewer.export_type e)
                          ExportViewer.hapodu) d) eqn:Hh.
  - split.
    + split; [intros _ | reflexivity].
      apply existsb_exists in Hh. destruct Hh as (e & Hin & Ht).
      exists e. split; [exact Hin |].
      now destruct (ExportViewer.export_type e).
    + destruct (existsb_find _ _ Hh) as (e & Hf).
      exists e. unfold ExportViewer.getCurrentExport.
      split; [exact Hf |]. apply find_some in Hf. destruct Hf as [Hin Ht].
      split; [exact Hin |]. now destruct (ExportViewer.export_type e).
  - assert (Hall : forall e, In e d ->
                     ExportViewer.export_type e = ExportViewer.taifun).
    { intros e Hin.
      destruct (ExportViewer.export_type e) eqn:Ht; [| reflexivity].
      assert (existsb
                (fun x => ExportViewer.same_type (ExportViewer.export_type x)
                            ExportViewer.hapodu) d = true)
        by (apply existsb_exists; exists e; now rewrite Ht).
      congruence. }
    split.
    + split; [discriminate |]. intros (e & Hin & Ht).
      rewrite (Hall e Hin) in Ht. discriminate Ht.
    + destruct d as [| e d']; [congruence |]. exists e.
      unfold ExportViewer.getCurrentExport. cbn [find].
      rewrite (Hall e (or_introl eq_refl)). cbn.
      split; [reflexivity |]. split; [now left | reflexivity].
Qed.

(** X22: Opening the XML viewer on an order without exports, or when the
    request fails: an error is toasted and the exports shown before stay
    as they were (the modal does not open on a closed viewer), but the
    order id is recorded all the same; loading is over. *)
Theorem viewOrderXml_without_exports (srv : ExportViewer.Server)
  apiKey orderId (v : ExportViewer.Viewer) :
  data (srv 0%nat (ExportViewer.GetOrderExports orderId)) = None
  \/ data (srv 0%nat (ExportViewer.GetOrderExports orderId)) = Some [] ->
  let v' :=
    final ExportViewer.exec
      (trace srv (ExportViewer.viewOrderXml apiKey orderId)) v in
  ExportViewer.viewingExports v' = ExportViewer.viewingExports v
  /\ ExportViewer.selectedExportType v' = ExportViewer.selectedExportType v
  /\ ExportViewer.viewingOrderId v' = Some orderId
  /\ ExportViewer.xmlLoading v' = false
  /\ ExportViewer.shown v' =
       ExportViewer.shown v
         ++ [(JS.or_else
                (error (srv 0%nat (ExportViewer.GetOrderExports orderId)))
                "No XML export found", toast_error)].
Proof.
  intros Hd. cbv zeta.
  unfold trace, ExportViewer.viewOrderXml, ExportViewer.await.
  cbn [run]. destruct Hd as [Hd | Hd]; rewrite Hd; cbn; now repeat split.
Qed.

(** X23: The same for calls: with exports received the viewer selects
    agfeo exactly when an agfeo export was received (taifun otherwise)
    and always has a current export, one of those received and of the
    selected type; without, an error is toasted and the viewer keeps what
    it had. *)
Theorem viewCallExports_has_current_export (srv : CallExports.Server)
  apiKey callId (v : CallExports.Viewer) :
  let answer := data (srv 0%nat (CallExports.GetCallExports callId)) in
  let v' :=
    final CallExports.exec
      (trace srv (CallExports.viewCallExports apiKey callId)) v in
  (forall d, answer = Some d -> d <> [] ->
     CallExports.viewingCallExports v' = d
     /\ CallExports.shown v' = CallExports.shown v
     /\ (CallExports.selectedCallExportType v' = CallExports.agfeo <->
         exists e, In e d
                   /\ CallExports.export_type e = CallExports.agfeo)
     /\ (CallExports.selectedCallExportType v' = CallExports.taifun <->
         forall e, In e d ->
                   CallExports.export_type e = CallExports.taifun)
     /\ exists e,
          CallExports.getCurrentCallExport (CallExports.viewingCallExports v')
            (CallExports.selectedCallExportType v') = Some e
          /\ In e d
          /\ CallExports.export_type e = CallExports.selectedCallExportType v')
  /\ (answer = None \/ answer = Some [] ->
      CallExports.viewingCallExports v' = CallExports.viewingCallExports v
      /\ CallExports.selectedCallExportType v'
         = CallExports.selectedCallExportType v
      /\ CallExports.viewingCallId v' = Some callId
      /\ CallExports.shown v' =
           CallExports.shown v
             ++ [(JS.or_else
                    (error (srv 0%nat (CallExports.GetCallExports callId)))
                    "No exports found", toast_error)]).
Proof.
  cbv zeta.
  unfold trace, CallExports.viewCallExports, CallExports.await.
  cbn [run]. split.
  - intros d Hd Hne. rewrite Hd, (nonempty_answer d Hne). cbn.
    split; [reflexivity |]. split; [reflexivity |].
    destruct (existsb
                (fun e => CallExports.same_type (CallExports.export_type e)
                            CallExports.agfeo) d) eqn:Hh.
    + split; [| split].
      * split; [intros _ | reflexivity].
        apply existsb_exists in Hh. destruct Hh as (e & Hin & Ht).
        exists e. split; [exact Hin |].
        now destruct (CallExports.export_type e).
      * split; [discriminate |]. intros Hall. exfalso.
        apply existsb_exists in Hh. destruct Hh as (e & Hin & Ht).
        rewrite (Hall e Hin) in Ht. discriminate Ht.
      * destruct (existsb_find _ _ Hh) as (e & Hf).
        exists e. unfold CallExports.getCurrentCallExport.
        split; [exact Hf |]. apply find_some in Hf. destruct Hf as [Hin Ht].
        split; [exact Hin |]. now destruct (CallExports.export_type e).
    + assert (Hall : forall e, In e d ->
                CallExports.export_type e = CallExports.taifun).
      { intros e Hin.
        destruct (CallExports.export_type e) eqn:Ht; [| reflexivity].
        exfalso.
        assert (Hx : existsb
                  (fun e => CallExports.same_type (CallExports.export_type e)
                              CallExports.agfeo) d = true)
          by (apply existsb_exists; exists e; split;
              [exact Hin | now rewrite Ht]).
        congruence. }
      split; [| split].
      * split; [discriminate |]. intros (e & Hin & Ht).
        rewrite (Hall e Hin) in Ht. discriminate Ht.
      * split; [intros _; exact Hall | reflexivity].
      * destruct d as [| e d']; [congruence |]. exists e.
        unfold CallExports.getCurrentCallExport. cbn [find].
        rewrite (Hall e (or_introl eq_refl)). cbn.
        split; [reflexivity |]. split; [now left | reflexivity].
  - intros [Hd | Hd]; rewrite Hd; cbn; now repeat split.
Qed.

End Viewers.

(** ** Convert All, the health check and the client *)

Section SmallHooks.

Import Api Async.

(** X24: Convert All with a key: a confirmed run zeroes the pending count
    (so the banner goes away), toasts the server's message and asks for one
    refresh of the orders; a refused run toasts the error and leaves the
    count and the orders alone.  Either way one status reset is
    scheduled, 3000 ms later; without a key only the error toast
    happens. *)
Theorem convertAllPending_outcomes (srv : Conversions.Server) apiKey
  (p : Conversions.Panel) :
  let t := trace srv (Conversions.convertAllPending apiKey) in
  let p' := final Conversions.exec t p in
  if JS.truthy apiKey then
    requests t = [Conversions.TriggerAllConversions]
    /\ Conversions.resets p' = Conversions.resets p ++ [3000]
    /\ match data (srv 0%nat Conversions.TriggerAllConversions) with
       | Some d =>
           Conversions.pendingCount p' = 0
           /\ ScrapingSection.shows_convert_all apiKey
                (Conversions.pendingCount p') = false
           /\ Conversions.refreshes p' = S (Conversions.refreshes p)
           /\ Conversions.convertAllStatus p' = st_success
           /\ Conversions.shown p' =
                Conversions.shown p
                  ++ [(Conversions.conv_message d, toast_success)]
       | None =>
           Conversions.pendingCount p' = Conversions.pendingCount p
           /\ Conversions.refreshes p' = Conversions.refreshes p
           /\ Conversions.convertAllStatus p' = st_error
           /\ Conversions.shown p' =
                Conversions.shown p
                  ++ [(JS.or_else
                         (error (srv 0%nat Conversions.TriggerAllConversions))
                         "Conversion failed", toast_error)]
       end
  else
    t = [EvCmd (Conversions.ShowToast "API key required" toast_error)].
Proof.
  cbv zeta. unfold trace, Conversions.convertAllPending.
  destruct (JS.truthy apiKey) eqn:Hk; cbn [negb run]; [| reflexivity].
  unfold Conversions.await. cbn [run].
  destruct (data (srv 0%nat Conversions.TriggerAllConversions)) as [d |];
    cbn; repeat split.
  unfold ScrapingSection.shows_convert_all. now rewrite andb_false_r.
Qed.

(** X25: The health check: a failed check forgets the health data of an
    earlier check, toasts the error and turns the light red; after a
    successful one the light is green exactly when the server reports the
    database connected, and red otherwise.  The light is never left
    yellow. *)
Theorem checkHealth_light (srv : Health.Server) (k : Health.Card) :
  let k' := final Health.exec (trace srv Health.checkHealth) k in
  requests (trace srv Health.checkHealth) = [Health.HealthCheck]
  /\ Health.light k' <> Health.Yellow
  /\ match data (srv 0%nat Health.HealthCheck) with
     | Some d =>
         Health.health k' = Some d
         /\ Health.shown k' = Health.shown k
         /\ (Health.light k' = Health.Green
             <-> Health.database d = "connected")
     | None =>
         Health.health k' = None
         /\ Health.light k' = Health.Red
         /\ Health.shown k' =
              Health.shown k
                ++ [(JS.or_else (error (srv 0%nat Health.HealthCheck))
                       "Health check failed", toast_error)]
     end.
Proof.
  cbv zeta. unfold trace, Health.checkHealth, Health.await. cbn [run].
  destruct (data (srv 0%nat Health.HealthCheck)) as [d |]; cbn.
  - unfold Health.light. cbn.
    destruct (String.eqb_spec (Health.database d) "connected") as [E | N];
      repeat split; try discriminate; try tauto.
  - repeat split. discriminate.
Qed.

Lemma orders_endpoint_not_health r :
  (Orders.endpoint r =? "/health")%string = false.
Proof. now destruct r. Qed.

Lemma schedules_endpoint_not_health r :
  (Schedules.endpoint r =? "/health")%string = false.
Proof. now destruct r. Qed.

(** X26: What [request] sends and returns.  The credential header is
    attached exactly when the key is non-empty and the endpoint is not
    [/health], and then it carries the key: every request of the orders
    and schedules hooks made with a key carries it, the health check never
    does.  The result never holds both data and an error; it holds
    neither exactly after an answer that is ok with a falsy JSON body,
    and then the callers show their own default text; the error of a
    response that is not ok is never empty. *)
Theorem request_contract apiKey endpoint :
  (In ("X-API-Key", apiKey) (request_headers apiKey endpoint) <->
   JS.truthy apiKey = true /\ endpoint <> "/health")
  /\ (forall v, In ("X-API-Key", v) (request_headers apiKey endpoint) ->
                v = apiKey)
  /\ In ("Content-Type", "application/json") (request_headers apiKey endpoint)
  /\ (forall r, JS.truthy apiKey = true ->
        In ("X-API-Key", apiKey) (request_headers apiKey (Orders.endpoint r)))
  /\ (forall r, JS.truthy apiKey = true ->
        In ("X-API-Key", apiKey)
          (request_headers apiKey (Schedules.endpoint r)))
  /\ request_headers apiKey (Health.endpoint Health.HealthCheck) =
       [("Content-Type", "application/json")]
  /\ (forall T (t : Transport T) body,
        data (request_result t) = Some body ->
        error (request_result t) = None /\ exists code, t = HttpOk code body)
  /\ (forall T (t : Transport T),
        data (request_result t) = None /\ error (request_result t) = None
        <-> exists code, t = HttpOkFalsy code)
  /\ (forall T code default,
        JS.or_else (error (@request_result T (HttpOkFalsy code))) default
        = default)
  /\ (forall T code detail,
        JS.truthy_opt
          (error (@request_result T (HttpNotOk code detail))) = true).
Proof.
  unfold request_headers.
  split; [| split; [| split; [now left | split; [| split; [| split;
    [| split; [| split; [| split]]]]]]]].
  - destruct (JS.truthy apiKey) eqn:Hk; cbn [andb].
    + destruct (String.eqb_spec endpoint "/health") as [E | N]; cbn.
      * split; [intros [H | []]; discriminate H | tauto].
      * split; [tauto | intros _; right; now left].
    + cbn. split; [intros [H | []]; discriminate H | intros [H _];
                   discriminate H].
  - intros v.
    destruct (JS.truthy apiKey && negb (endpoint =? "/health")%string); cbn;
      intros [H | H]; try discriminate H; try contradiction.
    destruct H as [H | []]. now injection H.
  - intros r Hk. rewrite Hk, orders_endpoint_not_health. right. now left.
  - intros r Hk. rewrite Hk, schedules_endpoint_not_health. right. now left.
  - cbn. now rewrite andb_false_r.
  - intros T [code b | code | code detail | [m |]] body; cbn;
      intros H; try discriminate H.
    injection H as ->. split; [reflexivity | now exists code].
  - intros T [code b | code | code detail | [m |]]; cbn;
      (split; [intros [Hd He]; try discriminate Hd; try discriminate He
              | intros [c Hc]; try discriminate Hc]).
    + now exists code.
    + now split.
  - reflexivity.
  - intros T code detail. exact (proj1 (request_result_not_ok code detail)).
Qed.

End SmallHooks.

(** ** The schedule coordinator *)

Section ScheduleCoordinator.

Import Api Async Schedules SchedulesState.

Variable srv : Server.

(** X27: Add, remove, toggle and sync with a key: the entries and the active
    flag are never patched locally.  When the server accepts the change
    the list is fetched again and the cache takes what that fetch returns
    (and keeps what it had if the fetch fails); when the server refuses,
    nothing is fetched, the cache keeps what it had and the error is
    toasted.  Only add schedules a status reset, 2000 ms later. *)
Theorem mutation_refetches_only_when_accepted apiKey m (k : Cache) :
  JS.truthy apiKey = true ->
  let t := trace srv (mutate apiKey m) in
  let k' := final exec t k in
  resets k' = resets k ++ match m with Add _ _ => [2000] | _ => [] end
  /\ if accepted m srv then
       requests t = [request_of m; GetSchedules]
       /\ (exists text, shown k' = shown k ++ [(text, toast_success)])
       /\ match data (srv 1%nat GetSchedules) with
          | Some d =>
              schedules k' = Api.schedules d
              /\ scheduleActive k' = schedule_active d
          | None =>
              schedules k' = schedules k
              /\ scheduleActive k' = scheduleActive k
          end
     else
       requests t = [request_of m]
       /\ (exists text, shown k' = shown k ++ [(text, toast_error)])
       /\ schedules k' = schedules k
       /\ scheduleActive k' = scheduleActive k.
Proof.
  intros Hk. cbv zeta.
  destruct m as [hour minute | id | id |];
    unfold trace, mutate, accepted, request_of, addSchedule, removeSchedule,
      toggleScheduleEnabled, syncSchedules, fetchSchedules;
    rewrite Hk; cbn [negb run]; unfold await; cbn [run];
    match goal with
    | |- context [data (srv 0%nat ?r)] =>
        destruct (data (srv 0%nat r)) as [d |]
    end;
    cbn [unawaited fold_right run];
    try (destruct (data (srv 1%nat GetSchedules)) as [d' |];
         [| destruct (JS.truthy_opt (error (srv 1%nat GetSchedules)))]);
    cbn; rewrite ?app_nil_r; repeat split; eauto.
Qed.

(** X28: A failed fetch of the schedules is silent for the user: no toast,
    the cached entries and the active flag stay, and the error goes to
    the console only. *)
Theorem fetchSchedules_failure_is_silent apiKey (k : Cache) :
  JS.truthy apiKey = true ->
  data (srv 0%nat GetSchedules) = None ->
  let k' := final exec (trace srv (fetchSchedules apiKey)) k in
  shown k' = shown k
  /\ schedules k' = schedules k
  /\ scheduleActive k' = scheduleActive k
  /\ scheduleStatus k' = scheduleStatus k
  /\ (JS.truthy_opt (error (srv 0%nat GetSchedules)) = true <->
      logged k' <> logged k).
Proof.
  intros Hk Hd. cbv zeta. unfold trace, fetchSchedules. rewrite Hk.
  cbn [negb run]. unfold await. cbn [run]. rewrite Hd.
  destruct (JS.truthy_opt (error (srv 0%nat GetSchedules))); cbn;
    repeat split; try discriminate; try congruence.
  intros _ H. apply (f_equal (@List.length _)) in H.
  rewrite length_app in H. cbn in H. lia.
Qed.

End ScheduleCoordinator.

(** ** The order editor *)

Section Editing.

Import Api Async OrderEditor.

Variable srv : Server.

(** X29: Submitting an edit.  With no order being edited nothing happens at
    all.  Otherwise the update carries the id of the edited order and the
    two edited fields, and one status reset is scheduled 2000 ms later;
    when the server confirms, the edit is closed and its fields are
    emptied; when it refuses, the edit stays open with the fields as
    typed, nothing is fetched and the orders shown stay. *)
Theorem updateOrder_outcomes apiKey (e : Editor) :
  let t := trace srv (submit apiKey e) in
  let e' := final exec t e in
  match editingOrder e with
  | None => t = []
  | Some o =>
      let u := UpdateOrder (order_pk o) (editOrderId e) (editStatus e) in
      hd_error (requests t) = Some u
      /\ resets e' = resets e ++ [2000]
      /\ match data (srv 0%nat u) with
         | Some _ =>
             editingOrder e' = None
             /\ editOrderId e' = "" /\ editStatus e' = ""
             /\ (JS.truthy apiKey = true ->
                 requests t =
                   [u; StoreReq
                         (Orders.GetOrders
                            (Orders.currentPage (store e) * Orders.PAGE_SIZE)
                            Orders.PAGE_SIZE)])
         | None =>
             editingOrder e' = Some o
             /\ editOrderId e' = editOrderId e
             /\ editStatus e' = editStatus e
             /\ updateStatus e' = st_error
             /\ requests t = [u]
             /\ Orders.orders (store e') = Orders.orders (store e)
         end
  end.
Proof.
  cbv zeta. unfold submit, updateOrder.
  destruct (editingOrder e) as [o |] eqn:Ho; [| reflexivity].
  unfold trace, await, cancelEdit, done, Orders.fetchOrders.
  cbn [run bind].
  destruct (data (srv 0%nat (UpdateOrder (order_pk o) (editOrderId e)
                               (editStatus e)))) as [d |]; cbn [run bind].
  - destruct (JS.truthy apiKey) eqn:Hk; cbn [negb]; unfold Orders.await;
      cbn [lift unawaited fold_right run].
    + destruct (data (srv 1%nat
                        (StoreReq
                           (Orders.GetOrders
                              (Orders.currentPage (store e) * Orders.PAGE_SIZE)
                              Orders.PAGE_SIZE)))); cbn; now repeat split.
    + cbn. repeat split. discriminate.
  - cbn. now repeat split.
Qed.

(** X30: Opening an edit seeds the two fields from the order, so that
    submitting at once sends the order's own values; cancelling empties
    the fields and closes the edit. *)
Theorem startEdit_seeds_and_cancelEdit_clears apiKey order (e : Editor) :
  let opened := final exec (trace srv (startEdit order)) e in
  let closed := final exec (trace srv cancelEdit) opened in
  (editingOrder opened = Some order
   /\ editOrderId opened = order_id order
   /\ editStatus opened = order_status order)
  /\ hd_error (requests (trace srv (submit apiKey opened))) =
       Some (UpdateOrder (order_pk order) (order_id order)
               (order_status order))
  /\ (editingOrder closed, editOrderId closed, editStatus closed)
     = (editingOrder initial, editOrderId initial, editStatus initial)
  /\ trace srv (submit apiKey closed) = []
  /\ store closed = store e.
Proof.
  cbv zeta. unfold trace, startEdit, cancelEdit, submit, updateOrder.
  cbn. unfold await. cbn [run].
  repeat split.
  destruct (run srv 1 _). reflexivity.
Qed.

End Editing.

(** ** The further properties on concrete runs *)

Section FurtherExamples.

Import Api Async.

Lemma runScrape_always_settles_witness :
  let t := trace Cases.clean_success
             (Scraping.runScrape "secret" "https://example.org/orders") in
  let h := final Scraping.exec t Scraping.initial in
  Scraping.currentWorkflowId h = None
  /\ ((Scraping.scrapeStatus h = st_success
       /\ Scraping.callbacks_of t = 1%nat)
      \/ (Scraping.scrapeStatus h = st_error
          /\ Scraping.callbacks_of t = 0%nat
          /\ Scraping.scrapeResult h = None)).
Proof.
  apply (runScrape_always_settles Cases.clean_success "secret"
           "https://example.org/orders" (mkTriggered "wf-2")
           Scraping.initial); reflexivity.
Defined.

Lemma runScrape_rejects_blank_url_witness :
  trace Cases.clean_success (Scraping.runScrape "secret" "   ") =
    [EvCmd (Scraping.ShowToast "Order list URL required" toast_error)].
Proof.
  apply (runScrape_rejects_blank_url Cases.clean_success "secret" "   ").
  reflexivity.
Defined.

Lemma runScrape_start_failure_witness :
  let t := trace Cases.start_refused
             (Scraping.runScrape "secret" "https://example.org/orders") in
  requests t = [Scraping.ScrapeOrders "https://example.org/orders"]
  /\ Scraping.toasts_of t = [("Invalid order list URL", toast_error)]
  /\ Scraping.callbacks_of t = 0%nat
  /\ Scraping.scrapeStatus (final Scraping.exec t Scraping.initial)
     = st_error
  /\ Scraping.currentWorkflowId (final Scraping.exec t Scraping.initial)
     = None.
Proof.
  apply (runScrape_start_failure Cases.start_refused "secret"
           "https://example.org/orders" Scraping.initial); reflexivity.
Defined.

Lemma runScrape_clean_success_witness :
  let t := trace Cases.clean_success
             (Scraping.runScrape "secret" "https://example.org/orders") in
  Scraping.toasts_of t =
    [("Workflow started - please wait...", toast_success);
     ("Done: 2 processed, 1 skipped", toast_success)]
  /\ Scraping.callbacks_of t = 1%nat
  /\ Scraping.polls_of t = 3%nat
  /\ Scraping.scrapeStatus (final Scraping.exec t Scraping.initial)
     = st_success
  /\ Scraping.scrapeResult (final Scraping.exec t Scraping.initial)
     = Some (mkWorkflowResult 1 2 0).
Proof.
  apply (runScrape_clean_success Cases.clean_success "secret"
           "https://example.org/orders" (mkTriggered "wf-2") 2
           (mkWorkflowStatus COMPLETED (Some (mkWorkflowResult 1 2 0)) None)
           Scraping.initial).
  - reflexivity.
  - reflexivity.
  - reflexivity.
  - unfold Scraping.maxAttempts. lia.
  - intros j Hj.
    exists (mkWorkflowStatus RUNNING None None).
    destruct j as [| [| j]]; [repeat split .. | lia].
  - split; reflexivity.
  - reflexivity.
  - intros r Hr. injection Hr as <-. cbn. lia.
Defined.

Lemma runScrape_terminal_failure_witness :
  let t := trace Cases.terminated_late
             (Scraping.runScrape "secret" "https://example.org/orders") in
  Scraping.toasts_of t =
    [("Workflow started - please wait...", toast_success);
     ("Terminated by operator", toast_error)]
  /\ Scraping.callbacks_of t = 0%nat
  /\ Scraping.polls_of t = 2%nat
  /\ Scraping.scrapeStatus (final Scraping.exec t Scraping.initial)
     = st_error
  /\ Scraping.currentWorkflowId (final Scraping.exec t Scraping.initial)
     = None.
Proof.
  apply (runScrape_terminal_failure Cases.terminated_late "secret"
           "https://example.org/orders" (mkTriggered "wf-3") 1
           (mkWorkflowStatus TERMINATED None (Some "Terminated by operator"))
           Scraping.initial).
  - reflexivity.
  - reflexivity.
  - reflexivity.
  - unfold Scraping.maxAttempts. lia.
  - intros j Hj.
    exists (mkWorkflowStatus RUNNING None None).
    destruct j as [| j]; [repeat split | lia].
  - split; reflexivity.
  - right. right. left. reflexivity.
Defined.

Lemma saved_url_is_loaded_back_witness :
  Scraping.scrapeUrl
    (final Scraping.exec
       (trace (Cases.config_holds (Some "https://example.org/orders"))
          (Scraping.loadSavedUrl "secret"))
       Scraping.initial)
  = "https://example.org/orders".
Proof.
  apply (saved_url_is_loaded_back Scenario.never_done
           (Cases.config_holds (Some "https://example.org/orders"))
           "secret" "  https://example.org/orders "
           (Some "https://example.org/orders")).
  - reflexivity.
  - cbn. left. reflexivity.
  - reflexivity.
Defined.

Lemma each_burst_saves_once_witness :
  let edits :=
    ((0, "https://example.org/orders") :: Scenario.typing)
      ++ (2400, "https://example.org/orders?page") :: Cases.retyping in
  let typed := UrlEditor.type_all edits UrlEditor.initial in
  UrlEditor.saved (UrlEditor.fire_due 3600 typed) =
    [(1400, "https://example.org/orders?page=2");
     (3600, "https://example.org/orders?page=3")]
  /\ UrlEditor.saved typed = [(1400, "https://example.org/orders?page=2")]
  /\ UrlEditor.timers (UrlEditor.fire_due 3600 typed) = []
  /\ UrlEditor.scrapeUrl typed = "https://example.org/orders?page=3".
Proof.
  apply (each_burst_saves_once UrlEditor.initial
           0 "https://example.org/orders" Scenario.typing
           2400 "https://example.org/orders?page" Cases.retyping 3600).
  - reflexivity.
  - cbn. lia.
  - cbn. lia.
  - cbn. lia.
  - cbn. lia.
Defined.

Lemma unmount_drops_pending_save_witness :
  let typed :=
    UrlEditor.type_all
      ((0, "https://example.org/orders") :: Scenario.typing)
      UrlEditor.initial in
  UrlEditor.timers (UrlEditorCleanup.unmount typed) = []
  /\ UrlEditor.saved
       (UrlEditor.fire_due 86400000 (UrlEditorCleanup.unmount typed)) = []
  /\ UrlEditor.scrapeUrl (UrlEditorCleanup.unmount typed)
     = "https://example.org/orders?page=2".
Proof.
  apply (unmount_drops_pending_save UrlEditor.initial
           0 "https://example.org/orders" Scenario.typing 86400000).
  - reflexivity.
  - cbn. lia.
Defined.

Lemma fetchOrders_failure_keeps_counters_witness :
  let shown0 :=
    fst (Orders.resolve Scenario.orders_server 0
           (Orders.call (Orders.goToPage "secret" 0) (Orders.initial, []))) in
  let s' :=
    final Orders.exec
      (trace Scenario.orders_unauthorized (Orders.fetchOrders "secret" 1))
      shown0 in
  Orders.orders s' = []
  /\ Orders.ordersStatus s' = st_error
  /\ Orders.shown s' = [("Invalid API key", toast_error)]
  /\ Orders.ordersTotal s' = 11
  /\ Orders.currentPage s' = 0
  /\ Orders.pendingUploads s' = 1.
Proof.
  apply (fetchOrders_failure_keeps_counters Scenario.orders_unauthorized
           "secret" 1
           (fst (Orders.resolve Scenario.orders_server 0
                   (Orders.call (Orders.goToPage "secret" 0)
                      (Orders.initial, []))))); reflexivity.
Defined.

Lemma fetchOrders_counts_upload_buttons_witness :
  let s' :=
    final Orders.exec
      (trace Cases.orders_always (Orders.fetchOrders "secret" 0))
      Orders.initial in
  Orders.orders s' = Scenario.page0
  /\ Orders.ordersTotal s' = 11
  /\ Orders.ordersStatus s' = st_success
  /\ Orders.pendingUploads s' = 1
  /\ 0 <= Orders.pendingUploads s' <= 2
  /\ ScrapingSection.shows_upload_all "secret" (Orders.pendingUploads s')
     = true
  /\ Orders.shown s' = [].
Proof.
  apply (fetchOrders_counts_upload_buttons Cases.orders_always "secret" 0
           Orders.initial (mkOrderList Scenario.page0 11)); reflexivity.
Defined.

Lemma deleteOrder_refetches_current_page_witness :
  let t := trace Cases.orders_always (Orders.deleteOrder "secret" 1 11) in
  requests t =
    [Orders.DeleteOrder 11; Orders.GetOrders (1 * Orders.PAGE_SIZE)
                              Orders.PAGE_SIZE]
  /\ hd_error (OrdersObserve.toasts_of t)
     = Some ("Order deleted", toast_success).
Proof.
  cbv zeta.
  apply (proj1 (deleteOrder_refetches_current_page Cases.orders_always
                  "secret" 1 11 Orders.initial eq_refl)
           (mkMessage "Order deleted")).
  reflexivity.
Defined.

Lemma uploadAllOrders_always_resets_witness :
  let t := trace Cases.orders_always (Orders.uploadAllOrders "secret" 1) in
  let s' := final Orders.exec t Orders.initial in
  requests t = [Orders.TriggerAllUploads]
  /\ Orders.orders s' = []
  /\ Orders.uploadAllStatus s' = st_success
  /\ Orders.timeouts s' =
       [(Orders.RefetchOrders 1, 3000); (Orders.ResetUploadAllStatus, 3000)]
  /\ Orders.shown s' = [("1 upload(s) triggered", toast_success)].
Proof.
  apply (uploadAllOrders_always_resets Cases.orders_always "secret" 1
           Orders.initial).
  reflexivity.
Defined.

Lemma pager_stays_in_range_witness :
  (1 <= OrdersTable.showing_from 1 10 <= OrdersTable.showing_to 1 10 11
   /\ OrdersTable.showing_to 1 10 11 <= 11
   /\ OrdersTable.showing_to 1 10 11 - OrdersTable.showing_from 1 10 + 1
      <= 10)
  /\ 1 + 1 <= OrdersTable.totalPages 11 10
  /\ (OrdersTable.next_disabled 1 10 11 st_success = true
      <-> 1 + 1 = OrdersTable.totalPages 11 10)
  /\ (OrdersTable.previous_disabled 1 st_success = true <-> 1 = 0)
  /\ (OrdersTable.next_disabled 1 10 11 st_success = false ->
      (1 + 1) * 10 < 11)
  /\ (OrdersTable.previous_disabled 1 st_success = false ->
      0 <= 1 - 1 /\ (1 - 1) * 10 < 11).
Proof.
  apply (pager_stays_in_range 1 10 11 st_success);
    [lia | lia | lia | reflexivity].
Defined.

Lemma empty_page_shows_empty_state_witness :
  let s' :=
    final Orders.exec
      (trace Scenario.orders_unauthorized (Orders.fetchOrders "secret" 0))
      Orders.initial in
  OrdersTable.body "secret" (Orders.orders s') (Orders.ordersStatus s')
    = OrdersTable.EmptyState.
Proof.
  cbv zeta.
  apply (empty_page_shows_empty_state Scenario.orders_unauthorized
           "secret" 0 Orders.initial eq_refl).
  reflexivity.
Defined.

Lemma delayed_refetch_shows_page_of_click_witness :
  let clicked :=
    Orders.resolve Scenario.orders_server 0
      (Orders.call (Orders.uploadSingleOrder "secret" 0 1)
         (Orders.initial, [])) in
  let moved :=
    Orders.resolve Scenario.orders_server 0
      (Orders.call (Orders.goToPage "secret" 1) clicked) in
  let fired :=
    Orders.resolve Scenario.orders_server 0
      (Orders.call
         (OrdersTimers.run_callback "secret" (Orders.RefetchOrders 0))
         moved) in
  Orders.timeouts (fst clicked) = [(Orders.RefetchOrders 0, 3000)]
  /\ (Orders.orders (fst moved) = Scenario.page1
      /\ Orders.currentPage (fst moved) = 1)
  /\ (Orders.orders (fst fired) = Scenario.page0
      /\ Orders.currentPage (fst fired) = 1
      /\ snd fired = []).
Proof.
  apply (delayed_refetch_shows_page_of_click "secret" 0 1 1
           Scenario.orders_server Orders.initial (mkTriggered "upload-1")
           (mkOrderList Scenario.page0 11) (mkOrderList Scenario.page1 11));
    reflexivity.
Defined.

Lemma scrape_completion_refetches_page_0_witness :
  let t := trace Cases.clean_success
             (Scraping.runScrape "secret" "https://example.org/orders") in
  let l := Home.deliver "secret" t (Orders.initial, []) in
  Home.in_flight l =
    [Orders.GetOrders (0 * Orders.PAGE_SIZE) Orders.PAGE_SIZE]
  /\ Orders.currentPage (fst l) = 0
  /\ Orders.ordersStatus (fst l) = st_loading.
Proof.
  cbv zeta.
  apply (scrape_completion_refetches_page_0 Cases.clean_success "secret"
           "https://example.org/orders" (mkTriggered "wf-2")
           Scraping.initial Orders.initial eq_refl eq_refl eq_refl).
  reflexivity.
Defined.

Lemma viewOrderXml_has_current_export_witness :
  let v' :=
    final ExportViewer.exec
      (trace Cases.exports_server (ExportViewer.viewOrderXml "secret" 7))
      ExportViewer.initial in
  ExportViewer.viewingExports v' = Cases.exports_of_7
  /\ ExportViewer.modal_open v' = true
  /\ ExportViewer.xmlLoading v' = false
  /\ ExportViewer.shown v' = ExportViewer.shown ExportViewer.initial
  /\ (ExportViewer.selectedExportType v' = ExportViewer.hapodu <->
      exists e, In e Cases.exports_of_7
                /\ ExportViewer.export_type e = ExportViewer.hapodu)
  /\ exists e,
       ExportViewer.getCurrentExport (ExportViewer.viewingExports v')
         (ExportViewer.selectedExportType v') = Some e
       /\ In e Cases.exports_of_7
       /\ ExportViewer.export_type e = ExportViewer.selectedExportType v'.
Proof.
  apply (viewOrderXml_has_current_export Cases.exports_server "secret" 7
           ExportViewer.initial Cases.exports_of_7).
  - reflexivity.
  - discriminate.
Defined.

Lemma viewOrderXml_without_exports_witness :
  let v' :=
    final ExportViewer.exec
      (trace Cases.exports_server (ExportViewer.viewOrderXml "secret" 8))
      ExportViewer.initial in
  ExportViewer.viewingExports v' = []
  /\ ExportViewer.selectedExportType v' = ExportViewer.hapodu
  /\ ExportViewer.viewingOrderId v' = Some 8
  /\ ExportViewer.xmlLoading v' = false
  /\ ExportViewer.shown v' = [("No XML export found", toast_error)].
Proof.
  apply (viewOrderXml_without_exports Cases.exports_server "secret" 8
           ExportViewer.initial).
  right. reflexivity.
Defined.

Lemma mutation_refetches_only_when_accepted_witness :
  let t := trace Cases.schedules_server
             (SchedulesState.mutate "secret" (SchedulesState.Add 18 30)) in
  let k' :=
    final SchedulesState.exec t
      (SchedulesState.mkCache [] false st_idle "" [] [] []) in
  SchedulesState.resets k' = [2000]
  /\ requests t = [Schedules.CreateSchedule 18 30; Schedules.GetSchedules]
  /\ (exists text, SchedulesState.shown k' = [(text, toast_success)])
  /\ SchedulesState.schedules k' = Cases.listed
  /\ SchedulesState.scheduleActive k' = true.
Proof.
  apply (mutation_refetches_only_when_accepted Cases.schedules_server
           "secret" (SchedulesState.Add 18 30)
           (SchedulesState.mkCache [] false st_idle "" [] [] [])).
  reflexivity.
Defined.

Lemma fetchSchedules_failure_is_silent_witness :
  let k := SchedulesState.mkCache Cases.listed true st_idle "" [] [] [] in
  let k' :=
    final SchedulesState.exec
      (trace Scenario.schedules_unauthorized
         (Schedules.fetchSchedules "secret")) k in
  SchedulesState.shown k' = []
  /\ SchedulesState.schedules k' = Cases.listed
  /\ SchedulesState.scheduleActive k' = true.
Proof.
  cbv zeta.
  destruct (fetchSchedules_failure_is_silent Scenario.schedules_unauthorized
              "secret"
              (SchedulesState.mkCache Cases.listed true st_idle "" [] [] [])
              eq_refl eq_refl)
    as (Hshown & Hitems & Hactive & _).
  split; [exact Hshown |]. split; [exact Hitems | exact Hactive].
Defined.

End FurtherExamples.
